(* ===== verification/_CoqProject ===== *)
-Q . S2P
Prelude.v
Feature.v
Styles.v
Draw.v
Area.v
Storage.v
Json.v
MapAdapter.v
App.v
System.v
Paint.v
Refinement.v
Page.v
