(* ===== verification/Prelude.v ===== *)
(** * mapbox-fun: a verification development of the drawing/list synchronisation

    ** The program

    src/src is a React page of two components and a style file.
    - [Map.tsx] ([Map]) wraps a Mapbox map and a MapboxDraw widget.  Its
      state is the refs [draw], [map], [lineColorRef], [fillColorRef] and
      the states [roundedArea], [lineColor], [fillColor].  Its handlers are
      the colour pickers, the ['load'] listener that restores the saved
      drawings, [updateMap] on [draw.create/update/delete] (colour the new
      features, recompute the area, send the collection up through
      [props.mapDrawings], persist it with [storeDrawings]), and two
      commands exposed to the parent by [useImperativeHandle]: [clearAll]
      and [deleteDrawing].
    - [App.tsx] ([App]) keeps the list [drawData], initialised from
      localStorage, replaced by every [mapDrawings] call, and offers a
      Delete button per card and "Clear Drawing List"; both call into the
      Map through [mapRef] and then write localStorage themselves.
    - [styles/mapboxStyles.ts] gives the widget's layers, whose colours
      read the features' [lineColor]/[fillColor] properties.
    Both components read and write the one localStorage entry
    [user_drawings], a JSON array of GeoJSON features.

    ** Files (in _CoqProject order)
    - [Prelude] (this file): the [result] type of code that may throw
      ([js_error] is a TypeError or SyntaxError), its bind notation
      [x <- c ;; k] in [mapfun_scope], the tactics [inv] and
      [simpl_result], the hint database [mapfun], list lemmas.
    - [Feature]: GeoJSON data ([position] in millionths of a degree,
      [Geometry], [Properties] with JavaScript property assignment
      [obj_set], [feature]); [remove_id] is App's filter; [shape_eq]
      ([≈]) compares collections by ids and geometries, with [Proper]
      instances for setoid rewriting.
    - [Styles]: mapboxStyles.ts as data, and the colour a layer paints:
      the expression's value through mapbox-gl's [to-color] coercion
      ([css_color] is csscolorparser's test that [parseCSSColor]
      succeeds), or the property default ['#000000'] when it fails.
    - [Draw]: the widget as an interface.  [DrawApi] lists the methods
      Map.tsx calls and the user interactions that fire events;
      [DrawLaws] states what the component proofs need of them;
      [ListDraw] implements both like mapbox-gl-draw's feature store.
    - [Area]: turf's [area] (spherical ring area over rationals, with
      [Math.sin] and [Math.PI] as Section variables) and the page's
      rounding [round2] = [Math.round(a * 100) / 100].
    - [Storage]: localStorage as a stdpp [gmap string string];
      [JsonCodec] is the class of [JSON.stringify]/[JSON.parse] on
      feature arrays; [storeDrawings] (Map.tsx 67-76) and
      [saved_drawings] (App.tsx 15-22).
    - [Json]: an executable JSON printer and parser and the GeoJSON
      encoding of features; [Json.codec] is the [JsonCodec] instance.
      The printer escapes strings as [JSON.stringify]'s QuoteJSONString
      does; the parser skips JSON whitespace between tokens, decodes
      escapes and rejects raw control characters, a bare sign and leading zeros.
    - [MapAdapter] ([MapComponent]): [render_map] is the JSX's calculation
      box and colour inputs; the Map's state as the record
      [MapState] and each handler as a function from state and storage to
      new state, storage and the outputs it produces ([Emit] for a
      [props.mapDrawings] call, [Alert] for [alert]); [updateMap] and
      [onLoad] return [result] because [setFeatureProperty] and
      [JSON.parse] may throw.  The [handle] record is the object given to
      [useImperativeHandle].
    - [App] ([AppComponent]): App's world (the child's state, [drawData],
      localStorage, alerts); [deleteDrawing] and [handleClearList] run the
      child's command, apply its outputs, then App's own updates in
      program order; [render] is the list part of the JSX.
    - [System]: the page as a whole.  [boot] is the first render, [step]
      one event handled to completion (load, a drawing, an edit, a trash,
      a colour change, a Delete click, a Clear click), [reachable] its
      closure from a localStorage.
    - [Refinement]: the specification's model ([Spec]: one collection,
      mirrored in storage, changed by create, update, trash, delete and
      clear, loaded at startup) and the abstraction [abs] of a page state
      to it; every page run is a run of the model, and every operation of
      the model is available on a loaded page, through the interaction
      that offers it ([perform]: a widget event, a card's Delete, the
      Clear button).
    - [Paint]: [System] composed with [Styles]: what the map paints a new
      drawing with, before and after a reload.
    - [Page]: the components instantiated ([ListDraw], [Json.codec], a
      Taylor sine and 355/113 for pi); the witnesses of the properties
      are proved there by evaluation on concrete runs.

    ** Theorems
    - Consistency (System): in every reachable state App's list, the
      stored collection and the widget agree (ids and geometries), the
      area shown is the rounded area of the widget's collection, and the
      colour refs equal the colour states; proved by rule induction with
      the invariant [inv_at].  Reloading restores the list; every state
      renders; Delete of an absent id changes nothing; the two ways of
      emptying the list differ on reload ([emptied_list_reload]: after
      deleting the last drawing the entry holds [[]] and no prompt
      appears, after Clear it is removed and the colour prompt appears).
    - Refinement: [reachable_refines] (the page refines the spec's
      model, by [step_refines] on each step) and [spec_ops_available]
      (the converse: each of the model's operations is performed by the
      interaction that offers it, and leaves the widget and localStorage
      holding the operation's result);
      [load_enabled] (liveness: before the map's ['load'] it can always
      fire); [delete_equiv_trash] (a list Delete and a widget trash give
      equivalent pages); [page_view_consistent] (heading, area box and
      colour inputs show the widget's state).
    - The handlers (MapAdapter, App): the exact result of [updateMap],
      [deleteDrawing], [clearAll], [onLoad] on every branch, errors
      included ([setFeatureProperty] on a missing id, [JSON.parse] of a
      corrupted entry), and of App's handlers; the load listener shows
      turf's area unclamped, negative for a stored polygon whose hole
      exceeds its outer ring ([onLoad_negative_area]).
    - Round trips (Json): parsing printed JSON gives it back, for every
      string (control characters, quotes and backslashes included); the
      text [storeDrawings] writes parses to the features stored, also
      with whitespace around it.
    - Arithmetic (Area): [round2] is within 1/200 of the area, idempotent,
      positive on areas of at least 1/200 and negative below -1/200.
    - The list's React keys ([card_keys], [drawing.id || index]) collide
      when a drawing with an empty id sits at a position whose decimal
      text is another drawing's id ([card_keys_collide]).
    - Styles and Paint: which colour each layer paints a feature with; a
      new polygon is painted with the colour states (or ['#000000'] when
      a state is not a colour) until a reload, and ['#000000'] after it
      ([create_then_reload_paint]).
    - The findings: the snapshot [updateMap] persists is taken before the
      new feature is coloured, so the list and localStorage miss its
      colours and a reload paints it black; [clearAll] emits nothing;
      deleting the last drawing stores the text [[]], so a reload skips
      the colour prompt; a feature drawn before a colour is chosen
      carries the colour [''], which mapbox-gl cannot parse and paints
      ['#000000'].

    ** Bounds, fuel and abstractions
    - The JSON parser takes fuel; [parse_json] gives it the length of the
      text, enough because a value's size is at most its printed length
      ([size_le_length]), and the parser is monotone in its fuel
      ([parse_fuel_mono]): the entry parses the same with any fuel at
      least its length ([saved_drawings_fuel]).  No other definition uses
      fuel.
    - Numbers are exact: coordinates are integers (millionths of a
      degree), areas are rationals; doubles and their rounding are not
      modelled, nor are [Math.sin] and [Math.PI], which stay parameters.
    - React: a handler's state updates are applied in program order and
      the last one wins, as React's batching does for plain values;
      effects run after the render that changed their dependencies (the
      colour refs are synchronised in the same step as the change).
    - The widget is a library: only the behaviour stated in [DrawLaws] is
      assumed of it, and [ListDraw] shows the laws are satisfiable.
      [getAll_set_empty] says [draw.set] keeps the features it is given
      as they are; mapbox-gl-draw does so for features with a non-empty
      id and closed rings, which every entry the page writes has.  It
      gives a feature with an empty id a generated id, so for an entry
      written by hand with such a feature, the theorems about loading
      ([reload_restores_list], [load_enabled], the invariant) describe the
      page the laws describe, not mapbox-gl-draw.
    - Colours: [css_color] follows csscolorparser on ASCII text (space
      removal, lower case, the colour-name table, [#rgb]/[#rrggbb] read by
      [parseInt], the [rgb]/[rgba]/[hsl]/[hsla] notations by their number
      of parameters); strings are bytes, so the UTF-16 length and case
      mapping of non-ASCII text are not modelled.  The colour inputs only
      produce [#rrggbb] and the states start as [''].

    ** Not modelled
    JavaScript values other than feature arrays: [JSON.parse] of a
    well-formed text that is not an array (null, an object) returns that
    value in the code, which App would hold and fail on when rendering;
    the codec here reads it as a [SyntaxError] at parse time, since the
    list and the widget are typed as feature collections.  JSON numbers
    with a fraction or an exponent, and [\uXXXX] escapes of UTF-16
    surrogates, are read as errors: the page stores integer coordinates
    and strings it printed itself, which never contain them.  The constant
    CSS objects of both files ([paragraphStyle], [calculationBoxStyle],
    [drawingCardStyle]) are layout data with no behaviour.
    The map rendering itself (tiles, camera, controls: mapbox-gl), the
    widget's drawing modes and hit-testing (only their outcome, the
    event, is modelled), the JSX layout and CSS, and the access token. *)

From Stdlib Require Import String List Bool Lia.
Import ListNotations.

Declare Scope mapfun_scope.
Delimit Scope mapfun_scope with mapfun.

Create HintDb mapfun.
Create Rewrite HintDb mapfun.

(** ** Exceptions a handler can raise

    JavaScript throws; the model returns the exception as a value. *)

Inductive js_error : Type :=
| TypeError (what : string)
| SyntaxError (what : string).

Inductive result (A : Type) : Type :=
| Ok (a : A)
| Err (e : js_error).
Arguments Ok {A} a.
Arguments Err {A} e.

Definition bind {A B : Type} (r : result A) (k : A -> result B) : result B :=
  match r with
  | Ok a => k a
  | Err e => Err e
  end.

Definition rmap {A B : Type} (f : A -> B) (r : result A) : result B :=
  bind r (fun a => Ok (f a)).

Notation "x <- c ;; k" := (bind c (fun x => k))
  (at level 100, c at next level, right associativity) : mapfun_scope.

Definition is_ok {A : Type} (r : result A) : bool :=
  match r with Ok _ => true | Err _ => false end.

Lemma bind_eq_Ok {A B : Type} (r : result A) (k : A -> result B) (b : B) :
  bind r k = Ok b <-> exists a, r = Ok a /\ k a = Ok b.
Proof.
  destruct r as [a|e]; simpl; split.
  - intros H; now exists a.
  - now intros (a' & [= ->] & H).
  - discriminate.
  - now intros (a' & ? & _).
Qed.

Lemma bind_Err {A B : Type} (e : js_error) (k : A -> result B) :
  bind (Err e) k = Err e.
Proof. reflexivity. Qed.

(** ** Tactics *)

Ltac inv H := inversion H; subst; clear H.

(** Split every [bind _ _ = Ok _] hypothesis into its two halves. *)
Ltac simpl_result :=
  repeat match goal with
  | H : bind _ _ = Ok _ |- _ =>
      apply bind_eq_Ok in H; destruct H as (? & ? & H)
  | H : Ok _ = Ok _ |- _ => injection H as H
  | H : Err _ = Ok _ |- _ => discriminate H
  | H : Ok _ = Err _ |- _ => discriminate H
  end.

(** ** Generic list lemmas shared by the components *)

Section ListFacts.
Context {A : Type}.
Implicit Types (l : list A) (f g : A -> bool).

Lemma filter_all_true f l :
  (forall x, In x l -> f x = true) -> filter f l = l.
Proof.
  induction l as [|a l IH]; intros H; simpl; [reflexivity|].
  rewrite (H a) by now left. f_equal. apply IH. intros x Hx. apply H. now right.
Qed.

Lemma filter_idem f l : filter f (filter f l) = filter f l.
Proof.
  apply filter_all_true. intros x Hx. now apply filter_In in Hx.
Qed.

Lemma filter_comm f g l : filter f (filter g l) = filter g (filter f l).
Proof.
  induction l as [|a l IH]; simpl; [reflexivity|].
  destruct (g a) eqn:Hg, (f a) eqn:Hf; simpl; rewrite ?Hg, ?Hf; congruence.
Qed.

Lemma NoDup_map_filter {B : Type} (h : A -> B) f l :
  NoDup (map h l) -> NoDup (map h (filter f l)).
Proof.
  induction l as [|a l IH]; simpl; intros Hnd; [constructor|].
  inv Hnd. destruct (f a); simpl; [constructor|]; auto.
  intros Hin. apply in_map_iff in Hin as (y & Hy & Hyin).
  apply filter_In in Hyin as [Hyin _]. apply H1. apply in_map_iff. eauto.
Qed.

Lemma filter_length_le f l : length (filter f l) <= length l.
Proof.
  induction l as [|a l IH]; simpl; [lia|]. destruct (f a); simpl; lia.
Qed.
End ListFacts.

#[export] Hint Resolve NoDup_map_filter : mapfun.
#[export] Hint Rewrite @filter_idem @bind_Err : mapfun.
