(* ===== verification/Feature.v ===== *)
(** * Feature: the GeoJSON features passed between the widget, the list
    and localStorage

    A feature is what MapboxDraw's [getAll()] returns for one drawing:
    an [id], a [geometry] (the page only offers the line-string and the
    polygon controls, Map.tsx lines 120-123) and a [properties] bag,
    a JavaScript object in which [updateMap] stores [lineColor] and
    [fillColor].  Objects keep their keys in insertion order, so the bag
    is an association list updated the way a JS assignment
    [obj[k] = v] updates it.

    [shape_eq] is the equivalence the spec's consistency invariant uses
    ("the same feature set by identifier and geometry"); it is coarser
    than equality because it ignores the properties. *)

From Stdlib Require Import String List Bool ZArith Lia.
From Stdlib Require Import RelationClasses Morphisms Setoid.
From S2P Require Import Prelude.
Import ListNotations.

(** ** Data *)

(** A position [[lng, lat]]; coordinates are kept as integers (fixed-point
    degrees), see the header of [Prelude]. *)
Definition position : Type := (Z * Z)%type.

Inductive Geometry : Type :=
| LineString (coordinates : list position)
| Polygon (coordinates : list (list position)).

(** [geometry.type], the string the list shows (App.tsx line 64). *)
Definition geometry_type (g : Geometry) : string :=
  match g with
  | LineString _ => "LineString"
  | Polygon _ => "Polygon"
  end.

(** A JavaScript object with string values. *)
Definition Properties : Type := list (string * string).

Fixpoint obj_get (k : string) (o : Properties) : option string :=
  match o with
  | [] => None
  | (k', v) :: o' => if String.eqb k k' then Some v else obj_get k o'
  end.

(** [o[k] = v]: overwrite in place, or append a new key. *)
Fixpoint obj_set (k v : string) (o : Properties) : Properties :=
  match o with
  | [] => [(k, v)]
  | (k', v') :: o' =>
      if String.eqb k k' then (k', v) :: o' else (k', v') :: obj_set k v o'
  end.

Record feature : Type := mk_feature {
  id : string;
  geometry : Geometry;
  properties : Properties
}.

Definition ids (l : list feature) : list string := map id l.

(** [l.filter(d => d.id !== drawing_ID)] *)
Definition remove_id (drawing_ID : string) (l : list feature) : list feature :=
  filter (fun d => negb (String.eqb (id d) drawing_ID)) l.

(** ** Decidable equality *)

Definition position_eq_dec (p q : position) : {p = q} + {p <> q}.
Proof. decide equality; apply Z.eq_dec. Defined.

Definition geometry_eq_dec (g h : Geometry) : {g = h} + {g <> h}.
Proof.
  decide equality; repeat (apply list_eq_dec; intros); apply position_eq_dec.
Defined.

Definition feature_eq_dec (f g : feature) : {f = g} + {f <> g}.
Proof.
  decide equality.
  - apply list_eq_dec. intros. decide equality; apply string_dec.
  - apply geometry_eq_dec.
  - apply string_dec.
Defined.

(** ** Shape equivalence: same identifiers and geometries, in order *)

Definition same_shape (f g : feature) : Prop :=
  id f = id g /\ geometry f = geometry g.

Definition shape_eq : list feature -> list feature -> Prop :=
  Forall2 same_shape.

Fixpoint shape_eqb (l m : list feature) : bool :=
  match l, m with
  | [], [] => true
  | f :: l', g :: m' =>
      String.eqb (id f) (id g)
      && (if geometry_eq_dec (geometry f) (geometry g) then true else false)
      && shape_eqb l' m'
  | _, _ => false
  end.

Declare Scope shape_scope.
Infix "≈" := shape_eq (at level 70, no associativity) : shape_scope.
Open Scope shape_scope.

#[export] Instance same_shape_equiv : Equivalence same_shape.
Proof.
  split; unfold same_shape.
  - now intros f.
  - now intros f g [-> ->].
  - now intros f g h [-> ->] [-> ->].
Qed.

#[export] Instance shape_eq_equiv : Equivalence shape_eq.
Proof.
  split; unfold shape_eq.
  - intros l. induction l; constructor; [reflexivity|assumption].
  - intros l m H. induction H; constructor; [now symmetry|assumption].
  - intros l m n H. revert n. induction H as [|f g l m Hfg Hlm IH]; intros n Hn;
      inv Hn; constructor; [etransitivity; eauto|auto].
Qed.

#[export] Instance ids_shape_proper : Proper (shape_eq ==> eq) ids.
Proof.
  intros l m H. induction H as [|f g l m [Hid _] _ IH]; simpl; congruence.
Qed.

#[export] Instance remove_id_shape_proper : Proper (eq ==> shape_eq ==> shape_eq) remove_id.
Proof.
  intros x ? <- l m H. induction H as [|f g l m [Hid Hg] Hlm IH]; simpl; [constructor|].
  rewrite Hid. destruct (negb _); [constructor|]; auto. split; auto.
Qed.

#[export] Instance length_shape_proper : Proper (shape_eq ==> eq) (@length feature).
Proof. intros l m H. exact (Forall2_length H). Qed.

Lemma shape_eq_nil_l (l : list feature) : [] ≈ l -> l = [].
Proof. intros H. now inv H. Qed.

Lemma shape_eqb_spec (l m : list feature) : shape_eqb l m = true <-> l ≈ m.
Proof.
  revert m. induction l as [|f l IH]; intros [|g m]; simpl.
  - split; constructor.
  - split; [discriminate|intros H; inv H].
  - split; [discriminate|intros H; inv H].
  - rewrite !andb_true_iff, String.eqb_eq, IH. unfold shape_eq, same_shape.
    destruct geometry_eq_dec as [Hg|Hg]; split.
    + intros [[Hid _] Hr]. now constructor.
    + intros H. inv H. now destruct H3.
    + now intros [[_ ?] _].
    + intros H. inv H. now destruct H3.
Qed.

(** ** Lemmas on [obj_set] and [remove_id] *)

Lemma obj_get_set_eq k v o : obj_get k (obj_set k v o) = Some v.
Proof.
  induction o as [|[k' v'] o IH]; simpl.
  - now rewrite String.eqb_refl.
  - destruct (String.eqb k k') eqn:E; simpl; rewrite ?E; auto.
Qed.

Lemma obj_get_set_ne k k' v o : k <> k' -> obj_get k' (obj_set k v o) = obj_get k' o.
Proof.
  intros Hne. pose proof Hne as Hne'. apply String.eqb_neq in Hne'.
  rewrite String.eqb_sym in Hne'.
  induction o as [|[k0 v0] o IH]; simpl; [now rewrite Hne'|].
  destruct (String.eqb k k0) eqn:E; simpl; rewrite ?IH; auto.
  apply String.eqb_eq in E as <-. now rewrite Hne'.
Qed.

Lemma In_remove_id x f l : In f (remove_id x l) <-> In f l /\ id f <> x.
Proof.
  unfold remove_id. rewrite filter_In, negb_true_iff, String.eqb_neq. reflexivity.
Qed.

Lemma remove_id_absent x l : ~ In x (ids l) -> remove_id x l = l.
Proof.
  intros Hx. apply filter_all_true. intros f Hf. apply negb_true_iff, String.eqb_neq.
  intros <-. apply Hx, in_map, Hf.
Qed.

Lemma remove_id_not_in x l : ~ In x (ids (remove_id x l)).
Proof.
  unfold ids. rewrite in_map_iff. intros (f & Hid & Hf). now apply In_remove_id in Hf.
Qed.

Lemma remove_id_NoDup x l : NoDup (ids l) -> NoDup (ids (remove_id x l)).
Proof. apply NoDup_map_filter. Qed.

Lemma remove_id_idem x l : remove_id x (remove_id x l) = remove_id x l.
Proof. apply filter_idem. Qed.

#[export] Hint Resolve remove_id_NoDup remove_id_not_in : mapfun.
#[export] Hint Rewrite remove_id_idem obj_get_set_eq : mapfun.
