(* ===== verification/Styles.v ===== *)
(** * Styles: the draw layers of src/src/components/styles/mapboxStyles.ts

    [getCustomDrawStyles] returns four style layers that mapbox-gl-draw
    renders: a line layer, a polygon fill, a polygon stroke and the
    vertices.  Their colours are data-driven: ['coalesce', ['get',
    'user_lineColor'], '#000000'] reads the feature's [lineColor]
    property, which mapbox-gl-draw exposes as [user_lineColor] because the
    widget is created with [userProperties: true] (Map.tsx line 125).

    The layers are translated as data ([layer] records with their filter
    and paint expressions); [eval_expr] and [eval_filter] give the
    expression semantics of the style specification for the operators the
    file uses ([coalesce] returns its first non-null argument; [get] of a
    missing property is null).  [painted] is the colour a layer paints a
    feature with. *)

From Stdlib Require Import Ascii String List Bool ZArith QArith Lia.
From S2P Require Import Prelude Feature.
Import ListNotations.
Local Open Scope string_scope.
#[local] Set Warnings "-register-all".

(** ** Style expressions *)

Inductive style_expr : Type :=
| SLit (s : string)                   (* '#000000' *)
| SGet (k : string)                   (* ['get', k] *)
| SCoalesce (es : list style_expr).   (* ['coalesce', e1, e2, ...] *)

Inductive filter_expr : Type :=
| FAll (fs : list filter_expr)        (* ['all', f1, f2, ...] *)
| FEq (k v : string)                  (* ['==', k, v] *)
| FNeq (k v : string).                (* ['!=', k, v] *)

Inductive paint_value : Type :=
| PColor (e : style_expr)
| PNumber (q : Q).

Record layer : Type := mk_layer {
  layer_id : string;
  layer_type : string;
  layer_filter : filter_expr;
  layer_layout : list (string * string);
  layer_paint : list (string * paint_value)
}.

(** ** The layers of mapboxStyles.ts *)

Definition black : style_expr := SLit "#000000".

Definition getCustomDrawStyles : list layer := [
  mk_layer "gl-draw-line" "line"
    (FAll [FEq "$type" "LineString"; FNeq "mode" "static"])
    [("line-cap", "round"); ("line-join", "round")]
    [("line-color", PColor (SCoalesce [SGet "user_lineColor"; black]));
     ("line-width", PNumber 4)];
  mk_layer "gl-draw-polygon-fill" "fill"
    (FAll [FEq "$type" "Polygon"; FNeq "mode" "static"])
    []
    [("fill-color", PColor (SCoalesce [SGet "user_fillColor"; black]));
     ("fill-opacity", PNumber (3 # 10))];
  mk_layer "gl-draw-polygon-stroke" "line"
    (FAll [FEq "$type" "Polygon"; FNeq "mode" "static"])
    [("line-cap", "round"); ("line-join", "round")]
    [("line-color", PColor (SCoalesce [SGet "user_lineColor"; black]));
     ("line-width", PNumber 4)];
  mk_layer "gl-draw-polygon-and-line-vertex-active" "circle"
    (FAll [FEq "meta" "vertex"; FEq "$type" "Point"])
    []
    [("circle-radius", PNumber 5); ("circle-color", PColor (SLit "#FFF"));
     ("circle-stroke-color", PColor black); ("circle-stroke-width", PNumber 2)]
].

(** ** What the renderer sees of a feature *)

(** mapbox-gl-draw with [userProperties: true] copies each property [k]
    of the feature to [user_k] on the rendered feature. *)
Definition user_properties (p : Properties) : Properties :=
  map (fun kv => ("user_" ++ fst kv, snd kv)) p.

(** The rendered feature's attributes: [$type], [meta] ("feature" for a
    drawn feature), [mode] (the widget's current mode), and the user
    properties. *)
Record rendered : Type := mk_rendered {
  r_type : string;
  r_meta : string;
  r_mode : string;
  r_props : Properties
}.

Definition render_feature (mode : string) (f : feature) : rendered :=
  mk_rendered (geometry_type (geometry f)) "feature" mode (user_properties (properties f)).

Definition attr (r : rendered) (k : string) : option string :=
  if String.eqb k "$type" then Some (r_type r)
  else if String.eqb k "meta" then Some (r_meta r)
  else if String.eqb k "mode" then Some (r_mode r)
  else obj_get k (r_props r).

Fixpoint eval_expr (r : rendered) (e : style_expr) : option string :=
  match e with
  | SLit s => Some s
  | SGet k => obj_get k (r_props r)
  | SCoalesce es =>
      (fix first es :=
         match es with
         | [] => None
         | e :: es => match eval_expr r e with Some v => Some v | None => first es end
         end) es
  end.

Fixpoint eval_filter (r : rendered) (f : filter_expr) : bool :=
  match f with
  | FAll fs => forallb (eval_filter r) fs
  | FEq k v => match attr r k with Some x => String.eqb x v | None => false end
  | FNeq k v => match attr r k with Some x => negb (String.eqb x v) | None => true end
  end.

(** A paint property of a layer, by name. *)
Fixpoint paint_get (p : string) (l : list (string * paint_value)) : option paint_value :=
  match l with
  | [] => None
  | (k, v) :: l' => if String.eqb p k then Some v else paint_get p l'
  end.

(** ** mapbox-gl's colour coercion

    A data-driven colour is wrapped in a [to-color] coercion: the string
    the expression yields goes to [Color.parse], that is csscolorparser's
    [parseCSSColor]; when it yields nothing (or throws), the expression
    fails and mapbox-gl paints the property's default, ['#000000'] for
    every colour property of these layers.  Only whether a string parses
    matters for what is painted; [css_color] decides it. *)

Definition color_default : string := "#000000".

Definition lower (c : ascii) : ascii :=
  let n := nat_of_ascii c in
  if ((65 <=? n) && (n <=? 90))%nat then ascii_of_nat (n + 32)%nat else c.

(** [css_str.replace(/ /g, '').toLowerCase()] *)
Fixpoint css_normalize (s : string) : string :=
  match s with
  | EmptyString => EmptyString
  | String c s' =>
      if Ascii.eqb c " " then css_normalize s' else String (lower c) (css_normalize s')
  end.

(** The keys of csscolorparser's [kCSSColorTable]. *)
Definition css_color_names : list string :=
  ["transparent"; "aliceblue"; "antiquewhite"; "aqua"; "aquamarine"; "azure"; "beige";
   "bisque"; "black"; "blanchedalmond"; "blue"; "blueviolet"; "brown"; "burlywood";
   "cadetblue"; "chartreuse"; "chocolate"; "coral"; "cornflowerblue"; "cornsilk";
   "crimson"; "cyan"; "darkblue"; "darkcyan"; "darkgoldenrod"; "darkgray"; "darkgreen";
   "darkgrey"; "darkkhaki"; "darkmagenta"; "darkolivegreen"; "darkorange"; "darkorchid";
   "darkred"; "darksalmon"; "darkseagreen"; "darkslateblue"; "darkslategray";
   "darkslategrey"; "darkturquoise"; "darkviolet"; "deeppink"; "deepskyblue"; "dimgray";
   "dimgrey"; "dodgerblue"; "firebrick"; "floralwhite"; "forestgreen"; "fuchsia";
   "gainsboro"; "ghostwhite"; "gold"; "goldenrod"; "gray"; "green"; "greenyellow"; "grey";
   "honeydew"; "hotpink"; "indianred"; "indigo"; "ivory"; "khaki"; "lavender";
   "lavenderblush"; "lawngreen"; "lemonchiffon"; "lightblue"; "lightcoral"; "lightcyan";
   "lightgoldenrodyellow"; "lightgray"; "lightgreen"; "lightgrey"; "lightpink";
   "lightsalmon"; "lightseagreen"; "lightskyblue"; "lightslategray"; "lightslategrey";
   "lightsteelblue"; "lightyellow"; "lime"; "limegreen"; "linen"; "magenta"; "maroon";
   "mediumaquamarine"; "mediumblue"; "mediumorchid"; "mediumpurple"; "mediumseagreen";
   "mediumslateblue"; "mediumspringgreen"; "mediumturquoise"; "mediumvioletred";
   "midnightblue"; "mintcream"; "mistyrose"; "moccasin"; "navajowhite"; "navy"; "oldlace";
   "olive"; "olivedrab"; "orange"; "orangered"; "orchid"; "palegoldenrod"; "palegreen";
   "paleturquoise"; "palevioletred"; "papayawhip"; "peachpuff"; "peru"; "pink"; "plum";
   "powderblue"; "purple"; "red"; "rosybrown"; "royalblue"; "saddlebrown"; "salmon";
   "sandybrown"; "seagreen"; "seashell"; "sienna"; "silver"; "skyblue"; "slateblue";
   "slategray"; "slategrey"; "snow"; "springgreen"; "steelblue"; "tan"; "teal"; "thistle";
   "tomato"; "turquoise"; "violet"; "wheat"; "white"; "whitesmoke"; "yellow";
   "yellowgreen"].

Definition is_hex_digit (c : ascii) : bool :=
  let n := nat_of_ascii c in
  (((48 <=? n) && (n <=? 57)) || ((97 <=? n) && (n <=? 102)) || ((65 <=? n) && (n <=? 70)))%nat.

(** The white space [parseInt] trims: tab, line feed, vertical tab, form
    feed, carriage return, space. *)
Definition js_space (c : ascii) : bool :=
  let n := nat_of_ascii c in (((9 <=? n) && (n <=? 13)) || (n =? 32))%nat.

Fixpoint trim_start (s : string) : string :=
  match s with
  | String c s' => if js_space c then trim_start s' else s
  | EmptyString => EmptyString
  end.

(** The leading hexadecimal digits of [s] are all zeros. *)
Fixpoint zero_prefix (s : string) : bool :=
  match s with
  | String c s' => if is_hex_digit c then Ascii.eqb c "0" && zero_prefix s' else true
  | EmptyString => true
  end.

(** [parseInt(t, 16) >= 0]: after white space, a sign and a [0x] prefix,
    at least one hexadecimal digit (else [NaN]), and a value that is not
    negative.  At most six digits follow the [#], so the upper bounds
    [0xfff] and [0xffffff] of [parseCSSColor] always hold. *)
Definition parseInt16_nonneg (t : string) : bool :=
  let t := trim_start t in
  let '(neg, t) := match t with
                   | String "-" r => (true, r)
                   | String "+" r => (false, r)
                   | _ => (false, t)
                   end in
  let t := match t with
           | String "0" (String x r) => if Ascii.eqb x "x" || Ascii.eqb x "X" then r else t
           | _ => t
           end in
  match t with
  | String c _ => is_hex_digit c && (negb neg || zero_prefix t)
  | EmptyString => false
  end.

(** [str.indexOf(c)] *)
Fixpoint index_of (c : ascii) (s : string) : option nat :=
  match s with
  | EmptyString => None
  | String c' s' => if Ascii.eqb c c' then Some 0%nat else option_map S (index_of c s')
  end.

Fixpoint count_char (c : ascii) (s : string) : nat :=
  match s with
  | EmptyString => 0%nat
  | String c' s' => ((if Ascii.eqb c c' then 1 else 0) + count_char c s')%nat
  end.

(** The functional notations: the first [')'] ends the string, the name
    before the first ['('] is [rgb] or [hsl] with three comma-separated
    parameters, or [rgba] or [hsla] with four; the parameters themselves
    are read by [parseInt]/[parseFloat] and never make the parse fail. *)
Definition css_function_ok (str : string) : bool :=
  match index_of "(" str, index_of ")" str with
  | Some op, Some ep =>
      if (S ep =? String.length str)%nat then
        let fname := substring 0%nat op str in
        let nparams := S (count_char "," (substring (S op) (ep - S op)%nat str)) in
        ((String.eqb fname "rgba" || String.eqb fname "hsla") && (nparams =? 4)%nat) ||
        ((String.eqb fname "rgb" || String.eqb fname "hsl") && (nparams =? 3)%nat)
      else false
  | _, _ => false
  end.

(** [parseCSSColor(s) !== null]: a colour name, [#rgb] or [#rrggbb], or
    a functional notation. *)
Definition css_color (s : string) : bool :=
  let str := css_normalize s in
  if existsb (String.eqb str) css_color_names then true
  else match str with
       | String "#" t => ((String.length str =? 4)%nat || (String.length str =? 7)%nat) && parseInt16_nonneg t
       | _ => css_function_ok str
       end.

(** A string as mapbox-gl paints it: itself if it parses as a colour,
    the default otherwise. *)
Definition css_or_default (c : string) : string := if css_color c then c else color_default.

(** The colour a paint expression paints (a [null] value paints the
    default). *)
Definition paint_color (r : rendered) (e : style_expr) : string :=
  match eval_expr r e with
  | Some c => css_or_default c
  | None => color_default
  end.

(** The colour layer [l] paints [f] with for paint property [p], if [l]
    draws [f] at all. *)
Definition painted (mode : string) (l : layer) (p : string) (f : feature) : option string :=
  let r := render_feature mode f in
  if eval_filter r (layer_filter l) then
    match paint_get p (layer_paint l) with
    | Some (PColor e) => Some (paint_color r e)
    | _ => None
    end
  else None.

Definition fill_layer : layer := nth 1 getCustomDrawStyles (mk_layer "" "" (FAll []) [] []).
Definition line_layer : layer := nth 0 getCustomDrawStyles (mk_layer "" "" (FAll []) [] []).

(** The colour a [coalesce(get(user_k), '#000000')] paint gives: the
    property if it is a colour, the default otherwise. *)
Definition color_or_black (k : string) (f : feature) : string :=
  match obj_get k (properties f) with
  | Some c => css_or_default c
  | None => color_default
  end.

(** ** Properties *)

Lemma user_prefix_inj k k' : ("user_" ++ k = "user_" ++ k')%string -> k = k'.
Proof. intros E. now injection E. Qed.

Lemma obj_get_user k p : obj_get ("user_" ++ k) (user_properties p) = obj_get k p.
Proof.
  induction p as [|[k' v] p IH]; cbn [user_properties map obj_get fst snd]; [reflexivity|].
  fold (user_properties p).
  destruct (String.eqb_spec k k') as [->|Hne].
  - now rewrite !String.eqb_refl.
  - destruct (String.eqb_spec ("user_" ++ k) ("user_" ++ k')) as [E|_]; [|exact IH].
    now apply user_prefix_inj in E.
Qed.

Lemma paint_user_color mode k f :
  paint_color (render_feature mode f) (SCoalesce [SGet ("user_" ++ k); black]) =
    color_or_black k f.
Proof.
  unfold paint_color, color_or_black. cbn [eval_expr render_feature r_props].
  rewrite obj_get_user. now destruct (obj_get k (properties f)).
Qed.

(** A polygon, in any mode but [static], is filled with its [fillColor]
    and stroked with its [lineColor]. *)
Lemma polygon_painted mode f rings :
  mode <> "static" -> geometry f = Polygon rings ->
  painted mode fill_layer "fill-color" f = Some (color_or_black "fillColor" f) /\
  painted mode (nth 2 getCustomDrawStyles fill_layer) "line-color" f =
    Some (color_or_black "lineColor" f).
Proof.
  intros Hm G. apply String.eqb_neq in Hm. unfold painted; cbn -[paint_color];
    rewrite G; cbn -[paint_color]; rewrite Hm; cbn -[paint_color];
    rewrite (paint_user_color mode "lineColor"), (paint_user_color mode "fillColor");
    split; reflexivity.
Qed.

(** C21: in any mode but [static], a polygon is filled with its
    [fillColor] and stroked with its [lineColor], and a line string is
    drawn with its [lineColor] and not filled; a colour property that is
    missing or that mapbox-gl cannot parse as a colour (the empty string
    the colour states start with) is painted ['#000000']. *)
Theorem draw_colors_painted mode f :
  mode <> "static" ->
  match geometry f with
  | Polygon _ =>
      painted mode fill_layer "fill-color" f = Some (color_or_black "fillColor" f) /\
      painted mode (nth 2 getCustomDrawStyles fill_layer) "line-color" f =
        Some (color_or_black "lineColor" f)
  | LineString _ =>
      painted mode line_layer "line-color" f = Some (color_or_black "lineColor" f) /\
      painted mode fill_layer "fill-color" f = None
  end.
Proof.
  intros Hm. destruct (geometry f) as [c|rings] eqn:G; [|exact (polygon_painted mode f rings Hm G)].
  apply String.eqb_neq in Hm.
  unfold painted; cbn -[paint_color]; rewrite G; cbn -[paint_color]; rewrite Hm; cbn -[paint_color];
    rewrite (paint_user_color mode "lineColor"); split; reflexivity.
Qed.

(** [parseCSSColor] on the strings the colour states can hold and on its
    corner cases: the initial [''] is not a colour, an [<input
    type="color">] value [#rrggbb] is; names and notations are read after
    dropping spaces and lowering case; [#fzz] parses because [parseInt]
    reads the prefix [f]; [#-12] is negative and rejected; [rgba] needs
    four parameters. *)
Example css_color_cases :
  map css_color ["" ; "#ff0000"; "#FFF"; " Red "; "rgb(1, 2, 3)"; "HSLA(1,2,3,0.5)";
                 "#fzz"; "#-12"; "#-00"; "rgba(1,2,3)"; "#12"; "red)"; "constructor"] =
  [false; true; true; true; true; true; true; false; true; false; false; false; false].
Proof. vm_compute. reflexivity. Qed.
