(* ===== verification/Draw.v ===== *)
(** * Draw: the MapboxDraw widget, as the interface Map.tsx relies on

    Map.tsx calls five methods of the widget ([getAll], [delete],
    [deleteAll], [set], [setFeatureProperty]) and receives three events
    ([draw.create], [draw.update], [draw.delete]) produced by the user's
    interactions.  The widget is a library, not code of this repository:
    it is stated here as a class [DrawApi] of operations with the laws
    [DrawLaws] that the component proofs use, and [ListDraw] implements
    it the way mapbox-gl-draw's feature store does (features kept in
    insertion order, [add] replaces an existing id in place, [set] adds
    then deletes the ids it did not receive, [setFeatureProperty] on a
    missing id throws a TypeError). *)

From Stdlib Require Import String List Bool ZArith Lia.
From S2P Require Import Prelude Feature.
Import ListNotations.

(** ** Events *)

Inductive event_type : Type := DrawCreate | DrawUpdate | DrawDelete.

Definition event_type_name (t : event_type) : string :=
  match t with
  | DrawCreate => "draw.create"
  | DrawUpdate => "draw.update"
  | DrawDelete => "draw.delete"
  end.

Definition event_type_eqb (a b : event_type) : bool :=
  String.eqb (event_type_name a) (event_type_name b).

(** The event object [e] given to the handler: [e.type], [e.features]. *)
Record draw_event : Type := mk_event {
  etype : event_type;
  efeatures : list feature
}.

(** ** The interface *)

Class DrawApi (S : Type) : Type := {
  draw_new : S;
  getAll : S -> list feature;
  draw_delete : string -> S -> S;
  deleteAll : S -> S;
  draw_set : list feature -> S -> S;
  setFeatureProperty : string -> string -> string -> S -> result S;
  (* the user's interactions that end in an event *)
  user_create : feature -> S -> S;
  user_update : string -> Geometry -> S -> S;
  user_trash : list string -> S -> S
}.

(** The feature with a given id in a collection. *)
Definition find_feature (i : string) (l : list feature) : option feature :=
  find (fun f => String.eqb (id f) i) l.

Definition set_geometry (i : string) (g : Geometry) (l : list feature) : list feature :=
  map (fun f => if String.eqb (id f) i then mk_feature (id f) g (properties f) else f) l.

Definition set_property (i k v : string) (l : list feature) : list feature :=
  map (fun f => if String.eqb (id f) i
                then mk_feature (id f) (geometry f) (obj_set k v (properties f)) else f) l.

Definition remove_ids (removed : list string) (l : list feature) : list feature :=
  filter (fun f => negb (existsb (String.eqb (id f)) removed)) l.

Definition missing_feature_error : js_error :=
  TypeError "Cannot read properties of undefined (reading 'setProperty')".

Class DrawLaws (S : Type) `{DrawApi S} : Prop := {
  getAll_new : getAll draw_new = [];
  getAll_delete i s : getAll (draw_delete i s) = remove_id i (getAll s);
  getAll_deleteAll s : getAll (deleteAll s) = [];
  getAll_set_nil s : getAll (draw_set [] s) = [];
  getAll_set_empty fs s :
    getAll s = [] -> NoDup (ids fs) -> getAll (draw_set fs s) = fs;
  setFeatureProperty_missing i k v s :
    ~ In i (ids (getAll s)) -> setFeatureProperty i k v s = Err missing_feature_error;
  setFeatureProperty_present i k v s :
    In i (ids (getAll s)) ->
    exists s', setFeatureProperty i k v s = Ok s' /\
               getAll s' = set_property i k v (getAll s);
  getAll_user_create f s :
    ~ In (id f) (ids (getAll s)) -> getAll (user_create f s) = getAll s ++ [f];
  getAll_user_update i g s : getAll (user_update i g s) = set_geometry i g (getAll s);
  getAll_user_trash removed s :
    getAll (user_trash removed s) = remove_ids removed (getAll s)
}.

(** ** Facts on the collection updates *)

Lemma set_property_shape i k v l : set_property i k v l ≈ l.
Proof.
  induction l as [|f l IH]; simpl; constructor; auto.
  destruct (String.eqb (id f) i); split; reflexivity.
Qed.

Lemma ids_set_property i k v l : ids (set_property i k v l) = ids l.
Proof. apply ids_shape_proper, set_property_shape. Qed.

Lemma ids_set_geometry i g l : ids (set_geometry i g l) = ids l.
Proof.
  induction l as [|f l IH]; simpl; [reflexivity|].
  destruct (String.eqb (id f) i); simpl; now f_equal.
Qed.

Lemma remove_ids_NoDup removed l : NoDup (ids l) -> NoDup (ids (remove_ids removed l)).
Proof. apply NoDup_map_filter. Qed.

Lemma find_feature_app_fresh f l :
  ~ In (id f) (ids l) -> find_feature (id f) (l ++ [f]) = Some f.
Proof.
  induction l as [|g l IH]; simpl; intros Hf.
  - now rewrite String.eqb_refl.
  - destruct (String.eqb_spec (id g) (id f)) as [E|_]; [now destruct Hf; left|].
    apply IH. tauto.
Qed.

(** After [set_property i k v], the feature [i] carries [k = v]. *)
Lemma find_set_property i k v l f :
  find_feature i l = Some f ->
  find_feature i (set_property i k v l) =
    Some (mk_feature (id f) (geometry f) (obj_set k v (properties f))).
Proof.
  induction l as [|g l IH]; simpl; [discriminate|].
  destruct (String.eqb (id g) i) eqn:E; simpl; rewrite ?E.
  - now intros [= ->].
  - exact IH.
Qed.

#[export] Hint Resolve remove_ids_NoDup set_property_shape : mapfun.
#[export] Hint Rewrite ids_set_property ids_set_geometry : mapfun.

(** ** The feature store of mapbox-gl-draw *)

Module ListDraw.

(** [store.add(feature)]: a known id is replaced in place, a new one
    is appended. *)
Definition store_add (f : feature) (s : list feature) : list feature :=
  if existsb (String.eqb (id f)) (ids s)
  then map (fun g => if String.eqb (id g) (id f) then f else g) s
  else s ++ [f].

(** [api.set(fc)]: add every feature, then delete the ids that were in
    the store and are not in [fc]. *)
Definition set (fs : list feature) (s : list feature) : list feature :=
  let toDelete := filter (fun i => negb (existsb (String.eqb i) (ids fs))) (ids s) in
  remove_ids toDelete (fold_left (fun acc f => store_add f acc) fs s).

Definition setFeatureProperty (i k v : string) (s : list feature) : result (list feature) :=
  if existsb (String.eqb i) (ids s)
  then Ok (set_property i k v s)
  else Err missing_feature_error.

#[export] Instance api : DrawApi (list feature) := {
  draw_new := [];
  getAll s := s;
  draw_delete := remove_id;
  deleteAll _ := [];
  draw_set := set;
  setFeatureProperty := setFeatureProperty;
  user_create := store_add;
  user_update := set_geometry;
  user_trash := remove_ids
}.

Lemma existsb_eqb_In (i : string) (l : list string) :
  existsb (String.eqb i) l = true <-> In i l.
Proof.
  rewrite existsb_exists. split.
  - intros (x & Hx & E). apply String.eqb_eq in E. now subst.
  - intros Hi. exists i. now rewrite String.eqb_refl.
Qed.

Lemma store_add_fresh f s : ~ In (id f) (ids s) -> store_add f s = s ++ [f].
Proof.
  intros Hf. unfold store_add. destruct existsb eqn:E; [|reflexivity].
  now apply existsb_eqb_In in E.
Qed.

Lemma fold_store_add_fresh fs acc :
  NoDup (ids (acc ++ fs)) ->
  fold_left (fun acc f => store_add f acc) fs acc = acc ++ fs.
Proof.
  revert acc. induction fs as [|f fs IH]; intros acc Hnd; simpl.
  - now rewrite app_nil_r.
  - rewrite store_add_fresh.
    + rewrite IH, <- app_assoc; [reflexivity|]. now rewrite <- app_assoc.
    + unfold ids in Hnd. rewrite map_app in Hnd. simpl in Hnd.
      apply NoDup_remove_2 in Hnd. intros Hin. apply Hnd, in_or_app. now left.
Qed.

Lemma remove_ids_nil l : remove_ids [] l = l.
Proof. apply filter_all_true. reflexivity. Qed.

Lemma set_nil s : set [] s = [].
Proof.
  unfold set. simpl. rewrite filter_true. unfold remove_ids.
  rewrite (filter_ext_in _ (fun _ => false)); [apply filter_false|].
  intros f Hf. apply negb_false_iff, existsb_eqb_In. now apply in_map.
Qed.

#[export] Instance laws : DrawLaws (list feature).
Proof.
  split; simpl; try reflexivity.
  - apply set_nil.
  - intros fs s -> Hnd. unfold set. simpl. rewrite remove_ids_nil.
    now apply (fold_store_add_fresh fs []).
  - intros i k v s Hi. unfold setFeatureProperty.
    destruct existsb eqn:E; [|reflexivity]. now apply existsb_eqb_In in E.
  - intros i k v s Hi. unfold setFeatureProperty.
    apply existsb_eqb_In in Hi. rewrite Hi. eauto.
  - apply store_add_fresh.
Qed.

End ListDraw.
