(* ===== verification/Area.v ===== *)
(** * Area: turf's [area] over the drawn features, and its rounding

    Map.tsx computes [turf.area(data)] over the whole feature collection
    and shows [Math.round(area * 100) / 100] (lines 93-94, 145-146,
    170-171).  turf is a library; its [area] is modelled from its
    source: [geomReduce] sums [calculateArea] over the features,
    [calculateArea] is [polygonArea] for a polygon and 0 for a line,
    [polygonArea] is |outer ring| minus the |holes|, and [ringArea] is
    the spherical-excess sum over consecutive vertex triples.  Numbers
    are exact rationals instead of doubles; [Math.sin] and [Math.PI]
    stay parameters of [ringArea] (a Section), and [taylor_area] fixes
    them to a Taylor polynomial and 355/113 so that examples compute.

    The repository's own arithmetic is [round2]; its lemmas bound the
    error by half a hundredth, show it idempotent and monotone, positive
    from half a hundredth up and negative below minus half a hundredth. *)

From Stdlib Require Import String List Bool ZArith QArith Qround Qabs Lia Lqa.
From Stdlib Require Import Morphisms Setoid.
From S2P Require Import Prelude Feature.
Import ListNotations.

Local Open Scope Q_scope.

(** ** turf/area *)

Definition earthRadius : Q := 63710088 # 10.

(** Coordinates are integers in millionths of a degree. *)
Definition coord_deg (z : Z) : Q := z # 1000000.

Definition nth_pos (l : list position) (n : nat) : position := nth n l (0%Z, 0%Z).

Section Turf.
Variable sin : Q -> Q.     (* Math.sin *)
Variable PI : Q.           (* Math.PI *)

Definition ringArea (coords : list position) : Q :=
  let coordsLength := (length coords - 1)%nat in
  let factor := earthRadius * earthRadius / 2 in
  let PI_OVER_180 := PI / 180 in
  if (coordsLength <=? 2)%nat then 0 else
  let step total i :=
    let lower := nth_pos coords i in
    let middle := nth_pos coords (if (i + 1 =? coordsLength)%nat then 0%nat else (i + 1)%nat) in
    let upper := nth_pos coords (if (coordsLength <=? i + 2)%nat
                                 then ((i + 2) mod coordsLength)%nat else (i + 2)%nat) in
    let lowerX := coord_deg (fst lower) * PI_OVER_180 in
    let middleY := coord_deg (snd middle) * PI_OVER_180 in
    let upperX := coord_deg (fst upper) * PI_OVER_180 in
    total + (upperX - lowerX) * sin middleY in
  fold_left step (seq 0 coordsLength) 0 * factor.

Definition polygonArea (coords : list (list position)) : Q :=
  match coords with
  | [] => 0
  | outer :: holes =>
      fold_left (fun total h => total - Qabs (ringArea h)) holes (Qabs (ringArea outer))
  end.

Definition calculateArea (g : Geometry) : Q :=
  match g with
  | Polygon coords => polygonArea coords
  | LineString _ => 0
  end.

(** [turf.area(featureCollection)] *)
Definition area (fs : list feature) : Q :=
  fold_left (fun value f => value + calculateArea (geometry f)) fs 0.

Lemma area_acc fs v :
  fold_left (fun value f => value + calculateArea (geometry f)) fs v == v + area fs.
Proof.
  unfold area. revert v. induction fs as [|f fs IH]; intros v; simpl.
  - ring.
  - rewrite IH, (IH (0 + _)). ring.
Qed.

Lemma area_app l m : area (l ++ m) == area l + area m.
Proof. unfold area at 1. rewrite fold_left_app, area_acc. reflexivity. Qed.

Lemma area_cons f l : area (f :: l) == calculateArea (geometry f) + area l.
Proof. unfold area at 1. simpl. rewrite area_acc. ring. Qed.

(** The area depends on the geometries only. *)
#[export] Instance area_shape_proper : Proper (shape_eq ==> eq) area.
Proof.
  intros l m H. unfold area. generalize 0.
  induction H as [|f g l m [_ Hg] _ IH]; intros v; simpl; [reflexivity|].
  rewrite Hg. apply IH.
Qed.

End Turf.

(** ** Math.round(area * 100) / 100 *)

(** [Math.round x] is [floor(x + 0.5)]: halves round up. *)
Definition Math_round (x : Q) : Z := Qfloor (x + (1 # 2)).

Definition round2 (a : Q) : Q := Qred (inject_Z (Math_round (a * 100)) / 100).

#[export] Instance Math_round_proper : Proper (Qeq ==> eq) Math_round.
Proof. intros x y H. unfold Math_round. now rewrite H. Qed.

#[export] Instance round2_proper : Proper (Qeq ==> eq) round2.
Proof. intros x y H. unfold round2. now rewrite H. Qed.

Lemma Math_round_spec (x : Q) :
  x - (1 # 2) < inject_Z (Math_round x) /\ inject_Z (Math_round x) <= x + (1 # 2).
Proof.
  unfold Math_round. pose proof (Qfloor_le (x + (1 # 2))). pose proof (Qlt_floor (x + (1 # 2))).
  rewrite inject_Z_plus in H0. split; [|assumption].
  change (inject_Z 1) with 1 in H0. lra.
Qed.

Lemma round2_eq (a : Q) : round2 a == inject_Z (Math_round (a * 100)) * (1 # 100).
Proof. apply Qred_correct. Qed.

(** C25: the shown area [Math.round(area * 100) / 100] is within half a
    hundredth of a square metre of the computed one. *)
Lemma round2_error (a : Q) : Qabs (round2 a - a) <= (1 # 200).
Proof.
  rewrite round2_eq. destruct (Math_round_spec (a * 100)) as [H1 H2].
  apply Qabs_Qle_condition. split; lra.
Qed.

Lemma Math_round_Z (z : Z) : Math_round (inject_Z z) = z.
Proof.
  unfold Math_round. apply Z.le_antisymm.
  - pose proof (Qfloor_le (inject_Z z + (1 # 2))) as H.
    assert (inject_Z (Qfloor (inject_Z z + (1 # 2))) < inject_Z (z + 1)) as H'
      by (rewrite inject_Z_plus; change (inject_Z 1) with 1; lra).
    rewrite <- Zlt_Qlt in H'. lia.
  - rewrite <- (Qfloor_Z z) at 1. apply Qfloor_resp_le. lra.
Qed.

(** Rounding a shown area again changes nothing: the value is already a
    whole number of hundredths. *)
Lemma round2_idem (a : Q) : round2 (round2 a) = round2 a.
Proof.
  rewrite (round2_eq a) at 1. unfold round2 at 1.
  setoid_replace (inject_Z (Math_round (a * 100)) * (1 # 100) * 100)
    with (inject_Z (Math_round (a * 100))) by ring.
  rewrite Math_round_Z. reflexivity.
Qed.

Lemma Math_round_mono (x y : Q) : x <= y -> (Math_round x <= Math_round y)%Z.
Proof. intros H. apply Qfloor_resp_le. lra. Qed.

Lemma round2_zero : round2 0 = 0.
Proof. reflexivity. Qed.

Lemma round2_nonneg (a : Q) : 0 <= a -> 0 <= round2 a.
Proof.
  intros H. rewrite round2_eq. pose proof (Math_round_mono 0 (a * 100)) as M.
  assert (0 <= inject_Z (Math_round (a * 100))).
  { change 0 with (inject_Z (Math_round 0)). rewrite <- Zle_Qle. apply M. lra. }
  lra.
Qed.

(** C26: an area of at least half a hundredth of a square metre is shown
    as a positive number, never as 0. *)
Lemma round2_pos (a : Q) : (1 # 200) <= a -> 0 < round2 a.
Proof.
  intros H. rewrite round2_eq. destruct (Math_round_spec (a * 100)) as [H1 _].
  assert (0 < inject_Z (Math_round (a * 100))).
  { change 0 with (inject_Z 0). rewrite <- Zlt_Qlt.
    assert (inject_Z 0 < inject_Z (Math_round (a * 100) + 1)) as H3
      by (rewrite inject_Z_plus; change (inject_Z 1) with 1; change (inject_Z 0) with 0; lra).
    rewrite <- Zlt_Qlt in H3.
    destruct (Z.eq_dec (Math_round (a * 100)) 0) as [E|]; [|lia].
    rewrite E in H1. unfold inject_Z in H1. lra. }
  lra.
Qed.

(** Below minus half a hundredth, the shown area is negative. *)
Lemma round2_neg (a : Q) : a < -(1 # 200) -> round2 a < 0.
Proof. intros H. rewrite round2_eq. destruct (Math_round_spec (a * 100)) as [_ H1]. lra. Qed.

(** ** An executable instance: Taylor sine and 355/113 for pi *)

Definition taylor_sin (x : Q) : Q := x - x * x * x / 6 + x * x * x * x * x / 120.
Definition taylor_pi : Q := 355 # 113.
Definition taylor_area : list feature -> Q := area taylor_sin taylor_pi.
