(* ===== verification/Storage.v ===== *)
(** * Storage: localStorage and the persisted drawing list

    The browser's localStorage is a string-keyed map of strings; the page
    uses one key, ["user_drawings"], holding [JSON.stringify] of a
    feature array.  [JsonCodec] is the interface the components need from
    [JSON.stringify]/[JSON.parse] on feature arrays: parsing what was
    stringified gives the array back, and the text is never the empty
    string (the code tests the stored text for truthiness).  [Json]
    provides an implementation.

    [storeDrawings] is Map.tsx lines 67-76; [saved_drawings] is the
    initialiser of App's list (App.tsx lines 15-22), the reading of the
    entry both components perform at startup. *)

From Stdlib Require Import String List Bool.
From stdpp Require Import base gmap strings.
From S2P Require Import Prelude Feature.
Import ListNotations.

Class JsonCodec : Type := {
  stringify : list feature -> string;
  parse : string -> result (list feature);
  parse_stringify fs : parse (stringify fs) = Ok fs;
  stringify_nonempty fs : stringify fs <> EmptyString
}.

(** ** localStorage *)

Abbreviation storage := (gmap string string).

Definition user_drawings_key : string := "user_drawings"%string.

Definition getItem (k : string) (st : storage) : option string := st !! k.
Definition setItem (k v : string) (st : storage) : storage := <[k := v]> st.
Definition removeItem (k : string) (st : storage) : storage := delete k st.

Section WithCodec.
Context `{JsonCodec}.

(** [storeDrawings(data)]: [data] is the collection from [getAll()],
    or [undefined] ([None]) when the widget is missing. *)
Definition storeDrawings (data : option (list feature)) (st : storage) : storage :=
  match data with
  | None | Some [] => removeItem user_drawings_key st
  | Some features => setItem user_drawings_key (stringify features) st
  end.

(** [const savedDrawings = localStorage.getItem('user_drawings');
     savedDrawings ? JSON.parse(savedDrawings) : []] *)
Definition saved_drawings (st : storage) : result (list feature) :=
  match getItem user_drawings_key st with
  | Some savedDrawings =>
      if String.eqb savedDrawings EmptyString then Ok [] else parse savedDrawings
  | None => Ok []
  end.

Lemma saved_setItem fs st :
  saved_drawings (setItem user_drawings_key (stringify fs) st) = Ok fs.
Proof.
  unfold saved_drawings, getItem, setItem. rewrite lookup_insert_eq.
  destruct (String.eqb_spec (stringify fs) EmptyString) as [E|_].
  - now apply stringify_nonempty in E.
  - apply parse_stringify.
Qed.

Lemma saved_removeItem st : saved_drawings (removeItem user_drawings_key st) = Ok [].
Proof. unfold saved_drawings, getItem, removeItem. now rewrite lookup_delete_eq. Qed.

(** What [storeDrawings] writes is read back as the same collection. *)
Lemma saved_storeDrawings fs st : saved_drawings (storeDrawings (Some fs) st) = Ok fs.
Proof.
  destruct fs as [|f fs]; simpl; [apply saved_removeItem|apply saved_setItem].
Qed.

Lemma storeDrawings_other k data st :
  k <> user_drawings_key -> storeDrawings data st !! k = st !! k.
Proof.
  intros Hk. destruct data as [[|f fs]|]; simpl;
    unfold removeItem, setItem; simplify_map_eq; reflexivity.
Qed.

Lemma storeDrawings_empty st :
  storeDrawings (Some []) st = removeItem user_drawings_key st.
Proof. reflexivity. Qed.
End WithCodec.

Lemma getItem_setItem k v st : getItem k (setItem k v st) = Some v.
Proof. apply lookup_insert_eq. Qed.

Lemma getItem_removeItem k st : getItem k (removeItem k st) = None.
Proof. apply lookup_delete_eq. Qed.

Lemma removeItem_idem k st : removeItem k (removeItem k st) = removeItem k st.
Proof. apply delete_delete_eq. Qed.

#[export] Hint Rewrite @saved_setItem @saved_removeItem @saved_storeDrawings : mapfun.
