(* ===== verification/Json.v ===== *)
(** * Json: JSON.stringify / JSON.parse of the persisted feature arrays

    The page persists [JSON.stringify(data.features)] (Map.tsx line 73,
    App.tsx line 38) and reads it back with [JSON.parse] (Map.tsx
    line 136, App.tsx line 18).  This file gives those two library
    functions an executable model on the values the page stores: JSON
    values ([json]), the compact text [JSON.stringify] produces ([print],
    no whitespace), a parser with fuel
    ([parse_value]), and the GeoJSON object mapbox-gl-draw's
    [toGeoJSON] builds for a feature (keys [id], [type], [properties],
    [geometry] with [coordinates] then [type]).  Numbers are integers (the
    coordinates of [Feature]).  Strings are byte strings: [escape] writes
    the escapes of QuoteJSONString (ECMA-262 25.5.2.3), and [parse_str]
    decodes the escapes of JSON's grammar, a [\uXXXX] escape to the UTF-8
    bytes of its code point, and rejects raw control characters.
    [parse_value] skips JSON whitespace before each token, and
    [parse_json] allows it after the value.  Fractions, exponents and
    surrogate escapes are read as errors.

    [codec] discharges [Storage.JsonCodec]: parsing what was printed
    gives the features back ([parse_stringify]), with or without
    whitespace around the text ([parse_features_ws]). *)

From Stdlib Require Import Ascii String List Bool ZArith NArith Lia.
From Stdlib Require Import Decimal DecimalString DecimalZ DecimalPos.
From S2P Require Import Prelude Feature Storage.
Import ListNotations.

Local Open Scope string_scope.
#[local] Arguments String.append : simpl nomatch.
#[local] Set Warnings "-register-all".


Inductive json : Type :=
| JNull
| JBool (b : bool)
| JNum (n : Z)
| JStr (s : string)
| JArr (l : list json)
| JObj (l : list (string * json)).

(** Induction with the nested lists. *)
Definition json_ind' (P : json -> Prop)
    (fnull : P JNull) (fbool : forall b, P (JBool b)) (fnum : forall n, P (JNum n))
    (fstr : forall s, P (JStr s))
    (farr : forall l, Forall P l -> P (JArr l))
    (fobj : forall l, Forall (fun kv => P (snd kv)) l -> P (JObj l)) : forall j, P j :=
  fix F (j : json) : P j :=
    match j with
    | JNull => fnull
    | JBool b => fbool b
    | JNum n => fnum n
    | JStr s => fstr s
    | JArr l => farr l ((fix G (l : list json) : Forall P l :=
                          match l with
                          | [] => Forall_nil _
                          | x :: l' => @Forall_cons _ _ x l' (F x) (G l')
                          end) l)
    | JObj l => fobj l ((fix G (l : list (string * json)) : Forall (fun kv => P (snd kv)) l :=
                          match l with
                          | [] => Forall_nil _
                          | kv :: l' => @Forall_cons _ _ kv l' (F (snd kv)) (G l')
                          end) l)
    end.

(** ** JSON.stringify *)

Definition quote : ascii := "034".
Definition bslash : ascii := "092".

(** The two-character escapes of QuoteJSONString (ECMA-262 25.5.2.3):
    quotation mark, reverse solidus, and the control characters
    backspace, form feed, line feed, carriage return and tab. *)
Definition short_escape (c : ascii) : option ascii :=
  if Ascii.eqb c quote then Some quote
  else if Ascii.eqb c bslash then Some bslash
  else if Ascii.eqb c "008" then Some "b"%char
  else if Ascii.eqb c "012" then Some "f"%char
  else if Ascii.eqb c "010" then Some "n"%char
  else if Ascii.eqb c "013" then Some "r"%char
  else if Ascii.eqb c "009" then Some "t"%char
  else None.

(** A lowercase hexadecimal digit, as UnicodeEscape writes it. *)
Definition hex_digit (n : N) : ascii :=
  ascii_of_N (if (n <? 10)%N then 48 + n else 87 + n)%N.

(** One code unit of the string: its short escape, [\u00XX] for the
    other code units below 0x20, itself otherwise. *)
Definition esc (c : ascii) : string :=
  match short_escape c with
  | Some e => String bslash (String e EmptyString)
  | None =>
      let n := N_of_ascii c in
      if (n <? 32)%N
      then "\u00" ++ String (hex_digit (n / 16)) (String (hex_digit (n mod 16)) EmptyString)
      else String c EmptyString
  end.

Fixpoint escape (s : string) : string :=
  match s with
  | EmptyString => EmptyString
  | String c s' => esc c ++ escape s'
  end.

Definition print_str (s : string) : string := String quote (escape s ++ String quote EmptyString).

Definition print_Z (z : Z) : string := NilEmpty.string_of_int (Z.to_int z).

(** The elements followed by the closing bracket [close]. *)
Fixpoint join_close (close : ascii) (l : list string) : string :=
  match l with
  | [] => String close EmptyString
  | [x] => x ++ String close EmptyString
  | x :: l' => x ++ String "," (join_close close l')
  end.

Fixpoint print (j : json) : string :=
  match j with
  | JNull => "null"
  | JBool true => "true"
  | JBool false => "false"
  | JNum n => print_Z n
  | JStr s => print_str s
  | JArr l => String "[" (join_close "]" (map print l))
  | JObj l => String "{" (join_close "}" (map (fun kv => print_str (fst kv) ++ String ":" (print (snd kv))) l))
  end.

(** ** JSON.parse *)

(** JSON's whitespace: space, tab, line feed, carriage return. *)
Definition is_space (c : ascii) : bool :=
  Ascii.eqb c " " || Ascii.eqb c "009" || Ascii.eqb c "010" || Ascii.eqb c "013".

Fixpoint skip_ws (s : string) : string :=
  match s with
  | String c s' => if is_space c then skip_ws s' else s
  | EmptyString => EmptyString
  end.

(** The character a two-character escape [\e] stands for. *)
Definition unescape (e : ascii) : option ascii :=
  if Ascii.eqb e quote then Some quote
  else if Ascii.eqb e bslash then Some bslash
  else if Ascii.eqb e "/" then Some "/"%char
  else if Ascii.eqb e "b" then Some "008"%char
  else if Ascii.eqb e "f" then Some "012"%char
  else if Ascii.eqb e "n" then Some "010"%char
  else if Ascii.eqb e "r" then Some "013"%char
  else if Ascii.eqb e "t" then Some "009"%char
  else None.

Definition hex_val (c : ascii) : option N :=
  let n := N_of_ascii c in
  if (48 <=? n)%N && (n <=? 57)%N then Some (n - 48)%N
  else if (97 <=? n)%N && (n <=? 102)%N then Some (n - 87)%N
  else if (65 <=? n)%N && (n <=? 70)%N then Some (n - 55)%N
  else None.

Definition hex4 (a b c d : ascii) : option N :=
  match hex_val a, hex_val b, hex_val c, hex_val d with
  | Some a, Some b, Some c, Some d => Some (4096 * a + 256 * b + 16 * c + d)%N
  | _, _, _, _ => None
  end.

(** The UTF-8 bytes of a code point of the Basic Multilingual Plane;
    surrogates have none. *)
Definition utf8 (v : N) : option string :=
  if (v <? 128)%N then Some (String (ascii_of_N v) EmptyString)
  else if (v <? 2048)%N then
    Some (String (ascii_of_N (192 + v / 64)) (String (ascii_of_N (128 + v mod 64)) EmptyString))
  else if (55296 <=? v)%N && (v <=? 57343)%N then None
  else Some (String (ascii_of_N (224 + v / 4096))
               (String (ascii_of_N (128 + (v / 64) mod 64))
                  (String (ascii_of_N (128 + v mod 64)) EmptyString))).

(** The body of a string literal up to its closing quote: escapes are
    decoded, an unknown escape or a raw control character is an error. *)
Fixpoint parse_str (s : string) : option (string * string) :=
  match s with
  | EmptyString => None
  | String c s' =>
      if Ascii.eqb c quote then Some (EmptyString, s')
      else if Ascii.eqb c bslash then
        match s' with
        | String "u" (String h1 (String h2 (String h3 (String h4 r)))) =>
            match match hex4 h1 h2 h3 h4 with Some v => utf8 v | None => None end with
            | Some u => option_map (fun p => (u ++ fst p, snd p)) (parse_str r)
            | None => None
            end
        | String e r =>
            match unescape e with
            | Some c2 => option_map (fun p => (String c2 (fst p), snd p)) (parse_str r)
            | None => None
            end
        | EmptyString => None
        end
      else if (N_of_ascii c <? 32)%N then None
      else option_map (fun p => (String c (fst p), snd p)) (parse_str s')
  end.

Definition is_num_char (c : ascii) : bool :=
  existsb (Ascii.eqb c) ["-"; "0"; "1"; "2"; "3"; "4"; "5"; "6"; "7"; "8"; "9"]%char.

Fixpoint take_num (s : string) : string * string :=
  match s with
  | EmptyString => (EmptyString, EmptyString)
  | String c s' =>
      if is_num_char c then let '(a, b) := take_num s' in (String c a, b)
      else (EmptyString, s)
  end.

(** A JSON integer has a digit after its sign and no leading zero:
    [-], [01] and [-01] are errors. *)
Definition not_json_int (t : string) : bool :=
  match t with
  | String "-" EmptyString => true
  | String "0" (String _ _) => true
  | String "-" (String "0" (String _ _)) => true
  | _ => false
  end.

Definition parse_num (s : string) : option (json * string) :=
  let '(t, r) := take_num s in
  if String.eqb t EmptyString || not_json_int t then None
  else match NilEmpty.int_of_string t with
       | Some i => Some (JNum (Z.of_int i), r)
       | None => None
       end.

Fixpoint parse_value (fuel : nat) (s : string) {struct fuel} : option (json * string) :=
  match fuel with
  | O => None
  | S n =>
      match skip_ws s with
      | String "n" (String "u" (String "l" (String "l" r))) => Some (JNull, r)
      | String "t" (String "r" (String "u" (String "e" r))) => Some (JBool true, r)
      | String "f" (String "a" (String "l" (String "s" (String "e" r)))) => Some (JBool false, r)
      | String "[" r =>
          match skip_ws r with
          | String "]" r' => Some (JArr [], r')
          | _ => option_map (fun p => (JArr (fst p), snd p)) (parse_elems n r)
          end
      | String "{" r =>
          match skip_ws r with
          | String "}" r' => Some (JObj [], r')
          | _ => option_map (fun p => (JObj (fst p), snd p)) (parse_fields n r)
          end
      | String c r =>
          if Ascii.eqb c quote
          then option_map (fun p => (JStr (fst p), snd p)) (parse_str r)
          else parse_num (String c r)
      | EmptyString => None
      end
  end
with parse_elems (fuel : nat) (s : string) {struct fuel} : option (list json * string) :=
  match fuel with
  | O => None
  | S n =>
      match parse_value n s with
      | Some (v, r) =>
          match skip_ws r with
          | String "," r' => option_map (fun p => (v :: fst p, snd p)) (parse_elems n r')
          | String "]" r' => Some ([v], r')
          | _ => None
          end
      | None => None
      end
  end
with parse_fields (fuel : nat) (s : string) {struct fuel} : option (list (string * json) * string) :=
  match fuel with
  | O => None
  | S n =>
      match skip_ws s with
      | String c s' =>
          if Ascii.eqb c quote then
            match parse_str s' with
            | Some (k, r) =>
                match skip_ws r with
                | String ":" r1 =>
                    match parse_value n r1 with
                    | Some (v, r2) =>
                        match skip_ws r2 with
                        | String "," r' =>
                            option_map (fun p => ((k, v) :: fst p, snd p)) (parse_fields n r')
                        | String "}" r' => Some ([(k, v)], r')
                        | _ => None
                        end
                    | None => None
                    end
                | _ => None
                end
            | None => None
            end
          else None
      | EmptyString => None
      end
  end.

(** [JSON.parse] of a whole text: one value, then only whitespace. *)
Definition parse_json (s : string) : option json :=
  match parse_value (String.length s) s with
  | Some (j, r) => match skip_ws r with EmptyString => Some j | _ => None end
  | None => None
  end.

(** ** Fuel

    The parser's fuel only bounds its recursion: a result found with some
    fuel is found with any larger fuel (as the interpreters of
    cdf-mech-sem's Divergence.v are monotone in their fuel). *)
#[local] Ltac fuel_split n IHv :=
  repeat (match goal with
    | E : context [match parse_value n ?t with _ => _ end] |- _ =>
        let Ev := fresh "Ev" in
        destruct (parse_value n t) as [[? ?]|] eqn:Ev; [rewrite (IHv _ _ Ev)|discriminate]
    | |- context [match ?x with _ => _ end] =>
        lazymatch x with
        | parse_value _ _ => fail | parse_elems _ _ => fail | parse_fields _ _ => fail
        | _ => destruct x
        end
    end; cbn -[parse_value parse_elems parse_fields parse_num] in * |- *);
  try assumption; try discriminate.

#[local] Ltac fuel_close n IHe IHf :=
  match goal with
  | E : option_map _ (parse_elems n ?t) = _ |- _ =>
      let Ee := fresh "Ee" in
      destruct (parse_elems n t) eqn:Ee; [rewrite (IHe _ _ Ee); exact E|discriminate]
  | E : option_map _ (parse_fields n ?t) = _ |- _ =>
      let Ee := fresh "Ee" in
      destruct (parse_fields n t) eqn:Ee; [rewrite (IHf _ _ Ee); exact E|discriminate]
  end.

Lemma parse_fuel_mono n : forall m, n <= m ->
  (forall s r, parse_value n s = Some r -> parse_value m s = Some r) /\
  (forall s r, parse_elems n s = Some r -> parse_elems m s = Some r) /\
  (forall s r, parse_fields n s = Some r -> parse_fields m s = Some r).
Proof.
  induction n as [|n IH]; intros m Hm; [repeat split; discriminate|].
  destruct m as [|m]; [lia|]. destruct (IH m ltac:(lia)) as (IHv & IHe & IHf).
  split; [|split]; intros s r E; cbn [parse_value parse_elems parse_fields] in E |- *;
    fuel_split n IHv; fuel_close n IHe IHf.
Qed.

(** ** Round trip: parsing what was printed *)

Lemma sapp_assoc (a b c : string) : (a ++ b) ++ c = a ++ (b ++ c).
Proof. induction a as [|x a IH]; simpl; [reflexivity|now rewrite IH]. Qed.

Lemma slength_app (a b : string) : String.length (a ++ b) = String.length a + String.length b.
Proof. induction a as [|x a IH]; simpl; [reflexivity|now rewrite IH]. Qed.

(** The parser decodes each code unit's escape back to the code unit
    (checked on all 256 of them). *)
Lemma parse_str_esc c t :
  parse_str (esc c ++ t) = option_map (fun p => (String c (fst p), snd p)) (parse_str t).
Proof. destruct c as [[] [] [] [] [] [] [] []]; reflexivity. Qed.

Lemma parse_str_escape s rest : parse_str (escape s ++ String quote rest) = Some (s, rest).
Proof.
  induction s as [|c s IH]; [reflexivity|].
  cbn [escape]. now rewrite sapp_assoc, parse_str_esc, IH.
Qed.

Definition stops (rest : string) : bool :=
  match rest with
  | EmptyString => true
  | String c _ => negb (is_num_char c)
  end.

Fixpoint all_num (s : string) : bool :=
  match s with
  | EmptyString => true
  | String c s' => is_num_char c && all_num s'
  end.

Lemma take_num_app t rest :
  all_num t = true -> stops rest = true -> take_num (t ++ rest) = (t, rest).
Proof.
  induction t as [|c t IH]; simpl; intros Ht Hr.
  - destruct rest as [|c rest]; [reflexivity|]. simpl in *.
    now destruct (is_num_char c).
  - apply andb_true_iff in Ht as [Hc Ht]. rewrite Hc, IH; auto.
Qed.

Lemma all_num_uint d : all_num (NilEmpty.string_of_uint d) = true.
Proof. induction d; simpl; auto. Qed.

Lemma print_Z_shape z :
  exists c t, print_Z z = String c t /\ is_num_char c = true /\ all_num (String c t) = true.
Proof.
  unfold print_Z. destruct z as [|p|p]; simpl.
  - exists "0"%char, EmptyString. auto.
  - pose proof (Unsigned.to_uint_nonnil p) as Hn. pose proof (all_num_uint (Pos.to_uint p)) as Ha.
    destruct (Pos.to_uint p); try (now destruct Hn); simpl in *; eauto.
  - exists "-"%char, (NilEmpty.string_of_uint (Pos.to_uint p)). simpl.
    rewrite all_num_uint. auto.
Qed.

Lemma nzhead_not_D0 d x : nzhead d <> D0 x.
Proof. induction d; simpl; congruence. Qed.

(** The decimal digits of a positive number do not start with 0. *)
Lemma to_uint_not_D0 p x : Pos.to_uint p <> D0 x.
Proof.
  intros E. pose proof (Unsigned.to_of (Pos.to_uint p)) as H.
  rewrite Unsigned.of_to in H. cbn [N.to_uint] in H. rewrite E in H. unfold unorm in H.
  cbn [nzhead] in H. destruct (nzhead x) eqn:Ex; try discriminate H.
  - injection H as ->. now apply (Unsigned.to_uint_nonzero p).
  - now apply (nzhead_not_D0 x u).
Qed.

Lemma not_json_int_print_Z z : not_json_int (print_Z z) = false.
Proof.
  unfold print_Z. destruct z as [|p|p]; [reflexivity| |];
    pose proof (Unsigned.to_uint_nonnil p) as Hn; pose proof (to_uint_not_D0 p) as H0;
    cbn [Z.to_int NilEmpty.string_of_int];
    destruct (Pos.to_uint p); try (now destruct Hn); try (now destruct (H0 u)); reflexivity.
Qed.

Lemma parse_num_print z rest :
  stops rest = true -> parse_num (print_Z z ++ rest) = Some (JNum z, rest).
Proof.
  intros Hr. destruct (print_Z_shape z) as (c & t & E & Hc & Ha).
  unfold parse_num. rewrite take_num_app by (rewrite ?E; assumption).
  replace (String.eqb (print_Z z) EmptyString) with false by (rewrite E; reflexivity).
  rewrite not_json_int_print_Z. cbn [orb].
  unfold print_Z. rewrite NilEmpty.isi, DecimalZ.of_to. reflexivity.
Qed.

(** The parser's dispatch on the first character. *)
Lemma parse_value_arr n s :
  (forall r, skip_ws s <> String "]" r) ->
  parse_value (S n) (String "[" s) = option_map (fun p => (JArr (fst p), snd p)) (parse_elems n s).
Proof.
  intros H. simpl. destruct (skip_ws s) as [|c r]; [reflexivity|].
  destruct c as [[] [] [] [] [] [] [] []]; try reflexivity. now destruct (H r).
Qed.

Lemma parse_value_obj n s :
  (forall r, skip_ws s <> String "}" r) ->
  parse_value (S n) (String "{" s) = option_map (fun p => (JObj (fst p), snd p)) (parse_fields n s).
Proof.
  intros H. simpl. destruct (skip_ws s) as [|c r]; [reflexivity|].
  destruct c as [[] [] [] [] [] [] [] []]; try reflexivity. now destruct (H r).
Qed.

Lemma parse_value_num n c r :
  is_num_char c = true -> parse_value (S n) (String c r) = parse_num (String c r).
Proof. destruct c as [[] [] [] [] [] [] [] []]; try discriminate; reflexivity. Qed.

(** Fuel: one unit per value and per element. *)
Fixpoint size (j : json) : nat :=
  match j with
  | JArr l => S (list_sum (map (fun x => S (size x)) l))
  | JObj l => S (list_sum (map (fun kv => S (size (snd kv))) l))
  | _ => 1
  end.

Definition roundtrips (j : json) : Prop :=
  forall n rest, size j <= n -> stops rest = true -> parse_value n (print j ++ rest) = Some (j, rest).

Lemma sapp_nil (a : string) : a ++ EmptyString = a.
Proof. induction a as [|x a IH]; simpl; [reflexivity|now rewrite IH]. Qed.

Lemma join_close_cons2 c x y l :
  join_close c (x :: y :: l) = x ++ String "," (join_close c (y :: l)).
Proof. reflexivity. Qed.

Lemma skip_ws_sep c t : is_space c = false -> skip_ws (String c t) = String c t.
Proof. intros H. simpl. now rewrite H. Qed.

Lemma num_not_space c : is_num_char c = true -> is_space c = false.
Proof. destruct c as [[] [] [] [] [] [] [] []]; try discriminate; reflexivity. Qed.

(** A separator or bracket the printer wrote: skip it past the
    whitespace the parser allows there. *)
#[local] Ltac sep_step :=
  cbv beta iota; rewrite ?skip_ws_sep by reflexivity; cbv beta iota.

Lemma parse_elems_S m s :
  parse_elems (S m) s =
    match parse_value m s with
    | Some (v, r) =>
        match skip_ws r with
        | String "," r' => option_map (fun p => (v :: fst p, snd p)) (parse_elems m r')
        | String "]" r' => Some ([v], r')
        | _ => None
        end
    | None => None
    end.
Proof. reflexivity. Qed.

Lemma parse_fields_S m s :
  parse_fields (S m) (String quote s) =
    match parse_str s with
    | Some (k, r) =>
        match skip_ws r with
        | String ":" r1 =>
            match parse_value m r1 with
            | Some (v, r2) =>
                match skip_ws r2 with
                | String "," r' => option_map (fun p => ((k, v) :: fst p, snd p)) (parse_fields m r')
                | String "}" r' => Some ([(k, v)], r')
                | _ => None
                end
            | None => None
            end
        | _ => None
        end
    | None => None
    end.
Proof. reflexivity. Qed.

(** The printed text starts with neither whitespace nor a closing bracket. *)
Lemma print_first j :
  exists c t, print j = String c t /\ is_space c = false /\ c <> "]"%char /\ c <> "}"%char.
Proof.
  destruct j as [| [] | n | s | l | l]; simpl;
    try (do 2 eexists; split; [reflexivity|]; split; [reflexivity|]; split; discriminate).
  destruct (print_Z_shape n) as (c & t & -> & Hc & _). exists c, t. split; [reflexivity|].
  split; [now apply num_not_space|]. split; intros ->; discriminate.
Qed.

Lemma skip_ws_print j rest : skip_ws (print j ++ rest) = print j ++ rest.
Proof. destruct (print_first j) as (c & t & -> & Hs & _). now apply skip_ws_sep. Qed.

Lemma not_close_app j rest close :
  close = "]"%char \/ close = "}"%char -> forall r, print j ++ rest <> String close r.
Proof.
  intros Hc r. destruct (print_first j) as (c & t & -> & _ & H1 & H2). simpl. intros [= <- _].
  destruct Hc; contradiction.
Qed.

Lemma parse_elems_print l :
  Forall roundtrips l -> l <> [] ->
  forall m rest, list_sum (map (fun x => S (size x)) l) <= m ->
  parse_elems m (join_close "]" (map print l) ++ rest) = Some (l, rest).
Proof.
  induction 1 as [|x l Hx Hl IH]; intros Hne m rest Hm; [congruence|].
  simpl in Hm. destruct m as [|m]; [lia|]. rewrite parse_elems_S.
  destruct l as [|y l].
  - simpl map. cbn [join_close]. rewrite sapp_assoc, Hx by (simpl in *; auto; lia). reflexivity.
  - cbn [map join_close]. rewrite sapp_assoc, Hx by (simpl in *; auto; lia).
    cbn [String.append]. sep_step. rewrite IH; [reflexivity|discriminate|simpl in *; lia].
Qed.

Lemma parse_fields_print l :
  Forall (fun kv => roundtrips (snd kv)) l -> l <> [] ->
  forall m rest, list_sum (map (fun kv => S (size (snd kv))) l) <= m ->
  parse_fields m (join_close "}" (map (fun kv => print_str (fst kv) ++ String ":" (print (snd kv))) l)
                  ++ rest) = Some (l, rest).
Proof.
  set (pf := fun kv : string * json => print_str (fst kv) ++ String ":" (print (snd kv))).
  induction 1 as [|[k v] l Hx Hl IH]; intros Hne m rest Hm; [congruence|].
  simpl in Hm. destruct m as [|m]; [lia|]. simpl in Hx.
  assert (forall r, pf (k, v) ++ r = String quote (escape k ++ String quote (String ":" (print v ++ r))))
    as Hpf by (intros r; unfold pf, print_str; cbn [fst snd];
               rewrite !sapp_assoc; cbn [String.append]; rewrite !sapp_assoc; reflexivity).
  destruct l as [|y l].
  - change (join_close "}" (map pf [(k, v)])) with (pf (k, v) ++ String "}" EmptyString).
    rewrite sapp_assoc, Hpf, parse_fields_S, parse_str_escape. sep_step.
    rewrite Hx by (simpl in *; auto; lia). reflexivity.
  - change (join_close "}" (map pf ((k, v) :: y :: l)))
      with (pf (k, v) ++ String "," (join_close "}" (map pf (y :: l)))).
    rewrite sapp_assoc, Hpf, parse_fields_S, parse_str_escape. sep_step.
    rewrite Hx by (simpl in *; auto; lia). cbn [String.append]. sep_step.
    rewrite IH; [reflexivity|discriminate|simpl in *; lia].
Qed.

Lemma print_roundtrips j : roundtrips j.
Proof.
  induction j as [| b | z | s | l IH | l IH] using json_ind'; intros n rest Hn Hr;
    destruct n as [|n]; simpl in Hn; try lia.
  - reflexivity.
  - destruct b; reflexivity.
  - destruct (print_Z_shape z) as (c & t & E & Hc & _).
    change (print (JNum z)) with (print_Z z). rewrite E. cbn [String.append].
    rewrite parse_value_num by exact Hc.
    change (String c (t ++ rest)) with (String c t ++ rest). rewrite <- E.
    now apply parse_num_print.
  - simpl. unfold print_str. rewrite sapp_assoc. cbn [String.append].
    change (parse_value (S n) (String quote (escape s ++ String quote EmptyString ++ rest)))
      with (option_map (fun p => (JStr (fst p), snd p))
              (parse_str (escape s ++ String quote EmptyString ++ rest))).
    cbn [String.append]. now rewrite parse_str_escape.
  - destruct l as [|x l]; [reflexivity|].
    change (print (JArr (x :: l))) with (String "[" (join_close "]" (map print (x :: l)))).
    cbn [String.append]. rewrite parse_value_arr.
    + rewrite parse_elems_print; [reflexivity|exact IH|discriminate|lia].
    + destruct l; cbn [map join_close]; intros r; rewrite sapp_assoc, skip_ws_print;
        apply not_close_app; auto.
  - destruct l as [|[k v] l]; [reflexivity|].
    change (print (JObj ((k, v) :: l))) with
      (String "{" (join_close "}" (map (fun kv => print_str (fst kv) ++ String ":" (print (snd kv)))
                                        ((k, v) :: l)))).
    cbn [String.append]. rewrite parse_value_obj.
    + rewrite parse_fields_print; [reflexivity|exact IH|discriminate|lia].
    + cbn [map join_close fst snd]. unfold print_str.
      destruct l; intros r; simpl; discriminate.
Qed.

Lemma list_sum_map_le {A : Type} (f g : A -> nat) l :
  Forall (fun a => f a <= g a) l -> list_sum (map f l) <= list_sum (map g l).
Proof. induction 1; simpl; lia. Qed.

Lemma join_close_length c l :
  list_sum (map (fun s => S (String.length s)) l) <= String.length (join_close c l).
Proof.
  induction l as [|x [|y l] IH]; simpl; [lia| |].
  - rewrite slength_app. simpl. lia.
  - rewrite slength_app. simpl in *. lia.
Qed.

(** The text is long enough to serve as fuel. *)
Lemma size_le_length j : size j <= String.length (print j).
Proof.
  induction j as [| b | z | s | l IH | l IH] using json_ind'.
  - simpl. lia.
  - destruct b; simpl; lia.
  - simpl. destruct (print_Z_shape z) as (c & t & -> & _). simpl. lia.
  - simpl. unfold print_str. simpl. lia.
  - simpl. pose proof (join_close_length "]" (map print l)) as J. rewrite map_map in J.
    enough (list_sum (map (fun x => S (size x)) l) <=
            list_sum (map (fun x => S (String.length (print x))) l)) by lia.
    apply list_sum_map_le. refine (Forall_impl _ _ IH). intros x Hx. lia.
  - change (size (JObj l)) with (S (list_sum (map (fun kv => S (size (snd kv))) l))).
    change (String.length (print (JObj l))) with
      (S (String.length (join_close "}" (map (fun kv => print_str (fst kv) ++ String ":" (print (snd kv))) l)))).
    pose proof (join_close_length "}" (map (fun kv => print_str (fst kv) ++ String ":" (print (snd kv))) l)) as J.
    rewrite map_map in J.
    enough (list_sum (map (fun kv => S (size (snd kv))) l) <=
            list_sum (map (fun kv => S (String.length (print_str (fst kv) ++ String ":" (print (snd kv))))) l)) by lia.
    apply list_sum_map_le. refine (Forall_impl _ _ IH). intros kv Hkv.
    rewrite slength_app. simpl. lia.
Qed.

(** [JSON.parse] inverts [JSON.stringify] on every JSON value: the
    parser, given the printed text and the text's length as fuel, returns
    the value and consumes the whole text. *)
Theorem parse_json_print j : parse_json (print j) = Some j.
Proof.
  unfold parse_json. pose proof (print_roundtrips j (String.length (print j)) EmptyString
                                   (size_le_length j) eq_refl) as H.
  rewrite sapp_nil in H. now rewrite H.
Qed.

(** ** Features as mapbox-gl-draw's [toGeoJSON] writes them *)

Definition pos_to_json (p : position) : json := JArr [JNum (fst p); JNum (snd p)].

Definition coords_to_json (g : Geometry) : json :=
  match g with
  | LineString c => JArr (map pos_to_json c)
  | Polygon rings => JArr (map (fun r => JArr (map pos_to_json r)) rings)
  end.

Definition feature_to_json (f : feature) : json :=
  JObj [("id", JStr (id f));
        ("type", JStr "Feature");
        ("properties", JObj (map (fun kv => (fst kv, JStr (snd kv))) (properties f)));
        ("geometry", JObj [("coordinates", coords_to_json (geometry f));
                           ("type", JStr (geometry_type (geometry f)))])].

Fixpoint omap {A B : Type} (f : A -> option B) (l : list A) : option (list B) :=
  match l with
  | [] => Some []
  | x :: l' =>
      match f x, omap f l' with
      | Some y, Some ys => Some (y :: ys)
      | _, _ => None
      end
  end.

Definition pos_of_json (j : json) : option position :=
  match j with
  | JArr [JNum x; JNum y] => Some (x, y)
  | _ => None
  end.

Definition ring_of_json (j : json) : option (list position) :=
  match j with
  | JArr ps => omap pos_of_json ps
  | _ => None
  end.

Definition geometry_of_json (j : json) : option Geometry :=
  match j with
  | JObj [(k1, JArr cs); (k2, JStr t)] =>
      if String.eqb k1 "coordinates" && String.eqb k2 "type" then
        if String.eqb t "LineString" then option_map LineString (omap pos_of_json cs)
        else if String.eqb t "Polygon" then option_map Polygon (omap ring_of_json cs)
        else None
      else None
  | _ => None
  end.

Definition prop_of_json (kv : string * json) : option (string * string) :=
  match snd kv with
  | JStr v => Some (fst kv, v)
  | _ => None
  end.

Definition feature_of_json (j : json) : option feature :=
  match j with
  | JObj [(k1, JStr i); (k2, JStr t); (k3, JObj ps); (k4, g)] =>
      if String.eqb k1 "id" && String.eqb k2 "type" && String.eqb t "Feature"
         && String.eqb k3 "properties" && String.eqb k4 "geometry" then
        match omap prop_of_json ps, geometry_of_json g with
        | Some props, Some geom => Some (mk_feature i geom props)
        | _, _ => None
        end
      else None
  | _ => None
  end.

Definition features_of_json (j : json) : option (list feature) :=
  match j with
  | JArr l => omap feature_of_json l
  | _ => None
  end.

Lemma omap_map {A B : Type} (f : A -> option B) (g : B -> A) l :
  (forall x, f (g x) = Some x) -> omap f (map g l) = Some l.
Proof. intros H. induction l as [|x l IH]; simpl; [reflexivity|now rewrite H, IH]. Qed.

Lemma feature_of_to_json f : feature_of_json (feature_to_json f) = Some f.
Proof.
  destruct f as [i g props]. unfold feature_to_json, feature_of_json. cbn [id geometry properties].
  rewrite omap_map by (intros [k v]; reflexivity).
  destruct g as [c|rings]; simpl; rewrite omap_map; try reflexivity.
  - now intros [x y].
  - intros r. simpl. now rewrite omap_map by (now intros [x y]).
Qed.

(** [JSON.stringify(features)] and [JSON.parse(text)] read as a feature
    array; a text that is not one is a [SyntaxError]. *)
Definition stringify_features (fs : list feature) : string :=
  print (JArr (map feature_to_json fs)).

Definition parse_features (s : string) : result (list feature) :=
  match parse_json s with
  | Some j =>
      match features_of_json j with
      | Some fs => Ok fs
      | None => Err (SyntaxError "not an array of features")
      end
  | None => Err (SyntaxError "Unexpected token in JSON")
  end.

Lemma parse_stringify_features fs : parse_features (stringify_features fs) = Ok fs.
Proof.
  unfold parse_features, stringify_features. rewrite parse_json_print. simpl.
  now rewrite omap_map by apply feature_of_to_json.
Qed.

#[export] Instance codec : JsonCodec := {
  stringify := stringify_features;
  parse := parse_features;
  parse_stringify := parse_stringify_features;
  stringify_nonempty fs := ltac:(discriminate)
}.

(** The text [storeDrawings] writes for a non-empty collection is
    [JSON.stringify] of the features' GeoJSON objects, and [JSON.parse]
    reads back exactly those objects and those features. *)
Theorem storeDrawings_text_roundtrip fs st :
  fs <> [] ->
  exists s, getItem user_drawings_key (storeDrawings (Some fs) st) = Some s /\
    parse_json s = Some (JArr (map feature_to_json fs)) /\ parse_features s = Ok fs.
Proof.
  intros Hne. destruct fs as [|f fs]; [congruence|].
  exists (stringify_features (f :: fs)). split; [apply getItem_setItem|].
  split; [apply parse_json_print|apply parse_stringify_features].
Qed.

(** ** Whitespace around a value *)

Lemma skip_ws_idem s : skip_ws (skip_ws s) = skip_ws s.
Proof.
  induction s as [|c s IH]; [reflexivity|]. cbn [skip_ws].
  destruct (is_space c) eqn:E; [exact IH|]. cbn [skip_ws]. now rewrite E.
Qed.

Lemma skip_ws_app a s : skip_ws a = EmptyString -> skip_ws (a ++ s) = skip_ws s.
Proof.
  induction a as [|c a IH]; [reflexivity|]. cbn [skip_ws String.append].
  destruct (is_space c); [exact IH|discriminate].
Qed.

(** A value's parse does not see the whitespace before it. *)
Lemma parse_value_skip n s : parse_value n s = parse_value n (skip_ws s).
Proof. destruct n; [reflexivity|]. cbn [parse_value]. now rewrite skip_ws_idem. Qed.

Lemma stops_ws b : skip_ws b = EmptyString -> stops b = true.
Proof.
  destruct b as [|c b]; [reflexivity|]. cbn [skip_ws stops]. intros H.
  destruct (is_num_char c) eqn:Ec; [|reflexivity].
  now rewrite (num_not_space c Ec) in H.
Qed.

(** [JSON.parse] reads the text [JSON.stringify] wrote for a feature
    array back to the same features when JSON whitespace surrounds it. *)
Lemma parse_features_ws a b fs :
  skip_ws a = EmptyString -> skip_ws b = EmptyString ->
  parse_features (a ++ stringify_features fs ++ b) = Ok fs.
Proof.
  intros Ha Hb. unfold parse_features, parse_json, stringify_features.
  set (j := JArr (map feature_to_json fs)).
  rewrite parse_value_skip, skip_ws_app, <- parse_value_skip by exact Ha.
  rewrite print_roundtrips; [rewrite Hb; cbn [features_of_json j]| |now apply stops_ws].
  - now rewrite omap_map by apply feature_of_to_json.
  - pose proof (size_le_length j). rewrite !slength_app. lia.
Qed.

(** An entry holding [JSON.stringify] of features with JSON
    whitespace (space, tab, line feed, carriage return) around it, as a
    pretty-printed or hand-edited entry has, is read by App's initialiser
    and Map's ['load'] listener ([saved_drawings]) as exactly those
    features. *)
Theorem saved_drawings_ws st a b fs :
  skip_ws a = EmptyString -> skip_ws b = EmptyString ->
  getItem user_drawings_key st = Some (a ++ stringify_features fs ++ b) ->
  saved_drawings st = Ok fs.
Proof.
  intros Ha Hb Hg. unfold saved_drawings. rewrite Hg.
  destruct (String.eqb_spec (a ++ stringify_features fs ++ b) EmptyString) as [E|_].
  - apply (f_equal String.length) in E. rewrite !slength_app in E. simpl in E. lia.
  - exact (parse_features_ws a b fs Ha Hb).
Qed.

(** The stored entry, read by App's initialiser and Map's ['load']
    listener ([saved_drawings]), parses with any fuel at least its length
    to the same JSON value followed by nothing but whitespace, and to the
    same features: the fuel the page gives [JSON.parse] is never the
    reason for its answer. *)
Theorem saved_drawings_fuel st s fs n :
  getItem user_drawings_key st = Some s -> s <> EmptyString ->
  saved_drawings st = Ok fs -> String.length s <= n ->
  exists j r, parse_value n s = Some (j, r) /\ skip_ws r = EmptyString /\
    features_of_json j = Some fs.
Proof.
  intros Hg Hne Hs Hn. unfold saved_drawings in Hs. rewrite Hg in Hs.
  destruct (String.eqb_spec s EmptyString) as [E|_]; [contradiction|].
  cbn [parse codec] in Hs. unfold parse_features, parse_json in Hs.
  destruct (parse_value (String.length s) s) as [[j r]|] eqn:Ep; [|discriminate].
  destruct (skip_ws r) eqn:Er; [|discriminate].
  exists j, r. split; [exact (proj1 (parse_fuel_mono _ n Hn) _ _ Ep)|split; [exact Er|]].
  destruct (features_of_json j); [now injection Hs as ->|discriminate].
Qed.

(** The grammar on small texts: whitespace between tokens is skipped, a
    leading zero and a raw line feed inside a string are errors, the
    escapes decode ([\u00e9] to the two UTF-8 bytes of e-acute), and the printer
    writes a line feed as [\n] and other control characters as [\u00XX]. *)
Example parse_json_grammar :
  parse_json (String "009" " [ 1 ,-2 ] ") = Some (JArr [JNum 1; JNum (-2)]) /\
  parse_json "[01]" = None /\ parse_json "-" = None /\
  parse_json (String quote ("a\/\u00e9" ++ String quote EmptyString)) =
    Some (JStr (String "a" (String "/" (String "195" (String "169" EmptyString))))) /\
  parse_json (String quote (String "010" (String quote EmptyString))) = None /\
  print (JStr (String "010" (String "001" EmptyString))) =
    String quote ("\n\u0001" ++ String quote EmptyString).
Proof. repeat split; vm_compute; reflexivity. Qed.
