(* ===== verification/MapAdapter.v ===== *)
(** * MapAdapter: the [Map] component of src/src/components/Map.tsx

    State ([MapState]): the refs [draw] (the widget, [None] until the
    mount effect creates it) and [map] (alive or removed), the React
    states [roundedArea] (undefined until first set), [lineColor] and
    [fillColor], and the refs [lineColorRef] / [fillColorRef] that the
    two effects of lines 48-54 keep in step with the colour states.

    A handler runs against the component state and localStorage, and
    returns what it did to the parent as a list of [output]s: a call
    [props.mapDrawings(x)] ([Emit]) or an [alert] ([Alert]), in the order
    the code performs them.  Handlers that can throw return a [result].

    The widget is any implementation of [DrawApi] with [DrawLaws]; the
    JSON codec any [JsonCodec]; [Math.sin] and [Math.PI] of turf's area
    are the Section variables [sin] and [PI]. *)

From Stdlib Require Import String List Bool ZArith QArith Lia Lqa.
From Stdlib Require Import Morphisms Setoid.
From stdpp Require Import base gmap strings.
From S2P Require Import Prelude Feature Draw Area Storage.
Import ListNotations.

Local Open Scope mapfun_scope.

(** What a handler does to the outside world besides storage. *)
Inductive output : Type :=
| Emit (drawings : option (list feature))   (* props.mapDrawings(drawings) *)
| Alert (message : string).                 (* alert(message) *)

Definition alert_no_saved : string :=
  "Please Select a Color and add a line or a polygon"%string.
Definition alert_draw : string := "Click the map to draw a polygon."%string.

(** The object given to [useImperativeHandle]: what App may call. *)
Record ImperativeHandle (MS : Type) : Type := {
  handle_clearAll : MS -> storage -> MS * storage * list output;
  handle_deleteDrawing : string -> MS -> storage -> MS * storage * list output
}.
Arguments handle_clearAll {MS} _ _ _.
Arguments handle_deleteDrawing {MS} _ _ _ _.

Module MapComponent.

Record MapState (S : Type) : Type := mk_state {
  draw : option S;
  map_alive : bool;
  roundedArea : option Q;
  lineColor : string;
  fillColor : string;
  lineColorRef : string;
  fillColorRef : string
}.
Arguments mk_state {S} _ _ _ _ _ _ _.
Arguments draw {S} _.
Arguments map_alive {S} _.
Arguments roundedArea {S} _.
Arguments lineColor {S} _.
Arguments fillColor {S} _.
Arguments lineColorRef {S} _.
Arguments fillColorRef {S} _.

Section Component.
Context {S : Type} `{DrawApi S} `{JsonCodec}.
Variable sin : Q -> Q.
Variable PI : Q.

Definition set_draw (d : option S) (ms : MapState S) : MapState S :=
  mk_state d (map_alive ms) (roundedArea ms) (lineColor ms) (fillColor ms)
           (lineColorRef ms) (fillColorRef ms).

(** [setRoundedArea(a)] *)
Definition setRoundedArea (a : Q) (ms : MapState S) : MapState S :=
  mk_state (draw ms) (map_alive ms) (Some a) (lineColor ms) (fillColor ms)
           (lineColorRef ms) (fillColorRef ms).

(** [useState<number>()], [useState('')], [useRef(lineColor)], ... *)
Definition initialState : MapState S := mk_state None false None "" "" "" "".

(** [handleLineColorChange] / [handleFillColorChange] (lines 57-64) *)
Definition handleLineColorChange (value : string) (ms : MapState S) : MapState S :=
  mk_state (draw ms) (map_alive ms) (roundedArea ms) value (fillColor ms)
           (lineColorRef ms) (fillColorRef ms).

Definition handleFillColorChange (value : string) (ms : MapState S) : MapState S :=
  mk_state (draw ms) (map_alive ms) (roundedArea ms) (lineColor ms) value
           (lineColorRef ms) (fillColorRef ms).

(** The two effects of lines 48-54, run after the render that follows
    a colour change. *)
Definition syncColorRefs (ms : MapState S) : MapState S :=
  mk_state (draw ms) (map_alive ms) (roundedArea ms) (lineColor ms) (fillColor ms)
           (lineColor ms) (fillColor ms).

(** The mount effect (lines 106-130): create the map and the widget,
    unless the container div is missing. *)
Definition mountMap (container : bool) (ms : MapState S) : MapState S :=
  if container
  then mk_state (Some draw_new) true (roundedArea ms) (lineColor ms) (fillColor ms)
                (lineColorRef ms) (fillColorRef ms)
  else ms.

(** What the calculation box of the JSX (lines 187-222) shows: the
    rounded area ([None] for [undefined], which renders nothing) and the
    values of the two colour inputs. *)
Record map_view : Type := mk_map_view {
  area_text : option Q;
  line_input : string;
  fill_input : string
}.

Definition render_map (ms : MapState S) : map_view :=
  mk_map_view (roundedArea ms) (lineColor ms) (fillColor ms).

(** The cleanup (lines 181-183): [map.current?.remove()]. *)
Definition cleanupMap (ms : MapState S) : MapState S :=
  mk_state (draw ms) false (roundedArea ms) (lineColor ms) (fillColor ms)
           (lineColorRef ms) (fillColorRef ms).

(** [clearAll] (lines 80-85) *)
Definition clearAll (ms : MapState S) (st : storage) : MapState S * storage * list output :=
  match draw ms with
  | Some d => (setRoundedArea 0 (set_draw (Some (deleteAll d)) ms), st, [])
  | None => (ms, st, [])
  end.

(** [deleteDrawing] (lines 86-103) *)
Definition deleteDrawing (drawingId : string) (ms : MapState S) (st : storage)
  : MapState S * storage * list output :=
  match draw ms with
  | Some d =>
      let d' := draw_delete drawingId d in
      let data := getAll d' in
      let ms' := set_draw (Some d') ms in
      if (0 <? length data)%nat
      then (setRoundedArea (round2 (area sin PI data)) ms',
            storeDrawings (Some data) st, [Emit (Some data)])
      else (setRoundedArea 0 ms', storeDrawings (Some data) st, [Emit (Some [])])
  | None => (ms, st, [])
  end.

Definition handle : ImperativeHandle (MapState S) :=
  {| handle_clearAll := clearAll; handle_deleteDrawing := deleteDrawing |}.

(** The ['load'] listener (lines 133-152). [JSON.parse] may throw. *)
Definition onLoad (ms : MapState S) (st : storage)
  : result (MapState S * storage * list output) :=
  match getItem user_drawings_key st with
  | Some savedDrawings =>
      if String.eqb savedDrawings EmptyString
      then Ok (ms, st, [Alert alert_no_saved])
      else
        features <- parse savedDrawings ;;
        let d' := option_map (draw_set features) (draw ms) in
        let ms' := set_draw d' ms in
        match option_map getAll d' with
        | Some (f :: fs) =>
            Ok (setRoundedArea (round2 (area sin PI (f :: fs))) ms', st,
                [Emit (Some (f :: fs))])
        | _ => Ok (ms', st, [])
        end
  | None => Ok (ms, st, [Alert alert_no_saved])
  end.

(** [e.features.forEach(feature => { setFeatureProperty(feature.id,
    'lineColor', ...); setFeatureProperty(feature.id, 'fillColor', ...) })];
    the first throw aborts the loop. *)
Fixpoint apply_colors (lc fc : string) (fs : list feature) (d : S) : result S :=
  match fs with
  | [] => Ok d
  | f :: fs' =>
      d1 <- setFeatureProperty (id f) "lineColor" lc d ;;
      d2 <- setFeatureProperty (id f) "fillColor" fc d1 ;;
      apply_colors lc fc fs' d2
  end.

(** [updateMap(e)] (lines 159-179), the listener of [draw.create],
    [draw.delete] and [draw.update]. *)
Definition updateMap (e : draw_event) (ms : MapState S) (st : storage)
  : result (MapState S * storage * list output) :=
  let data := option_map getAll (draw ms) in
  d' <- (match etype e, draw ms with
         | DrawCreate, Some d =>
             rmap Some (apply_colors (lineColorRef ms) (fillColorRef ms) (efeatures e) d)
         | _, d => Ok d
         end) ;;
  let ms' := set_draw d' ms in
  let '(ms'', alerts) :=
    match data with
    | Some ((_ :: _) as fs) => (setRoundedArea (round2 (area sin PI fs)) ms', [])
    | _ => (setRoundedArea 0 ms',
            if event_type_eqb (etype e) DrawDelete then [] else [Alert alert_draw])
    end in
  Ok (ms'', storeDrawings data st, alerts ++ [Emit data]).

(** ** Functional behaviour of the handlers *)

Section Laws.
Context `{!DrawLaws S}.

Lemma setFeatureProperty_Ok_inv i k v d d' :
  setFeatureProperty i k v d = Ok d' ->
  In i (ids (getAll d)) /\ getAll d' = set_property i k v (getAll d).
Proof.
  intros E. destruct (in_dec string_dec i (ids (getAll d))) as [Hi|Hi].
  - destruct (setFeatureProperty_present i k v d Hi) as (d1 & E1 & G).
  rewrite E1 in E. injection E as <-. auto.
  - rewrite setFeatureProperty_missing in E by exact Hi. discriminate.
Qed.

Lemma apply_colors_shape lc fc fs d d' :
  apply_colors lc fc fs d = Ok d' -> getAll d' ≈ getAll d.
Proof.
  revert d. induction fs as [|f fs IH]; simpl; intros d E.
  - injection E as <-. reflexivity.
  - destruct (setFeatureProperty (id f) "lineColor" lc d) as [d1|] eqn:E1; [|discriminate].
  simpl in E. destruct (setFeatureProperty (id f) "fillColor" fc d1) as [d2|] eqn:E2;
      [|discriminate].
  simpl in E. apply IH in E.
  apply setFeatureProperty_Ok_inv in E1 as [_ G1], E2 as [_ G2].
  rewrite E, G2, set_property_shape, G1. apply set_property_shape.
Qed.

(** Colouring the features of a [draw.create] event: every feature the
  event names must be in the widget. *)
Definition colored (lc fc : string) (fs : list feature) (l : list feature) : list feature :=
  fold_left (fun l f => set_property (id f) "fillColor" fc (set_property (id f) "lineColor" lc l))
            fs l.

Lemma apply_colors_ok lc fc fs d :
  Forall (fun f => In (id f) (ids (getAll d))) fs ->
  exists d', apply_colors lc fc fs d = Ok d' /\ getAll d' = colored lc fc fs (getAll d).
Proof.
  revert d. induction fs as [|f fs IH]; simpl; intros d Hin; [eauto|].
  inversion Hin as [|? ? Hf Hrest]; subst.
  destruct (setFeatureProperty_present (id f) "lineColor" lc d Hf) as (d1 & E1 & G1).
  assert (In (id f) (ids (getAll d1))) as H1' by (rewrite G1, ids_set_property; exact Hf).
  destruct (setFeatureProperty_present (id f) "fillColor" fc d1 H1') as (d2 & E2 & G2).
  rewrite E1. simpl. rewrite E2. simpl. unfold colored in *. simpl. rewrite <- G1, <- G2.
  apply IH. refine (Forall_impl _ _ _ Hrest _). intros g Hg.
  now rewrite G2, ids_set_property, G1, ids_set_property.
Qed.

Lemma apply_colors_missing lc fc f fs d :
  ~ In (id f) (ids (getAll d)) -> apply_colors lc fc (f :: fs) d = Err missing_feature_error.
Proof. intros Hf. simpl. now rewrite setFeatureProperty_missing. Qed.

(** The alerts [updateMap] raises on a collection [data]. *)
Definition update_alerts (e : draw_event) (data : list feature) : list output :=
  match data with
  | [] => if event_type_eqb (etype e) DrawDelete then [] else [Alert alert_draw]
  | _ :: _ => []
  end.

(** [updateMap] emits and stores the collection read {e before} the
  colours are applied, and leaves in the widget a collection of the
  same shape; the area is that of the collection. *)
Lemma updateMap_spec e ms st r d :
  draw ms = Some d -> updateMap e ms st = Ok r ->
  exists d',
  r = (mk_state (Some d') (map_alive ms) (Some (round2 (area sin PI (getAll d))))
                  (lineColor ms) (fillColor ms) (lineColorRef ms) (fillColorRef ms),
         storeDrawings (Some (getAll d)) st,
         update_alerts e (getAll d) ++ [Emit (Some (getAll d))])
  /\ getAll d' ≈ getAll d.
Proof.
  intros Hd E. unfold updateMap in E. rewrite Hd in E. simpl in E.
  apply bind_eq_Ok in E as (d1 & E1 & E).
  assert (exists d', d1 = Some d' /\ getAll d' ≈ getAll d) as (d' & -> & Hs).
  { destruct (etype e); simpl in E1; try (injection E1 as <-; eexists; split; reflexivity).
  unfold rmap in E1. simpl_result. subst. eexists; split; [reflexivity|].
  eapply apply_colors_shape; eassumption. }
  exists d'. split; [|exact Hs].
  destruct (getAll d) as [|f fs]; injection E as <-; reflexivity.
Qed.

Lemma updateMap_ok e ms st d :
  draw ms = Some d ->
  (etype e = DrawCreate -> Forall (fun f => In (id f) (ids (getAll d))) (efeatures e)) ->
  exists r, updateMap e ms st = Ok r.
Proof.
  intros Hd Hin. unfold updateMap. rewrite Hd. simpl.
  destruct (etype e) eqn:Et; simpl.
  1: destruct (apply_colors_ok (lineColorRef ms) (fillColorRef ms) (efeatures e) d)
  as (d' & -> & _); [now apply Hin|]; simpl.
  all: destruct (getAll d); eexists; reflexivity.
Qed.

Lemma updateMap_create_widget ms st r d fs :
  draw ms = Some d -> Forall (fun f => In (id f) (ids (getAll d))) fs ->
  updateMap (mk_event DrawCreate fs) ms st = Ok r ->
  exists d', draw (fst (fst r)) = Some d' /\
             getAll d' = colored (lineColorRef ms) (fillColorRef ms) fs (getAll d).
Proof.
  intros Hd Hin E. unfold updateMap in E. rewrite Hd in E. simpl in E.
  destruct (apply_colors_ok (lineColorRef ms) (fillColorRef ms) fs d Hin) as (d' & E' & G).
  rewrite E' in E. simpl in E. exists d'. split; [|exact G].
  destruct (getAll d); injection E as <-; reflexivity.
Qed.

Lemma deleteDrawing_spec i ms st d :
  draw ms = Some d ->
  deleteDrawing i ms st =
  (mk_state (Some (draw_delete i d)) (map_alive ms)
              (Some (round2 (area sin PI (remove_id i (getAll d)))))
              (lineColor ms) (fillColor ms) (lineColorRef ms) (fillColorRef ms),
     storeDrawings (Some (remove_id i (getAll d))) st,
     [Emit (Some (remove_id i (getAll d)))]).
Proof.
  intros Hd. unfold deleteDrawing. rewrite Hd, getAll_delete.
  destruct (remove_id i (getAll d)); reflexivity.
Qed.

Lemma clearAll_spec ms st d :
  draw ms = Some d ->
  clearAll ms st =
  (mk_state (Some (deleteAll d)) (map_alive ms) (Some 0%Q)
              (lineColor ms) (fillColor ms) (lineColorRef ms) (fillColorRef ms), st, []).
Proof. intros Hd. unfold clearAll. now rewrite Hd. Qed.

(** The ['load'] listener does not throw when the entry parses. *)
Lemma onLoad_ok ms st L : saved_drawings st = Ok L -> exists r, onLoad ms st = Ok r.
Proof.
  intros Hs. unfold onLoad. unfold saved_drawings in Hs.
  destruct (getItem user_drawings_key st) as [s0|]; [|eexists; reflexivity].
  destruct (String.eqb s0 EmptyString); [eexists; reflexivity|].
  rewrite Hs. simpl. destruct (option_map getAll _) as [[|f fs]|]; eexists; reflexivity.
Qed.

(** ** Properties of the Map component *)

(** C6: [updateMap] writes to localStorage and sends up the collection it
  read before colouring, and shows that collection's rounded area; it
  alerts only when that collection is empty and the event is not a
  deletion. *)
Theorem updateMap_persists_snapshot e ms st ms' st' outs d :
  draw ms = Some d -> updateMap e ms st = Ok (ms', st', outs) ->
  st' = storeDrawings (Some (getAll d)) st /\
  outs = update_alerts e (getAll d) ++ [Emit (Some (getAll d))] /\
  roundedArea ms' = Some (round2 (area sin PI (getAll d))).
Proof.
  intros Hd E. destruct (updateMap_spec e ms st _ d Hd E) as (d' & Er & _).
  injection Er as -> -> ->. auto.
Qed.

(** C11: a [draw.create] event whose features are in the widget never
  throws, and never raises the "draw something" alert. *)
Theorem updateMap_create_ok ms st d fs :
  draw ms = Some d -> fs <> [] -> Forall (fun f => In (id f) (ids (getAll d))) fs ->
  exists ms' st' outs, updateMap (mk_event DrawCreate fs) ms st = Ok (ms', st', outs) /\
  forall m, ~ In (Alert m) outs.
Proof.
  intros Hd Hne Hin. destruct (updateMap_ok (mk_event DrawCreate fs) ms st d Hd (fun _ => Hin))
  as ([[ms' st'] outs] & E).
  exists ms', st', outs. split; [exact E|].
  destruct (updateMap_spec _ ms st _ d Hd E) as (d' & Er & _). injection Er as _ _ ->.
  destruct fs as [|f fs]; [congruence|]. inversion Hin as [|? ? Hf _]; subst.
  destruct (getAll d); [contradiction|]. simpl. intros m [H'|[]]; discriminate.
Qed.

(** C12: a [draw.create] event naming a feature the widget does not hold
  throws the widget's TypeError out of the handler. *)
Theorem updateMap_missing_throws ms st d f fs :
  draw ms = Some d -> ~ In (id f) (ids (getAll d)) ->
  updateMap (mk_event DrawCreate (f :: fs)) ms st = Err missing_feature_error.
Proof.
  intros Hd Hf. unfold updateMap. rewrite Hd. cbn [etype efeatures].
  rewrite (apply_colors_missing _ _ f fs d Hf). reflexivity.
Qed.

(** C9: [clearAll] empties the widget and zeroes the area, but neither
  calls [props.mapDrawings] nor writes localStorage. *)
Theorem clearAll_no_emit_no_store ms st d :
  draw ms = Some d ->
  let '(ms', st', outs) := clearAll ms st in
  st' = st /\ outs = [] /\ roundedArea ms' = Some 0%Q /\
  exists d', draw ms' = Some d' /\ getAll d' = [].
Proof.
  intros Hd. rewrite (clearAll_spec ms st d Hd). repeat split.
  exists (deleteAll d). split; [reflexivity|apply getAll_deleteAll].
Qed.

(** C8: deleting an id the widget does not hold leaves its collection,
  and emits and stores that same collection. *)
Theorem deleteDrawing_absent ms st d i :
  draw ms = Some d -> ~ In i (ids (getAll d)) ->
  let '(ms', st', outs) := deleteDrawing i ms st in
  (exists d', draw ms' = Some d' /\ getAll d' = getAll d) /\
  outs = [Emit (Some (getAll d))] /\ st' = storeDrawings (Some (getAll d)) st.
Proof.
  intros Hd Hi. rewrite (deleteDrawing_spec i ms st d Hd), (remove_id_absent i _ Hi).
  split; [|auto]. exists (draw_delete i d). split; [reflexivity|].
  now rewrite getAll_delete, remove_id_absent.
Qed.

(** C22: an entry holding the empty array loads as "saved drawings exist":
  no prompt, unlike a missing entry. *)
Theorem onLoad_empty_array_no_alert ms st :
  getItem user_drawings_key st = Some (stringify []) ->
  (exists ms', onLoad ms st = Ok (ms', st, [])) /\
  onLoad ms (removeItem user_drawings_key st) =
  Ok (ms, removeItem user_drawings_key st, [Alert alert_no_saved]).
Proof.
  intros Hg. split.
  - unfold onLoad. rewrite Hg. destruct (String.eqb_spec (stringify []) EmptyString) as [E|_].
  + now apply stringify_nonempty in E.
  + rewrite parse_stringify. simpl. destruct (draw ms) as [d|]; simpl; [rewrite getAll_set_nil|]; eexists; reflexivity.
  - unfold onLoad, getItem, removeItem. now rewrite lookup_delete_eq.
Qed.

(** C28: the load listener shows turf's area of the stored collection
  as it is, with no clamping: a collection whose area is below -1/200
  square metre (a polygon whose hole is larger than its outer ring) is
  shown with a negative area. *)
Theorem onLoad_negative_area ms st d fs r :
  draw ms = Some d -> getAll d = [] -> saved_drawings st = Ok fs -> List.NoDup (ids fs) ->
  (area sin PI fs < -(1 # 200))%Q -> onLoad ms st = Ok r ->
  roundedArea (fst (fst r)) = Some (round2 (area sin PI fs)) /\ (round2 (area sin PI fs) < 0)%Q.
Proof.
  intros Hd He Hs Hnd Ha E. split; [|now apply round2_neg].
  assert (Hfs : fs <> []) by (intros ->; cbn in Ha; lra).
  unfold onLoad, saved_drawings in *.
  destruct (getItem user_drawings_key st) as [s0|];
    [destruct (String.eqb s0 EmptyString)|]; try (injection Hs as <-; contradiction).
  rewrite Hs in E. cbn [bind] in E. rewrite Hd in E. cbn [option_map] in E.
  rewrite (getAll_set_empty fs d He Hnd) in E.
  destruct fs as [|f fs]; [contradiction|]. now injection E as <-.
Qed.

End Laws.

(** C24: without a widget ([draw.current] null) both commands do nothing. *)
Theorem commands_without_widget ms st i :
  draw ms = None -> clearAll ms st = (ms, st, []) /\ deleteDrawing i ms st = (ms, st, []).
Proof. intros Hd. unfold clearAll, deleteDrawing. now rewrite Hd. Qed.

(** C13: a non-empty saved entry that does not parse makes the ['load']
    listener throw the parse error. *)
Theorem onLoad_parse_error ms st s e :
  getItem user_drawings_key st = Some s -> s <> EmptyString -> parse s = Err e ->
  onLoad ms st = Err e.
Proof.
  intros Hg Hs Hp. unfold onLoad. rewrite Hg.
  destruct (String.eqb_spec s EmptyString); [contradiction|]. now rewrite Hp.
Qed.

End Component.
End MapComponent.
