(* ===== verification/App.v ===== *)
(** * App: the list/controller component of src/src/App.tsx

    State: the React state [drawData] (a JavaScript value: [None] stands
    for [undefined], which [props.mapDrawings(data?.features)] can pass),
    together with what App's handlers touch besides it: the child's state
    behind [mapRef] (abstract: App sees it only through the
    [ImperativeHandle] the child exposes), localStorage and the alerts.

    The handlers read [drawData] as captured by the render that created
    them, so [deleteDrawing] filters the list it had {e before} the
    child's [deleteDrawing] emitted; the state updates that follow are
    applied in program order, and the last one wins as React's batching
    of plain-value updates does. *)

From Stdlib Require Import String List Bool Decimal DecimalString DecimalNat.
From stdpp Require Import base gmap strings.
From S2P Require Import Prelude Feature Storage MapAdapter.
Import ListNotations.
Local Open Scope mapfun_scope.

Module AppComponent.

Record AppWorld (MS : Type) : Type := mk_world {
  mapState : MS;
  drawData : option (list feature);
  localStorage : storage;
  alerts : list string
}.
Arguments mk_world {MS} _ _ _ _.
Arguments mapState {MS} _.
Arguments drawData {MS} _.
Arguments localStorage {MS} _.
Arguments alerts {MS} _.

(** One card of the rendered list (App.tsx lines 61-67). *)
Record card : Type := mk_card {
  ordinal : nat;              (* Drawing #{index + 1} *)
  card_type : string;         (* drawing.geometry?.type *)
  card_id : string            (* drawing.id *)
}.

Inductive view : Type :=
  | NoDrawingsYet                 (* drawData.length === 0 *)
  | Cards (cards : list card).

Definition filter_error : js_error :=
  TypeError "Cannot read properties of undefined (reading 'filter')".
Definition length_error : js_error :=
  TypeError "Cannot read properties of undefined (reading 'length')".

Section App.
Context {MS : Type} `{JsonCodec}.
Implicit Types (w : AppWorld MS).

(** [handleDataChange] (lines 25-27): the parent's [mapDrawings]. *)
Definition handleDataChange (mapDrawings : option (list feature)) w : AppWorld MS :=
  mk_world (mapState w) mapDrawings (localStorage w) (alerts w).

Definition apply_output w (o : output) : AppWorld MS :=
  match o with
  | Emit x => handleDataChange x w
  | Alert m => mk_world (mapState w) (drawData w) (localStorage w) (alerts w ++ [m])
  end.

Definition apply_outputs (outs : list output) w : AppWorld MS :=
  fold_left apply_output outs w.

(** Run a call into the child and apply what it did. *)
Definition run_child (r : MS * storage * list output) w : AppWorld MS :=
  let '(ms, st, outs) := r in
  apply_outputs outs (mk_world ms (drawData w) st (alerts w)).

(** The initialiser of [drawData] (lines 15-22): [JSON.parse] may throw. *)
Definition initApp (ms : MS) (st : storage) : result (AppWorld MS) :=
  dd <- saved_drawings st ;; Ok (mk_world ms (Some dd) st []).

(** [deleteDrawing] (lines 29-39). *)
Definition deleteDrawing (mapRef : option (ImperativeHandle MS)) (drawing_ID : string) w
  : result (AppWorld MS) :=
  let w1 := match mapRef with
            | Some h => run_child (handle_deleteDrawing h drawing_ID (mapState w) (localStorage w)) w
            | None => w
            end in
  match drawData w with
  | None => Err filter_error
  | Some dd =>
      let updatedDrawings := remove_id drawing_ID dd in
      Ok (mk_world (mapState w1) (Some updatedDrawings)
                   (setItem user_drawings_key (stringify updatedDrawings) (localStorage w1))
                   (alerts w1))
  end.

(** [handleClearList] (lines 41-49). *)
Definition handleClearList (mapRef : option (ImperativeHandle MS)) w : AppWorld MS :=
  let w1 := match mapRef with
            | Some h => run_child (handle_clearAll h (mapState w) (localStorage w)) w
            | None => w
            end in
  mk_world (mapState w1) (Some []) (removeItem user_drawings_key (localStorage w1)) (alerts w1).

Fixpoint cards_from (n : nat) (dd : list feature) : list card :=
  match dd with
  | [] => []
  | d :: dd' => mk_card (S n) (geometry_type (geometry d)) (id d) :: cards_from (S n) dd'
  end.

(** The ids shown by a view, card by card. *)
Definition view_ids (v : view) : list string :=
  match v with
  | NoDrawingsYet => []
  | Cards cs => map card_id cs
  end.

(** [key={drawing.id || index}] (line 62): the id, or the position when
    the id is empty; React compares keys as strings, so a numeric key is
    its decimal text. *)
Definition card_key (index : nat) (d : feature) : string :=
  if String.eqb (id d) EmptyString then NilEmpty.string_of_uint (Nat.to_uint index) else id d.

Fixpoint card_keys (index : nat) (dd : list feature) : list string :=
  match dd with
  | [] => []
  | d :: dd' => card_key index d :: card_keys (S index) dd'
  end.

(** The heading [Drawings List ({ drawData.length })] (line 57). *)
Definition render_heading w : result nat :=
  match drawData w with
  | None => Err length_error
  | Some dd => Ok (length dd)
  end.

(** The list part of the render (lines 57-69). *)
Definition render w : result view :=
  match drawData w with
  | None => Err length_error
  | Some [] => Ok NoDrawingsYet
  | Some dd => Ok (Cards (cards_from 0 dd))
  end.

(** ** Behaviour of the handlers, for any child behind [mapRef] *)

Lemma apply_outputs_storage outs w : localStorage (apply_outputs outs w) = localStorage w.
Proof.
  revert w. induction outs as [|[x|m] outs IH]; intros w; simpl; [reflexivity| |];
    rewrite IH; reflexivity.
Qed.

Lemma apply_outputs_mapState outs w : mapState (apply_outputs outs w) = mapState w.
Proof.
  revert w. induction outs as [|[x|m] outs IH]; intros w; simpl; [reflexivity| |];
    rewrite IH; reflexivity.
Qed.

(** The last [props.mapDrawings(x)] of a child call decides the list. *)
Lemma drawData_run_child_emit ms st outs x w :
  drawData (run_child (ms, st, outs ++ [Emit x]) w) = x.
Proof. unfold run_child, apply_outputs. now rewrite fold_left_app. Qed.

Lemma mapState_run_child ms st outs w : mapState (run_child (ms, st, outs) w) = ms.
Proof. apply (apply_outputs_mapState outs). Qed.

Lemma localStorage_run_child ms st outs w : localStorage (run_child (ms, st, outs) w) = st.
Proof. apply (apply_outputs_storage outs). Qed.

(** C7: the list App's [deleteDrawing] leaves, and the one it persists
    under [user_drawings], is the list captured by the render without
    [drawing_ID], whatever the child component emitted meanwhile. *)
Lemma deleteDrawing_result mapRef drawing_ID w dd :
  drawData w = Some dd ->
  exists w', deleteDrawing mapRef drawing_ID w = Ok w' /\
    drawData w' = Some (remove_id drawing_ID dd) /\
    getItem user_drawings_key (localStorage w') =
      Some (stringify (remove_id drawing_ID dd)).
Proof.
  intros Hd. unfold deleteDrawing. rewrite Hd. eexists. split; [reflexivity|].
  split; [reflexivity|]. simpl. unfold getItem, setItem. apply lookup_insert_eq.
Qed.

Lemma deleteDrawing_undefined mapRef drawing_ID w :
  drawData w = None -> deleteDrawing mapRef drawing_ID w = Err filter_error.
Proof. intros Hd. unfold deleteDrawing. now rewrite Hd. Qed.

(** C14: when the saved entry is a non-empty text that [JSON.parse]
    rejects, App's initialiser throws the parser's error: the page
    cannot start from a corrupted localStorage entry. *)
Lemma initApp_parse_error ms st s e :
  getItem user_drawings_key st = Some s -> s <> EmptyString ->
  parse s = Err e -> initApp ms st = Err e.
Proof.
  intros Hs Hne He. unfold initApp, saved_drawings. rewrite Hs.
  destruct (String.eqb_spec s EmptyString) as [E|_]; [contradiction|]. now rewrite He.
Qed.

(** C23: "Clear Drawing List" leaves the empty list and removes the
    [user_drawings] entry, whatever the child did. *)
Lemma handleClearList_result mapRef w :
  drawData (handleClearList mapRef w) = Some [] /\
  getItem user_drawings_key (localStorage (handleClearList mapRef w)) = None.
Proof.
  split; [reflexivity|]. simpl. unfold getItem, removeItem. apply lookup_delete_eq.
Qed.

Lemma cards_from_length n dd : length (cards_from n dd) = length dd.
Proof. revert n. induction dd as [|d dd IH]; intros n; simpl; [|rewrite IH]; reflexivity. Qed.

Lemma cards_from_ids n dd : map card_id (cards_from n dd) = ids dd.
Proof. revert n. induction dd as [|d dd IH]; intros n; simpl; [|rewrite IH]; reflexivity. Qed.

Lemma render_some dd w : drawData w = Some dd -> exists v, render w = Ok v /\ view_ids v = ids dd.
Proof.
  intros Hd. unfold render. rewrite Hd. destruct dd as [|d dd]; eexists; split; try reflexivity.
  apply (cards_from_ids 0 (d :: dd)).
Qed.

(** C27: the card at position [k] of the rendered list is titled
    "Drawing #k+1" and shows the [k]-th drawing's geometry type and id. *)
Lemma cards_from_nth n dd k d :
  nth_error dd k = Some d ->
  nth_error (cards_from n dd) k =
    Some (mk_card (S (n + k)) (geometry_type (geometry d)) (id d)).
Proof.
  revert n k. induction dd as [|d' dd IH]; intros n [|k]; simpl; try discriminate.
  - intros [= ->]. now rewrite PeanoNat.Nat.add_0_r.
  - intros Hk. rewrite (IH (S n) k Hk). now rewrite PeanoNat.Nat.add_succ_r.
Qed.
(** The key of the [k]-th card. *)
Lemma card_keys_nth n dd k :
  nth_error (card_keys n dd) k = option_map (card_key (n + k)) (nth_error dd k).
Proof.
  revert n k. induction dd as [|d dd IH]; intros n [|k]; cbn [card_keys nth_error]; try reflexivity.
  - now rewrite PeanoNat.Nat.add_0_r.
  - rewrite IH. now rewrite PeanoNat.Nat.add_succ_r.
Qed.

Lemma decimal_nonempty k : NilEmpty.string_of_uint (Nat.to_uint k) <> EmptyString.
Proof.
  destruct (Nat.to_uint k) eqn:E; try discriminate.
  pose proof (DecimalNat.Unsigned.of_to k) as Hk. rewrite E in Hk. cbn in Hk. subst k. discriminate E.
Qed.

(** C29: the key [drawing.id || index] collides: when the drawing at
    position [k] has an empty id and another drawing's id is the decimal
    text of [k], two cards of the list get the same React key. *)
Theorem card_keys_collide dd k j f g :
  nth_error dd k = Some f -> id f = EmptyString ->
  nth_error dd j = Some g -> id g = NilEmpty.string_of_uint (Nat.to_uint k) ->
  ~ List.NoDup (card_keys 0 dd).
Proof.
  intros Hf Ef Hg Eg Hnd.
  assert (Kf : nth_error (card_keys 0 dd) k = Some (NilEmpty.string_of_uint (Nat.to_uint k)))
    by (rewrite card_keys_nth, Hf; cbn [option_map]; unfold card_key; now rewrite Ef).
  assert (Kg : nth_error (card_keys 0 dd) j = Some (NilEmpty.string_of_uint (Nat.to_uint k))).
  { rewrite card_keys_nth, Hg. cbn [option_map]. unfold card_key. rewrite Eg.
    destruct (String.eqb_spec (NilEmpty.string_of_uint (Nat.to_uint k)) EmptyString) as [E|_];
      [now destruct (decimal_nonempty k E)|reflexivity]. }
  assert (j = k) as ->.
  { apply (proj1 (List.NoDup_nth_error _) Hnd); [|congruence].
    apply List.nth_error_Some. congruence. }
  rewrite Hf in Hg. injection Hg as <-. rewrite Ef in Eg. exact (decimal_nonempty k (eq_sym Eg)).
Qed.

End App.

End AppComponent.
