(* ===== verification/System.v ===== *)
(** * System: the page as a whole, App and Map composed

    A [World] is App's world (its list, localStorage, alerts and the Map
    component's state behind [mapRef]) together with whether the map's
    ['load'] event has fired.  [boot] is the first render: App's
    initialiser reads localStorage, then Map's mount effect creates the
    widget.  [step] is one event handled to completion (a rest point):
    the ['load'] event, a user drawing, editing or trashing on the map
    (the widget changes, then fires its event into [updateMap]), a colour
    change (handler, re-render, effect), or a click on a list's Delete or
    on "Clear Drawing List".

    The invariant [inv] is the spec's consistency requirement: at every
    rest point after boot, App's list, the collection persisted in
    localStorage and the widget's collection agree (the list and the
    storage exactly, the widget by identifiers and geometries), the
    shown area is the rounded area of the widget's collection, and the
    colour refs equal the colour states. *)

From Stdlib Require Import String List Bool QArith.
From Stdlib Require Import Morphisms Setoid.
From S2P Require Import Prelude Feature Draw Area Storage MapAdapter App.
Import ListNotations.
Local Open Scope mapfun_scope.

Module System.
Import MapComponent AppComponent.

Record World (S : Type) : Type := mk_sys {
  app : AppWorld (MapState S);
  loaded : bool
}.
Arguments mk_sys {S} _ _.
Arguments app {S} _.
Arguments loaded {S} _.

Definition no_widget_error : js_error := TypeError "draw.current is null".

Section System.
Context {S : Type} `{DrawApi S} `{JsonCodec}.
Variable sin : Q -> Q.
Variable PI : Q.

Definition ms (w : World S) : MapState S := mapState (app w).
Definition st (w : World S) : storage := localStorage (app w).

Definition mapRef : option (ImperativeHandle (MapState S)) := Some (handle sin PI).

Definition with_map (m : MapState S) (w : World S) : World S :=
  mk_sys (mk_world m (drawData (app w)) (st w) (alerts (app w))) (loaded w).

(** First render of [<App/>] with [<Map/>] mounted. *)
Definition boot (st0 : storage) : result (World S) :=
  a <- initApp (mountMap true initialState) st0 ;; Ok (mk_sys a false).

(** A user interaction on the map: the widget changes ([act]) and fires
    [e], handled by [updateMap], whose outputs go to App. *)
Definition user_step (act : S -> S) (e : draw_event) (w : World S) : result (World S) :=
  match draw (ms w) with
  | Some d =>
      r <- updateMap sin PI e (set_draw (Some (act d)) (ms w)) (st w) ;;
      Ok (mk_sys (run_child r (app w)) (loaded w))
  | None => Err no_widget_error
  end.

Definition selected (removed : list string) (l : list feature) : list feature :=
  filter (fun f => existsb (String.eqb (id f)) removed) l.

Inductive step : World S -> World S -> Prop :=
  | step_load w r :
    loaded w = false ->
    onLoad sin PI (ms w) (st w) = Ok r ->
    step w (mk_sys (run_child r (app w)) true)
  | step_create w w' d f :
    loaded w = true -> draw (ms w) = Some d ->
    ~ In (id f) (ids (getAll d)) -> properties f = [] ->
    user_step (user_create f) (mk_event DrawCreate [f]) w = Ok w' ->
    step w w'
  | step_update w w' d i g f :
    loaded w = true -> draw (ms w) = Some d ->
    find_feature i (getAll d) = Some f ->
    user_step (user_update i g) (mk_event DrawUpdate [mk_feature i g (properties f)]) w = Ok w' ->
    step w w'
  | step_trash w w' d removed :
    loaded w = true -> draw (ms w) = Some d ->
    user_step (user_trash removed) (mk_event DrawDelete (selected removed (getAll d))) w = Ok w' ->
    step w w'
  | step_line_color w v :
    step w (with_map (syncColorRefs (handleLineColorChange v (ms w))) w)
  | step_fill_color w v :
    step w (with_map (syncColorRefs (handleFillColorChange v (ms w))) w)
  | step_delete_click w a' i dd :
    drawData (app w) = Some dd -> In i (ids dd) ->
    AppComponent.deleteDrawing mapRef i (app w) = Ok a' ->
    step w (mk_sys a' (loaded w))
  | step_clear_click w :
    step w (mk_sys (handleClearList mapRef (app w)) (loaded w)).

Inductive reachable (st0 : storage) : World S -> Prop :=
  | reach_boot w : boot st0 = Ok w -> reachable st0 w
  | reach_step w w' : reachable st0 w -> step w w' -> reachable st0 w'.

(** ** The invariant *)

Record inv_at (w : World S) (d : S) (L : list feature) : Prop := {
  inv_draw : draw (ms w) = Some d;
  inv_list : drawData (app w) = Some L;
  inv_saved : saved_drawings (st w) = Ok L;
  inv_nodup : NoDup (ids L);
  inv_line : lineColorRef (ms w) = lineColor (ms w);
  inv_fill : fillColorRef (ms w) = fillColor (ms w);
  inv_widget : if loaded w then getAll d ≈ L else getAll d = [];
  inv_area : roundedArea (ms w) = Some (round2 (area sin PI (getAll d)))
             \/ (getAll d = [] /\ roundedArea (ms w) = None)
}.

Definition inv (w : World S) : Prop := exists d L, inv_at w d L.

(** Storage written by an earlier session holds no duplicate ids. *)
Definition wf_storage (st0 : storage) : Prop :=
  forall L, saved_drawings st0 = Ok L -> NoDup (ids L).

(** ** Preservation, step by step *)

Section Laws.
Context `{!DrawLaws S}.

Lemma inv_ids_widget w d L : inv_at w d L -> NoDup (ids (getAll d)).
Proof.
  intros I. pose proof (inv_widget _ _ _ I) as Hw. destruct (loaded w).
  - rewrite Hw. apply (inv_nodup _ _ _ I).
  - rewrite Hw. constructor.
Qed.

Lemma boot_inv st0 w : wf_storage st0 -> boot st0 = Ok w -> inv w.
Proof.
  intros Hwf E. unfold boot, initApp in E.
  destruct (saved_drawings st0) as [L|e] eqn:Hs; simpl in E; [|discriminate].
  injection E as <-. exists draw_new, L.
  split; simpl; auto; rewrite ?getAll_new; auto.
Qed.

Lemma user_step_inv act e w w' d L :
  inv_at w d L -> loaded w = true -> NoDup (ids (getAll (act d))) ->
  user_step act e w = Ok w' -> inv w'.
Proof.
  intros I Hl Hnd E. unfold user_step in E. rewrite (inv_draw _ _ _ I) in E.
  apply bind_eq_Ok in E as (r & Er & E). injection E as <-.
  destruct (updateMap_spec sin PI e (set_draw (Some (act d)) (ms w)) (st w) r (act d) eq_refl Er)
  as (d' & Er' & Hs).
  subst r.
  exists d', (getAll (act d)). unfold ms, st in *.
  split; unfold ms, st; cbn [app loaded];
  rewrite ?drawData_run_child_emit, ?mapState_run_child, ?localStorage_run_child;
  cbn [draw roundedArea lineColor fillColor lineColorRef fillColorRef set_draw].
  - reflexivity.
  - reflexivity.
  - apply saved_storeDrawings.
  - exact Hnd.
  - apply (inv_line _ _ _ I).
  - apply (inv_fill _ _ _ I).
  - now rewrite Hl.
  - left. now rewrite Hs.
Qed.

Lemma load_inv w r d L :
  inv_at w d L -> loaded w = false -> onLoad sin PI (ms w) (st w) = Ok r ->
  inv (mk_sys (run_child r (app w)) true).
Proof.
  intros I Hl E. pose proof (inv_saved _ _ _ I) as Hs. pose proof (inv_widget _ _ _ I) as Hw.
  rewrite Hl in Hw. unfold onLoad in E. unfold saved_drawings in Hs.
  destruct I as [Hd HL _ Hnd Hlc Hfc _ Ha]. unfold ms, st in *.
  destruct (getItem user_drawings_key (localStorage (app w))) as [s0|] eqn:Hg;
  [destruct (String.eqb s0 EmptyString) eqn:Es|].
  1,3: injection Hs as <-; injection E as <-; exists d, [];
       split; unfold ms, st; cbn; auto; [|now rewrite Hw];
       unfold saved_drawings; rewrite Hg; try rewrite Es; reflexivity.
  rewrite Hs in E. simpl in E. rewrite Hd in E. simpl in E.
  rewrite (getAll_set_empty L d Hw Hnd) in E.
  exists (draw_set L d), L.
  destruct L as [|f fs]; injection E as <-; split; unfold ms, st; cbn;
  rewrite ?getAll_set_empty by assumption; auto; try reflexivity;
  unfold saved_drawings; rewrite ?Hg, ?Es; auto.
  rewrite Hw in Ha. exact Ha.
Qed.

(** The world a click on a list's Delete leaves. *)
Lemma delete_click_result w a' i d L :
  inv_at w d L -> AppComponent.deleteDrawing mapRef i (app w) = Ok a' ->
  draw (mapState a') = Some (draw_delete i d) /\
  drawData a' = Some (remove_id i L) /\
  localStorage a' = setItem user_drawings_key (stringify (remove_id i L))
                      (storeDrawings (Some (remove_id i (getAll d))) (st w)) /\
  roundedArea (mapState a') = Some (round2 (area sin PI (remove_id i (getAll d)))) /\
  lineColor (mapState a') = lineColor (ms w) /\ fillColor (mapState a') = fillColor (ms w) /\
  lineColorRef (mapState a') = lineColorRef (ms w) /\
  fillColorRef (mapState a') = fillColorRef (ms w).
Proof.
  intros I E. unfold AppComponent.deleteDrawing, mapRef in E. cbn [handle_deleteDrawing handle] in E.
  rewrite (inv_list _ _ _ I) in E. injection E as <-.
  change (mapState (app w)) with (ms w). change (localStorage (app w)) with (st w).
  rewrite (deleteDrawing_spec sin PI i (ms w) (st w) d (inv_draw _ _ _ I)).
  cbn [mapState drawData localStorage]. rewrite mapState_run_child, localStorage_run_child.
  repeat split.
Qed.

Lemma delete_click_inv w a' i d L :
  inv_at w d L -> AppComponent.deleteDrawing mapRef i (app w) = Ok a' ->
  inv (mk_sys a' (loaded w)).
Proof.
  intros I E. destruct (delete_click_result w a' i d L I E)
  as (Hd & HL & Hst & Ha & Hl & Hf & Hlr & Hfr).
  exists (draw_delete i d), (remove_id i L). destruct I.
  split; unfold ms, st in *; cbn [app loaded]; rewrite ?Hd, ?HL, ?Hst, ?Ha, ?Hl, ?Hf, ?Hlr, ?Hfr;
  auto using saved_setItem, remove_id_NoDup.
  - cbn [loaded]. rewrite getAll_delete. destruct (loaded w).
  + apply remove_id_shape_proper; [reflexivity|exact inv_widget0].
  + now rewrite inv_widget0.
  - left. now rewrite getAll_delete.
Qed.

Lemma clear_click_inv w d L :
  inv_at w d L -> inv (mk_sys (handleClearList mapRef (app w)) (loaded w)).
Proof.
  intros I. unfold handleClearList, mapRef. cbn [handle_clearAll handle].
  change (mapState (app w)) with (ms w). change (localStorage (app w)) with (st w).
  rewrite (clearAll_spec (ms w) (st w) d (inv_draw _ _ _ I)).
  exists (deleteAll d), []. destruct I.
  split; unfold ms, st; cbn [app loaded mapState drawData localStorage];
  rewrite ?mapState_run_child, ?localStorage_run_child;
  cbn [draw roundedArea lineColor fillColor lineColorRef fillColorRef];
  rewrite ?getAll_deleteAll.
  - reflexivity.
  - reflexivity.
  - apply saved_removeItem.
  - constructor.
  - exact inv_line0.
  - exact inv_fill0.
  - destruct (loaded w); reflexivity.
  - now left.
Qed.

Lemma color_inv w d L m :
  inv_at w d L -> draw m = draw (ms w) -> roundedArea m = roundedArea (ms w) ->
  lineColorRef m = lineColor m -> fillColorRef m = fillColor m ->
  inv (with_map m w).
Proof.
  intros I Hd Ha Hl Hf. exists d, L. destruct I.
  split; unfold ms, st in *; simpl; rewrite ?Hd, ?Ha; auto.
Qed.

Lemma NoDup_ids_snoc l f :
  NoDup (ids l) -> ~ In (id f) (ids l) -> NoDup (ids (l ++ [f])).
Proof.
  intros Hnd Hf. unfold ids. rewrite map_app. simpl.
  apply NoDup_app; [exact Hnd|constructor; [easy|constructor]|].
  intros x Hx [<-|[]]. exact (Hf Hx).
Qed.

Lemma step_inv w w' : inv w -> step w w' -> inv w'.
Proof.
  intros (d & L & I) Hstep. pose proof (inv_ids_widget _ _ _ I) as Hnd.
  destruct Hstep as [w r Hl E|w w' d0 f Hl Hd Hf _ E|w w' d0 i g f Hl Hd _ E
                    |w w' d0 removed Hl Hd E|w v|w v|w a' i dd _ _ E|w];
  try (rewrite (inv_draw _ _ _ I) in Hd; injection Hd as <-).
  - eapply load_inv; eauto.
  - eapply user_step_inv; eauto. rewrite getAll_user_create by exact Hf.
  now apply NoDup_ids_snoc.
  - eapply user_step_inv; eauto. now rewrite getAll_user_update, ids_set_geometry.
  - eapply user_step_inv; eauto. rewrite getAll_user_trash. now apply remove_ids_NoDup.
  - eapply color_inv; eauto; reflexivity.
  - eapply color_inv; eauto; reflexivity.
  - eapply delete_click_inv; eauto.
  - eapply clear_click_inv; eauto.
Qed.

Lemma reachable_inv st0 w : wf_storage st0 -> reachable st0 w -> inv w.
Proof.
  intros Hwf R. induction R as [w E|w w' _ IH Hstep].
  - eapply boot_inv; eauto.
  - eapply step_inv; eauto.
Qed.

(** The feature a [draw.create] event leaves in the widget. *)
Lemma find_colored_fresh lc fc l f :
  ~ In (id f) (ids l) ->
  find_feature (id f) (colored lc fc [f] (l ++ [f])) =
  Some (mk_feature (id f) (geometry f)
            (obj_set "fillColor" fc (obj_set "lineColor" lc (properties f)))).
Proof.
  intros Hf. unfold colored. simpl.
  rewrite (find_set_property _ _ _ _ (mk_feature (id f) (geometry f)
             (obj_set "lineColor" lc (properties f)))); [reflexivity|].
  rewrite (find_set_property _ _ _ _ f); [reflexivity|]. now apply find_feature_app_fresh.
Qed.

(** What a drawing leaves: the list and localStorage get the widget's
  collection before colouring, the widget's copy carries the colours. *)
Lemma create_result w w' d L f :
  inv_at w d L -> ~ In (id f) (ids (getAll d)) ->
  user_step (user_create f) (mk_event DrawCreate [f]) w = Ok w' ->
  drawData (app w') = Some (getAll d ++ [f]) /\
  saved_drawings (st w') = Ok (getAll d ++ [f]) /\
  exists d', draw (ms w') = Some d' /\
  find_feature (id f) (getAll d') =
      Some (mk_feature (id f) (geometry f)
              (obj_set "fillColor" (fillColor (ms w))
                 (obj_set "lineColor" (lineColor (ms w)) (properties f)))).
Proof.
  intros I Hf E. unfold user_step in E. rewrite (inv_draw _ _ _ I) in E.
  apply bind_eq_Ok in E as (r & Er & E). injection E as <-.
  assert (Forall (fun g => In (id g) (ids (getAll (user_create f d)))) [f]) as Hin.
  { constructor; [|constructor]. rewrite getAll_user_create by exact Hf.
  unfold ids. rewrite map_app. apply in_or_app. right. now left. }
  destruct (updateMap_create_widget sin PI (set_draw (Some (user_create f d)) (ms w)) (st w) r
             (user_create f d) [f] eq_refl Hin Er)
  as (d' & Hd' & Hg).
  destruct (updateMap_spec sin PI _ (set_draw (Some (user_create f d)) (ms w)) (st w) r
             (user_create f d) eq_refl Er) as (d'' & -> & _).
  rewrite getAll_user_create in * by exact Hf.
  unfold ms, st. cbn [app]. rewrite drawData_run_child_emit, localStorage_run_child.
  split; [reflexivity|]. split; [apply saved_storeDrawings|].
  exists d'. rewrite mapState_run_child. cbn [draw]. cbn [draw] in Hd'. split; [exact Hd'|].
  rewrite Hg. cbn [lineColorRef fillColorRef set_draw].
  rewrite (inv_line _ _ _ I), (inv_fill _ _ _ I). now apply find_colored_fresh.
Qed.

(** C3: a polygon drawn by the user reaches the list and localStorage
  as the widget created it, without the colours; the widget's copy
  carries [lineColor] and [fillColor] set to the colours chosen. *)
Theorem create_colors_only_in_widget w w' d L f :
  inv_at w d L -> ~ In (id f) (ids (getAll d)) ->
  user_step (user_create f) (mk_event DrawCreate [f]) w = Ok w' ->
  drawData (app w') = Some (getAll d ++ [f]) /\
  saved_drawings (st w') = Ok (getAll d ++ [f]) /\
  exists d', draw (ms w') = Some d' /\
  find_feature (id f) (getAll d') =
      Some (mk_feature (id f) (geometry f)
              (obj_set "fillColor" (fillColor (ms w))
                 (obj_set "lineColor" (lineColor (ms w)) (properties f)))).
Proof. apply create_result. Qed.

(** Booting from a localStorage whose entry reads as [L], and the
  ['load'] event: the list and the widget hold [L]. *)
Lemma boot_load st0 L :
  saved_drawings st0 = Ok L -> NoDup (ids L) ->
  exists w0 w1, boot st0 = Ok w0 /\ step w0 w1 /\
  drawData (app w1) = Some L /\
  exists d1, draw (ms w1) = Some d1 /\ getAll d1 = L.
Proof.
  intros Hs Hnd.
  unfold boot, initApp. rewrite Hs. simpl.
  set (w0 := mk_sys (mk_world (mountMap true initialState) (Some L) st0 []) false).
  assert (exists r, onLoad sin PI (ms w0) (st w0) = Ok r /\
            drawData (run_child r (app w0)) = Some L /\
            exists d1, draw (mapState (run_child r (app w0))) = Some d1 /\ getAll d1 = L)
  as (r & Er & HL & Hd1).
  { unfold onLoad, saved_drawings in *. cbn [ms st w0 app mapState localStorage] in *.
  destruct (getItem user_drawings_key st0) as [s0|];
      [destruct (String.eqb s0 EmptyString)|].
  1,3: injection Hs as <-; eexists; split; [reflexivity|]; split; [reflexivity|];
         eexists; split; [reflexivity|]; apply getAll_new.
  rewrite Hs. simpl. rewrite (getAll_set_empty L draw_new getAll_new Hnd).
  destruct L as [|f fs]; eexists; (split; [reflexivity|]); simpl;
      (split; [reflexivity|]); eexists; (split; [reflexivity|]);
      now rewrite getAll_set_empty by (apply getAll_new || exact Hnd). }
  exists w0, (mk_sys (run_child r (app w0)) true).
  split; [reflexivity|]. split; [now apply step_load|]. split; [exact HL|exact Hd1].
Qed.

(** C4: reloading the page from the localStorage of a loaded world
  boots, and after the ['load'] event the list and the widget hold
  exactly the list the page showed before. *)
Theorem reload_restores_list w d L :
  inv_at w d L -> loaded w = true ->
  exists w0 w1, boot (st w) = Ok w0 /\ step w0 w1 /\
  drawData (app w1) = Some L /\
  exists d1, draw (ms w1) = Some d1 /\ getAll d1 = L.
Proof.
  intros I _. exact (boot_load (st w) L (inv_saved _ _ _ I) (inv_nodup _ _ _ I)).
Qed.

(** C1: in every world reachable from storage without duplicate ids, the
  list, the persisted collection and the widget agree, the area shown
  is the rounded area of the widget's collection, and the colour refs
  follow the colour states. *)
Theorem reachable_consistent st0 w :
  wf_storage st0 -> reachable st0 w ->
  exists d L, draw (ms w) = Some d /\ drawData (app w) = Some L /\
  saved_drawings (st w) = Ok L /\ NoDup (ids L) /\
  (loaded w = true -> getAll d ≈ L) /\
  (roundedArea (ms w) = Some (round2 (area sin PI (getAll d))) \/
     (getAll d = [] /\ roundedArea (ms w) = None)) /\
  lineColorRef (ms w) = lineColor (ms w) /\ fillColorRef (ms w) = fillColor (ms w).
Proof.
  intros Hwf R. destruct (reachable_inv st0 w Hwf R) as (d & L & []).
  exists d, L. repeat split; auto. intros Hl. now rewrite Hl in inv_widget0.
Qed.

(** C10: in every reachable world after ['load'], the list renders
  without a TypeError, its cards show the widget's features in the
  widget's order, and a click on any Delete is handled. *)
Theorem render_lists_widget st0 w i :
  wf_storage st0 -> reachable st0 w -> loaded w = true ->
  exists d v, draw (ms w) = Some d /\ render (app w) = Ok v /\
  view_ids v = ids (getAll d) /\
  exists a', AppComponent.deleteDrawing mapRef i (app w) = Ok a'.
Proof.
  intros Hwf R Hl. destruct (reachable_inv st0 w Hwf R) as (d & L & I).
  destruct (render_some L (app w) (inv_list _ _ _ I)) as (v & Hv & Hids).
  exists d, v. split; [apply (inv_draw _ _ _ I)|]. split; [exact Hv|]. split.
  - pose proof (inv_widget _ _ _ I) as Hw. rewrite Hl in Hw. rewrite Hids.
  symmetry. now apply ids_shape_proper.
  - unfold AppComponent.deleteDrawing. rewrite (inv_list _ _ _ I). eexists; reflexivity.
Qed.

(** C20: a Delete for an id the list does not hold changes neither the
  list, nor the stored collection, nor the widget's collection; the
  area shown becomes the rounded area of that unchanged collection. *)
Theorem delete_absent_noop w a' i d L :
  inv_at w d L -> loaded w = true -> ~ In i (ids L) ->
  AppComponent.deleteDrawing mapRef i (app w) = Ok a' ->
  drawData a' = Some L /\ saved_drawings (localStorage a') = Ok L /\
  (exists d', draw (mapState a') = Some d' /\ getAll d' = getAll d) /\
  roundedArea (mapState a') = Some (round2 (area sin PI (getAll d))).
Proof.
  intros I Hl Hi E. destruct (delete_click_result w a' i d L I E) as (Hd & HL & Hst & Ha & _).
  pose proof (inv_widget _ _ _ I) as Hw. rewrite Hl in Hw.
  assert (Hi' : ~ In i (ids (getAll d))) by (now rewrite (ids_shape_proper _ _ Hw)).
  rewrite remove_id_absent in HL, Ha by assumption. rewrite Hst, remove_id_absent by assumption.
  split; [exact HL|]. split; [apply saved_setItem|]. split; [|exact Ha].
  exists (draw_delete i d). split; [exact Hd|]. now rewrite getAll_delete, remove_id_absent.
Qed.

(** The page booted from a localStorage whose entry reads as the empty
  list, before ['load']. *)
Lemma boot_empty st0 :
  saved_drawings st0 = Ok [] ->
  boot st0 = Ok (mk_sys (mk_world (mountMap true initialState) (Some []) st0 []) false).
Proof. intros Hs. unfold boot, initApp. now rewrite Hs. Qed.

(** C16: the two ways of emptying the list differ on the next visit.
  Deleting the last drawing writes [JSON.stringify([])], so the reloaded
  page shows the empty list with no prompt; "Clear Drawing List" removes
  the entry, so the reloaded page shows the empty list and prompts
  "Please Select a Color and add a line or a polygon". *)
Theorem emptied_list_reload w d f a' :
  inv_at w d [f] -> AppComponent.deleteDrawing mapRef (id f) (app w) = Ok a' ->
  (exists w0 r, boot (localStorage a') = Ok w0 /\ onLoad sin PI (ms w0) (st w0) = Ok r /\
     drawData (run_child r (app w0)) = Some [] /\ alerts (run_child r (app w0)) = []) /\
  (exists w0 r, boot (localStorage (handleClearList mapRef (app w))) = Ok w0 /\
     onLoad sin PI (ms w0) (st w0) = Ok r /\
     drawData (run_child r (app w0)) = Some [] /\
     alerts (run_child r (app w0)) = [alert_no_saved]).
Proof.
  intros I E. destruct (delete_click_result w a' (id f) d [f] I E) as (_ & _ & Hst & _).
  cbn [remove_id filter] in Hst. rewrite String.eqb_refl in Hst. cbn [negb] in Hst.
  split.
  - assert (Hs : saved_drawings (localStorage a') = Ok []) by (rewrite Hst; apply saved_setItem).
    assert (Hg : getItem user_drawings_key (localStorage a') = Some (stringify [])).
    { rewrite Hst. apply getItem_setItem. }
    rewrite (boot_empty _ Hs). do 2 eexists. split; [reflexivity|].
    unfold onLoad, ms, st. cbn [app mapState localStorage]. rewrite Hg.
    destruct (String.eqb_spec (stringify []) EmptyString) as [Es|_];
      [now apply stringify_nonempty in Es|].
    rewrite parse_stringify. cbn [bind option_map mountMap initialState draw set_draw].
    rewrite getAll_set_nil. split; [reflexivity|]. split; reflexivity.
  - set (a1 := handleClearList mapRef (app w)).
    assert (Hs : saved_drawings (localStorage a1) = Ok []) by apply saved_removeItem.
    assert (Hg : getItem user_drawings_key (localStorage a1) = None).
    { unfold a1, handleClearList. cbn [localStorage]. apply getItem_removeItem. }
    rewrite (boot_empty _ Hs). do 2 eexists. split; [reflexivity|].
    unfold onLoad, ms, st. cbn [app mapState localStorage].
    rewrite Hg. split; [reflexivity|]. split; reflexivity.
Qed.

End Laws.

End System.
End System.
