(* ===== verification/Paint.v ===== *)
(** * Paint: what the map paints a drawing with, across a reload

    Composes the page ([System]) with the draw layers ([Styles]): a
    polygon the user draws is coloured in the widget by [updateMap]
    (Map.tsx lines 161-166) with the colour states, and mapbox-gl paints
    it with those colours when they parse as colours; the list and
    localStorage receive the snapshot taken before colouring (line 160),
    so the page reloaded from localStorage holds the polygon without
    colours and paints it with the layers' fallback ['#000000']. *)

From Stdlib Require Import String List Bool QArith.
From S2P Require Import Prelude Feature Styles Draw Area Storage MapAdapter App System.
Import ListNotations.
Local Open Scope mapfun_scope.
Local Open Scope string_scope.

Module Paint.
Import MapComponent AppComponent System.

Section Paint.
Context {S : Type} `{DrawApi S} `{JsonCodec}.
Variable sin : Q -> Q.
Variable PI : Q.
Context `{!DrawLaws S}.

Lemma color_or_black_colored lc fc f :
  color_or_black "fillColor"
    (mk_feature (id f) (geometry f) (obj_set "fillColor" fc (obj_set "lineColor" lc (properties f))))
    = css_or_default fc /\
  color_or_black "lineColor"
    (mk_feature (id f) (geometry f) (obj_set "fillColor" fc (obj_set "lineColor" lc (properties f))))
    = css_or_default lc.
Proof.
  unfold color_or_black. cbn [properties].
  rewrite obj_get_set_eq, obj_get_set_ne, obj_get_set_eq by discriminate. auto.
Qed.

Lemma color_or_black_plain k f : properties f = [] -> color_or_black k f = color_default.
Proof. intros Hp. unfold color_or_black. now rewrite Hp. Qed.

(** C15: a polygon the user draws on a loaded page is filled with the
    fill colour state and stroked with the line colour state, each as
    mapbox-gl reads it (['#000000'] when the state is not a colour, as the
    initial empty string is not); after a reload from the page's
    localStorage and the ['load'] event, the widget holds the polygon
    without colours, and it is filled and stroked with ['#000000']. *)
Theorem create_then_reload_paint w w' d L f rings mode :
  inv_at sin PI w d L -> ~ In (id f) (ids (getAll d)) -> properties f = [] ->
  geometry f = Polygon rings -> mode <> "static" ->
  user_step sin PI (user_create f) (mk_event DrawCreate [f]) w = Ok w' ->
  (exists d' f', draw (ms w') = Some d' /\ find_feature (id f) (getAll d') = Some f' /\
     painted mode fill_layer "fill-color" f' = Some (css_or_default (fillColor (ms w))) /\
     painted mode (nth 2 getCustomDrawStyles fill_layer) "line-color" f' =
       Some (css_or_default (lineColor (ms w)))) /\
  (exists w0 w1 d1, boot (st w') = Ok w0 /\ step sin PI w0 w1 /\ draw (ms w1) = Some d1 /\
     find_feature (id f) (getAll d1) = Some f /\
     painted mode fill_layer "fill-color" f = Some color_default /\
     painted mode (nth 2 getCustomDrawStyles fill_layer) "line-color" f = Some color_default).
Proof.
  intros I Hf Hp G Hm E.
  destruct (create_result sin PI w w' d L f I Hf E) as (_ & Hs & d' & Hd' & Hfind).
  destruct (polygon_painted mode f rings Hm G) as [Pf Pl].
  rewrite (color_or_black_plain "fillColor" _ Hp) in Pf.
  rewrite (color_or_black_plain "lineColor" _ Hp) in Pl.
  split.
  - set (f' := mk_feature (id f) (geometry f) (obj_set "fillColor" (fillColor (ms w))
                 (obj_set "lineColor" (lineColor (ms w)) (properties f)))).
    destruct (polygon_painted mode f' rings Hm G) as [Pf' Pl'].
    destruct (color_or_black_colored (lineColor (ms w)) (fillColor (ms w)) f) as [Cf Cl].
    fold f' in Cf, Cl. rewrite Cf in Pf'. rewrite Cl in Pl'.
    exists d', f'. auto.
  - assert (Hnd : NoDup (ids (getAll d ++ [f]))) by
      (apply NoDup_ids_snoc; [exact (inv_ids_widget sin PI w d L I)|exact Hf]).
    destruct (boot_load sin PI (st w') _ Hs Hnd) as (w0 & w1 & Hb & Hstep & _ & d1 & Hd1 & Hg).
    exists w0, w1, d1. split; [exact Hb|]. split; [exact Hstep|]. split; [exact Hd1|].
    split; [rewrite Hg; now apply find_feature_app_fresh|]. auto.
Qed.

End Paint.
End Paint.
