(* ===== verification/Refinement.v ===== *)
(** * Refinement: the page implements the spec's mirrored collection

    The specification (§3, §4, §6) describes one ordered feature
    collection, owned by the widget and mirrored in persistent storage,
    changed by five operations: create (a fresh feature is appended),
    update (a feature's geometry changes), trash (features removed in the
    widget), delete (one id removed) and clear; the stored collection
    follows every change, and is loaded into the widget at startup.
    Before the map's ['load'], the list can already delete from or clear
    the stored collection, which the widget does not hold yet.

    [Spec] states this as a step relation on abstract states
    ([astate]: whether the widget is loaded, its collection, the stored
    collection).  [abs] maps a page state of [System] to it (the widget's
    collection, the collection [saved_drawings] reads back), and
    [step_refines] shows every [System.step] is a [Spec.spec_step] of its
    abstraction; [reachable_refines] lifts it to runs. *)

From Stdlib Require Import String List Bool QArith.
From Stdlib Require Import Morphisms Setoid.
From S2P Require Import Prelude Feature Draw Area Storage MapAdapter App System.
Import ListNotations.
Local Open Scope mapfun_scope.

Module Spec.

Inductive op : Type :=
| OCreate (f : feature)
| OUpdate (i : string) (g : Geometry)
| OTrash (removed : list string)
| ODelete (i : string)
| OClear.

Definition apply (o : op) (l : list feature) : list feature :=
  match o with
  | OCreate f => l ++ [f]
  | OUpdate i g => set_geometry i g l
  | OTrash removed => remove_ids removed l
  | ODelete i => remove_id i l
  | OClear => []
  end.

(** A created feature has an identifier the collection does not hold. *)
Definition pre (o : op) (l : list feature) : Prop :=
  match o with
  | OCreate f => ~ In (id f) (ids l)
  | _ => True
  end.

(** The operations the list offers before the widget is loaded. *)
Definition list_op (o : op) : bool :=
  match o with
  | ODelete _ | OClear => true
  | _ => false
  end.

(** When the user can perform an operation on the collection [l]: a
    drawing has a fresh id and no properties yet, an edit or a Delete
    names a feature present. *)
Definition avail (o : op) (l : list feature) : Prop :=
  match o with
  | OCreate f => ~ In (id f) (ids l) /\ properties f = []
  | OUpdate i _ | ODelete i => In i (ids l)
  | OTrash _ | OClear => True
  end.

Record astate : Type := mk_astate {
  a_loaded : bool;
  a_coll : list feature;
  a_stored : list feature
}.

Inductive spec_step : astate -> astate -> Prop :=
| sp_load s :
    spec_step (mk_astate false [] s) (mk_astate true s s)
| sp_list o s :
    list_op o = true ->
    spec_step (mk_astate false [] s) (mk_astate false [] (apply o s))
| sp_op o c s c' s' :
    pre o c -> c' ≈ apply o c -> s' ≈ c' ->
    spec_step (mk_astate true c s) (mk_astate true c' s')
| sp_keep a : spec_step a a.

Inductive spec_reach (s0 : list feature) : astate -> Prop :=
| sr_init : spec_reach s0 (mk_astate false [] s0)
| sr_step a a' : spec_reach s0 a -> spec_step a a' -> spec_reach s0 a'.

End Spec.

Module Abstraction.
Import MapComponent AppComponent System Spec.

Section Abstraction.
Context {S : Type} `{DrawApi S} `{JsonCodec}.
Variable sin : Q -> Q.
Variable PI : Q.

(** The widget's collection ([[]] without a widget). *)
Definition collection (w : World S) : list feature :=
  match draw (ms w) with Some d => getAll d | None => [] end.

(** The collection localStorage holds, as the page reads it back. *)
Definition stored (w : World S) : list feature :=
  match saved_drawings (st w) with Ok l => l | Err _ => [] end.

Definition abs (w : World S) : astate := mk_astate (loaded w) (collection w) (stored w).

(** The interaction by which the user performs a spec operation on a
    loaded page: a drawing, an edit or a trash in the widget (the event it
    fires, handled by [updateMap]), a click on the Delete button of the
    card [i] (App's [deleteDrawing]), a click on "Clear Drawing List"
    (App's [handleClearList]). *)
Definition perform (o : op) (w : World S) : result (World S) :=
  match o with
  | OCreate f => user_step sin PI (user_create f) (mk_event DrawCreate [f]) w
  | OUpdate i g =>
      match option_map (fun d => find_feature i (getAll d)) (draw (ms w)) with
      | Some (Some f) =>
          user_step sin PI (user_update i g) (mk_event DrawUpdate [mk_feature i g (properties f)]) w
      | _ => Err no_widget_error
      end
  | OTrash removed =>
      match draw (ms w) with
      | Some d => user_step sin PI (user_trash removed) (mk_event DrawDelete (selected removed (getAll d))) w
      | None => Err no_widget_error
      end
  | ODelete i =>
      a' <- AppComponent.deleteDrawing (mapRef sin PI) i (app w) ;; Ok (mk_sys a' (loaded w))
  | OClear => Ok (mk_sys (handleClearList (mapRef sin PI) (app w)) (loaded w))
  end.

Lemma abs_eq w c s : collection w = c -> stored w = s -> abs w = mk_astate (loaded w) c s.
Proof. intros <- <-. reflexivity. Qed.

Section Laws.
Context `{!DrawLaws S}.

(** A user interaction: the widget becomes [act d] up to colours, and
    localStorage holds [act d]'s collection. *)
Lemma user_step_abs act e w w' d L :
  inv_at sin PI w d L -> user_step sin PI act e w = Ok w' ->
  loaded w' = loaded w /\ collection w' ≈ getAll (act d) /\ stored w' = getAll (act d).
Proof.
  intros [Hd _ _ _ _ _ _ _] E. unfold user_step in E. rewrite Hd in E.
  apply bind_eq_Ok in E as (r & Er & E). injection E as <-.
  destruct (updateMap_spec sin PI e (set_draw (Some (act d)) (ms w)) (st w) r (act d) eq_refl Er)
    as (d' & -> & Hs).
  unfold collection, stored, ms, st. cbn [app loaded].
  rewrite mapState_run_child, localStorage_run_child, saved_storeDrawings. cbn [draw].
  auto.
Qed.

(** The ['load'] event puts the stored collection in the (empty) widget. *)
Lemma load_abs w r d L :
  inv_at sin PI w d L -> loaded w = false -> onLoad sin PI (ms w) (st w) = Ok r ->
  collection (mk_sys (run_child r (app w)) true) = L /\
  stored (mk_sys (run_child r (app w)) true) = L.
Proof.
  intros [Hd _ Hs Hnd _ _ Hw _] Hl E. rewrite Hl in Hw. unfold onLoad in E.
  pose proof Hs as Hs0. unfold saved_drawings in Hs. unfold collection, stored, ms, st in *.
  destruct (getItem user_drawings_key (localStorage (app w))) as [s0|] eqn:Hg;
    [destruct (String.eqb s0 EmptyString) eqn:Es|].
  1,3: injection Hs as <-; injection E as <-; cbn [app];
    rewrite mapState_run_child, localStorage_run_child, Hd, Hw, Hs0; auto.
  rewrite Hs in E. simpl in E. rewrite Hd in E. simpl in E.
  rewrite (getAll_set_empty L d Hw Hnd) in E.
  destruct L as [|f fs]; injection E as <-; cbn [app];
    rewrite mapState_run_child, localStorage_run_child; cbn [draw set_draw setRoundedArea];
    rewrite getAll_set_empty, Hs0 by assumption; auto.
Qed.

Lemma delete_abs w a' i d L :
  inv_at sin PI w d L -> AppComponent.deleteDrawing (mapRef sin PI) i (app w) = Ok a' ->
  collection (mk_sys a' (loaded w)) = remove_id i (getAll d) /\
  stored (mk_sys a' (loaded w)) = remove_id i L.
Proof.
  intros I E. destruct (delete_click_result sin PI w a' i d L I E) as (Hd & _ & Hst & _).
  unfold collection, stored, ms, st. cbn [app]. rewrite Hd, Hst, saved_setItem.
  split; [apply getAll_delete|reflexivity].
Qed.

Lemma clear_abs w d L :
  inv_at sin PI w d L ->
  collection (mk_sys (handleClearList (mapRef sin PI) (app w)) (loaded w)) = [] /\
  stored (mk_sys (handleClearList (mapRef sin PI) (app w)) (loaded w)) = [].
Proof.
  intros [Hd _ _ _ _ _ _ _]. unfold collection, stored, handleClearList, mapRef, ms, st in *.
  cbn [handle_clearAll handle app].
  rewrite (clearAll_spec _ _ d Hd). cbn [mapState localStorage].
  rewrite mapState_run_child, localStorage_run_child, saved_removeItem.
  split; [apply getAll_deleteAll|reflexivity].
Qed.

Lemma abs_inv w d L :
  inv_at sin PI w d L ->
  abs w = mk_astate (loaded w) (getAll d) L /\ (if loaded w then getAll d ≈ L else getAll d = []).
Proof.
  intros [Hd _ Hs _ _ _ Hw _]. split; [|exact Hw].
  apply abs_eq; unfold collection, stored; [now rewrite Hd|now rewrite Hs].
Qed.

(** The user steps: the widget's new collection is [apply o] of the old. *)
Lemma user_step_refines act e w w' d L o :
  inv_at sin PI w d L -> loaded w = true -> pre o (getAll d) ->
  getAll (act d) = apply o (getAll d) -> user_step sin PI act e w = Ok w' ->
  spec_step (abs w) (abs w').
Proof.
  intros I Hl Hpre Hact E. destruct (abs_inv w d L I) as [-> _].
  destruct (user_step_abs act e w w' d L I E) as (Hl' & Hc & Hst).
  unfold abs. rewrite Hl', Hl, Hst. apply sp_op with (o := o); [exact Hpre| |].
  - now rewrite Hc, Hact.
  - now rewrite Hc.
Qed.

(** Every step of the page is a step of the specification on its
    abstraction: the widget's collection changes by one of the spec's
    operations (or not at all), and localStorage follows it; before the
    ['load'] event only the list's delete and clear act, on the stored
    collection, and ['load'] puts the stored collection in the widget. *)
Theorem step_refines w w' : inv sin PI w -> step sin PI w w' -> spec_step (abs w) (abs w').
Proof.
  intros (d & L & I) Hstep. destruct (abs_inv w d L I) as [Habs Hw].
  pose proof (inv_draw _ _ _ _ _ I) as Hd.
  destruct Hstep as [w r Hl E|w w' d0 f Hl Hd0 Hf _ E|w w' d0 i g f Hl Hd0 _ E
                    |w w' d0 removed Hl Hd0 E|w v|w v|w a' i dd _ _ E|w];
    try (rewrite Hd in Hd0; injection Hd0 as <-).
  - rewrite Habs, Hl. rewrite Hl in Hw. rewrite Hw.
    destruct (load_abs w r d L I Hl E) as [Hc Hst].
    unfold abs. cbn [loaded]. rewrite Hc, Hst. apply sp_load.
  - refine (user_step_refines _ _ w w' d L (OCreate f) I Hl Hf _ E).
    now apply getAll_user_create.
  - refine (user_step_refines _ _ w w' d L (OUpdate i g) I Hl Logic.I _ E).
    apply getAll_user_update.
  - refine (user_step_refines _ _ w w' d L (OTrash removed) I Hl Logic.I _ E).
    apply getAll_user_trash.
  - apply sp_keep.
  - apply sp_keep.
  - destruct (delete_abs w a' i d L I E) as [Hc Hst].
    rewrite Habs. unfold abs. cbn [loaded]. rewrite Hc, Hst.
    destruct (loaded w).
    + apply sp_op with (o := ODelete i); [exact Logic.I|reflexivity|].
      simpl. now rewrite Hw.
    + rewrite Hw. apply (sp_list (ODelete i)). reflexivity.
  - destruct (clear_abs w d L I) as [Hc Hst].
    rewrite Habs. unfold abs. cbn [loaded]. rewrite Hc, Hst.
    destruct (loaded w).
    + apply sp_op with (o := OClear); [exact Logic.I|reflexivity|reflexivity].
    + rewrite Hw. apply (sp_list OClear). reflexivity.
Qed.

(** C2: every page state reachable from a localStorage holding the
    collection [L0] abstracts to a state the specification reaches from
    [L0]: the page's runs are runs of the specification. *)
Theorem reachable_refines st0 w L0 :
  wf_storage st0 -> saved_drawings st0 = Ok L0 -> reachable sin PI st0 w ->
  spec_reach L0 (abs w).
Proof.
  intros Hwf Hs0 R. induction R as [w E|w w' R IH Hstep].
  - unfold boot, initApp in E. rewrite Hs0 in E. injection E as <-.
    rewrite (abs_eq _ [] L0); [apply sr_init| |].
    + unfold collection. apply getAll_new.
    + unfold stored. cbn. now rewrite Hs0.
  - apply (sr_step _ (abs w)); [exact IH|].
    apply step_refines; [eapply reachable_inv; eauto|exact Hstep].
Qed.

Lemma find_feature_In i l : In i (ids l) -> exists f, find_feature i l = Some f.
Proof.
  induction l as [|g l IH]; simpl; [easy|]. intros Hi.
  destruct (String.eqb_spec (id g) i) as [E|Hne]; [eauto|].
  apply IH. destruct Hi as [E|Hi]; [congruence|exact Hi].
Qed.

(** A user interaction whose created features are in the widget is handled. *)
Lemma user_step_ok act e w d L :
  inv_at sin PI w d L ->
  (etype e = DrawCreate -> Forall (fun f => In (id f) (ids (getAll (act d)))) (efeatures e)) ->
  exists w', user_step sin PI act e w = Ok w'.
Proof.
  intros I Hin.
  destruct (updateMap_ok sin PI e (set_draw (Some (act d)) (ms w)) (st w) (act d) eq_refl Hin)
    as (r & Er).
  unfold user_step. rewrite (inv_draw _ _ _ _ _ I), Er. eexists; reflexivity.
Qed.

Lemma user_step_coll act e w w' d L :
  inv_at sin PI w d L -> user_step sin PI act e w = Ok w' -> a_coll (abs w') ≈ getAll (act d).
Proof. intros I E. apply (user_step_abs act e w w' d L I E). Qed.

(** A user interaction on a loaded page: the widget and localStorage hold
    the new collection. *)
Lemma user_op_result act e w w' d L l :
  inv_at sin PI w d L -> loaded w = true -> getAll (act d) = l ->
  user_step sin PI act e w = Ok w' ->
  loaded w' = true /\ collection w' ≈ l /\ stored w' ≈ l.
Proof.
  intros I Hl <- E. destruct (user_step_abs act e w w' d L I E) as (Hl' & Hc & Hs).
  rewrite Hl', Hs. split; [exact Hl|split; [exact Hc|reflexivity]].
Qed.

(** C5: on a loaded page every operation the specification allows is
    performed by the interaction that offers it ([perform]): a drawing,
    an edit or a trash in the widget, a click on a card's Delete, a click
    on "Clear Drawing List".  That interaction is handled without error,
    is a step of the page, and leaves the widget's collection and the
    stored collection both equal to the operation applied to the widget's
    collection (up to colours). *)
Theorem spec_ops_available w d L o :
  inv_at sin PI w d L -> loaded w = true -> avail o (getAll d) ->
  exists w', perform o w = Ok w' /\ step sin PI w w' /\ loaded w' = true /\
    collection w' ≈ apply o (getAll d) /\ stored w' ≈ apply o (getAll d).
Proof.
  intros I Hl Ho. pose proof (inv_draw _ _ _ _ _ I) as Hd.
  pose proof (inv_widget _ _ _ _ _ I) as Hw. rewrite Hl in Hw.
  destruct o as [f|i g|removed|i|]; cbn [avail apply] in *.
  - destruct Ho as [Hf Hp].
    destruct (user_step_ok (user_create f) (mk_event DrawCreate [f]) w d L I) as (w' & E).
    { intros _. constructor; [|constructor]. rewrite getAll_user_create by exact Hf.
      unfold ids. rewrite map_app. apply in_or_app. right. now left. }
    exists w'. split; [exact E|]. split; [eapply step_create; eauto|].
    exact (user_op_result _ _ w w' d L _ I Hl (getAll_user_create f d Hf) E).
  - destruct (find_feature_In i _ Ho) as (f & Hf).
    destruct (user_step_ok (user_update i g) (mk_event DrawUpdate [mk_feature i g (properties f)])
                w d L I) as (w' & E); [discriminate|].
    exists w'. split; [unfold perform; rewrite Hd; cbn [option_map]; rewrite Hf; exact E|].
    split; [eapply step_update; eauto|].
    exact (user_op_result _ _ w w' d L _ I Hl (getAll_user_update i g d) E).
  - destruct (user_step_ok (user_trash removed) (mk_event DrawDelete (selected removed (getAll d)))
                w d L I) as (w' & E); [discriminate|].
    exists w'. split; [unfold perform; rewrite Hd; exact E|].
    split; [eapply step_trash; eauto|].
    exact (user_op_result _ _ w w' d L _ I Hl (getAll_user_trash removed d) E).
  - pose proof (inv_list _ _ _ _ _ I) as HL.
    assert (HiL : In i (ids L)) by (now rewrite <- (ids_shape_proper _ _ Hw)).
    assert (exists a', AppComponent.deleteDrawing (mapRef sin PI) i (app w) = Ok a') as (a' & E)
      by (unfold AppComponent.deleteDrawing; rewrite HL; eexists; reflexivity).
    destruct (delete_abs w a' i d L I E) as [Hc Hs].
    exists (mk_sys a' (loaded w)). split; [unfold perform; now rewrite E|].
    split; [eapply step_delete_click; eauto|]. cbn [loaded]. rewrite Hc, Hs, Hw.
    split; [exact Hl|]. split; reflexivity.
  - destruct (clear_abs w d L I) as [Hc Hs].
    exists (mk_sys (handleClearList (mapRef sin PI) (app w)) (loaded w)).
    split; [reflexivity|]. split; [apply step_clear_click|]. cbn [loaded]. rewrite Hc, Hs.
    split; [exact Hl|]. split; reflexivity.
Qed.

(** C17: on every page reachable from well-formed storage, the map's
    ['load'] event can always fire before it has: the page is never stuck
    without its drawings, and after it the widget holds the stored
    collection. *)
Theorem load_enabled st0 w :
  wf_storage st0 -> reachable sin PI st0 w -> loaded w = false ->
  exists w', step sin PI w w' /\ loaded w' = true /\ collection w' = stored w.
Proof.
  intros Hwf R Hl. destruct (reachable_inv sin PI st0 w Hwf R) as (d & L & I).
  destruct (onLoad_ok sin PI (ms w) (st w) L (inv_saved _ _ _ _ _ I)) as (r & E).
  exists (mk_sys (run_child r (app w)) true).
  split; [now apply step_load|]. split; [reflexivity|].
  rewrite (proj1 (load_abs w r d L I Hl E)). unfold stored. now rewrite (inv_saved _ _ _ _ _ I).
Qed.

Lemma remove_ids_single i l : remove_ids [i] l = remove_id i l.
Proof. apply filter_ext. intros f. cbn. now rewrite orb_false_r. Qed.

(** What a user interaction shows: the area of the new collection, and
    that collection in App's list. *)
Lemma user_step_view act e w w' d L :
  inv_at sin PI w d L -> user_step sin PI act e w = Ok w' ->
  roundedArea (ms w') = Some (round2 (area sin PI (getAll (act d)))) /\
  drawData (app w') = Some (getAll (act d)).
Proof.
  intros [Hd _ _ _ _ _ _ _] E. unfold user_step in E. rewrite Hd in E.
  apply bind_eq_Ok in E as (r & Er & E). injection E as <-.
  destruct (updateMap_spec sin PI e (set_draw (Some (act d)) (ms w)) (st w) r (act d) eq_refl Er)
    as (d' & -> & _).
  unfold ms. cbn [app]. rewrite mapState_run_child, drawData_run_child_emit. auto.
Qed.

(** C18: on a loaded page, deleting a drawing from the list and trashing
    it in the widget are equivalent: the widget's collection, the stored
    collection and App's list agree up to colours, and the area shown is
    the same. *)
Theorem delete_equiv_trash w d L i a' w'' :
  inv_at sin PI w d L -> loaded w = true ->
  AppComponent.deleteDrawing (mapRef sin PI) i (app w) = Ok a' ->
  user_step sin PI (user_trash [i]) (mk_event DrawDelete (selected [i] (getAll d))) w = Ok w'' ->
  collection (mk_sys a' (loaded w)) ≈ collection w'' /\
  stored (mk_sys a' (loaded w)) ≈ stored w'' /\
  roundedArea (mapState a') = roundedArea (ms w'') /\
  exists L1 L2, drawData a' = Some L1 /\ drawData (app w'') = Some L2 /\ L1 ≈ L2.
Proof.
  intros I Hl E1 E2. pose proof (inv_widget _ _ _ _ _ I) as Hw. rewrite Hl in Hw.
  destruct (delete_abs w a' i d L I E1) as [Hc1 Hs1].
  destruct (delete_click_result sin PI w a' i d L I E1) as (_ & HL1 & _ & Ha1 & _).
  destruct (user_step_abs _ _ w w'' d L I E2) as (_ & Hc2 & Hs2).
  destruct (user_step_view _ _ w w'' d L I E2) as [Ha2 HL2].
  rewrite getAll_user_trash, remove_ids_single in Hc2, Hs2, Ha2, HL2.
  assert (HLd : remove_id i L ≈ remove_id i (getAll d)) by (now rewrite Hw).
  rewrite Hc1, Hs1, Hc2, Hs2, Ha1, Ha2. split; [reflexivity|]. split; [exact HLd|].
  split; [reflexivity|]. exists (remove_id i L), (remove_id i (getAll d)). auto.
Qed.

(** C19: on every loaded page reachable from well-formed storage, the
    heading counts the widget's features, the calculation box shows the
    rounded area of the widget's collection (or nothing while the widget
    is still empty and untouched), and the colour inputs show the colours
    the next drawing will get. *)
Theorem page_view_consistent st0 w :
  wf_storage st0 -> reachable sin PI st0 w -> loaded w = true ->
  render_heading (app w) = Ok (length (collection w)) /\
  (area_text (render_map (ms w)) = Some (round2 (area sin PI (collection w))) \/
   (collection w = [] /\ area_text (render_map (ms w)) = None)) /\
  line_input (render_map (ms w)) = lineColorRef (ms w) /\
  fill_input (render_map (ms w)) = fillColorRef (ms w).
Proof.
  intros Hwf R Hl. destruct (reachable_inv sin PI st0 w Hwf R) as (d & L & I).
  destruct I as [Hd HL _ _ Hlc Hfc Hw Ha]. rewrite Hl in Hw.
  unfold collection, render_heading, render_map. rewrite Hd, HL. cbn [area_text line_input fill_input].
  split; [now rewrite (length_shape_proper _ _ Hw)|]. split; [exact Ha|]. auto.
Qed.

End Laws.
End Abstraction.
End Abstraction.
