(* ===== verification/Page.v ===== *)
(** * Page: the page run on concrete inputs

    The components instantiated as the page runs them: the widget is
    [ListDraw] (mapbox-gl-draw's store), the codec is [Json.codec]
    ([JSON.stringify]/[JSON.parse]), [Math.sin] and [Math.PI] are
    [taylor_sin] and [taylor_pi].  The worlds below run from an empty
    localStorage: boot, the map's ['load'], the two colour pickers, the
    user drawing polygons and a Delete click; a hand-written entry holds a
    polygon whose hole exceeds its outer ring.  Each property with
    hypotheses is applied to one of them. *)

From stdpp Require Import base gmap strings.
From Stdlib Require Import Ascii String List Bool ZArith QArith Decimal DecimalString.
From S2P Require Import Prelude Feature Styles Draw Area Storage Json MapAdapter App System Refinement Paint.
Import ListNotations.
Import MapAdapter.MapComponent App.AppComponent System.System ListDraw Refinement.Spec Refinement.Abstraction Paint.Paint.
Local Open Scope mapfun_scope.
Local Open Scope string_scope.

Abbreviation PageWorld := (World (list feature)).

Definition run_ok {A} (dflt : A) (r : result A) : A :=
  match r with Ok a => a | Err _ => dflt end.

Definition empty_storage : storage := ∅.

Definition no_world : PageWorld := mk_sys (mk_world initialState None empty_storage []) false.

(** A 0.001 degree square at the origin, and a second one beside it. *)
Definition square (x : Z) : Geometry :=
  Polygon [[(x, 0); (x, 1000); (x + 1000, 1000); (x + 1000, 0); (x, 0)]]%Z.

Definition poly_a : feature := mk_feature "a1" (square 0) [].
Definition poly_b : feature := mk_feature "b2" (square 2000) [].

Definition page_step (act : list feature -> list feature) (e : draw_event) (w : PageWorld)
  : PageWorld :=
  run_ok no_world (user_step taylor_sin taylor_pi act e w).

(** Boot from an empty localStorage, then the map's ['load']. *)
Definition w_boot : PageWorld := run_ok no_world (boot empty_storage).
Definition r_load := run_ok (initialState, empty_storage, [])
                            (onLoad taylor_sin taylor_pi (ms w_boot) (st w_boot)).
Definition w_load : PageWorld := mk_sys (run_child r_load (app w_boot)) true.

(** The colour pickers: [#ff0000] for lines, [#00ff00] for fills. *)
Definition w_line : PageWorld :=
  with_map (syncColorRefs (handleLineColorChange "#ff0000" (ms w_load))) w_load.
Definition w_fill : PageWorld :=
  with_map (syncColorRefs (handleFillColorChange "#00ff00" (ms w_line))) w_line.

(** The user draws [poly_a], then [poly_b]. *)
Definition w_a : PageWorld :=
  page_step (user_create poly_a) (mk_event DrawCreate [poly_a]) w_fill.
Definition w_ab : PageWorld :=
  page_step (user_create poly_b) (mk_event DrawCreate [poly_b]) w_a.

(** A click on the first card's Delete. *)
Definition w_del : PageWorld :=
  mk_sys (run_ok (app w_ab) (AppComponent.deleteDrawing (mapRef taylor_sin taylor_pi) "a1" (app w_ab)))
         (loaded w_ab).

(** The widget's collection in a world. *)
Definition widget (w : PageWorld) : list feature :=
  match draw (ms w) with Some d => d | None => [] end.

(** ** Evaluation tactics *)

Ltac eval_eq := vm_compute; reflexivity.

(** [~ In x l] for a concrete list of strings. *)
Ltac not_in :=
  let H := fresh in
  intros H; vm_compute in H;
  repeat match type of H with _ \/ _ => destruct H as [H|H]; [discriminate H|] end;
  exact H.

Ltac nodup_ids :=
  vm_compute; repeat (constructor; [not_in|]); constructor.

Ltac inv_at_tac :=
  split;
  [ eval_eq | eval_eq | eval_eq | nodup_ids | eval_eq | eval_eq
  | first [ apply shape_eqb_spec; eval_eq | eval_eq ]
  | first [ left; eval_eq | right; split; eval_eq ] ].

(** ** The runs are reachable from an empty localStorage *)

Lemma wf_empty : wf_storage empty_storage.
Proof. intros L E. vm_compute in E. injection E as <-. constructor. Qed.

Lemma reach_a : reachable taylor_sin taylor_pi empty_storage w_a.
Proof.
  apply (reach_step _ _ _ w_fill); [apply (reach_step _ _ _ w_line); [apply (reach_step _ _ _ w_load)|]|].
  - apply (reach_step _ _ _ w_boot); [apply reach_boot; eval_eq|].
    apply (step_load _ _ w_boot r_load); eval_eq.
  - apply step_line_color.
  - apply step_fill_color.
  - apply (step_create _ _ w_fill w_a (widget w_fill) poly_a); try eval_eq. not_in.
Qed.

Lemma reach_ab : reachable taylor_sin taylor_pi empty_storage w_ab.
Proof.
  apply (reach_step _ _ _ w_a); [exact reach_a|].
  apply (step_create _ _ w_a w_ab (widget w_a) poly_b); try eval_eq. not_in.
Qed.

Lemma inv_at_fill : inv_at taylor_sin taylor_pi w_fill (widget w_fill) [].
Proof. inv_at_tac. Qed.

Lemma inv_at_a : inv_at taylor_sin taylor_pi w_a (widget w_a) [poly_a].
Proof. inv_at_tac. Qed.

(** ** Witnesses of the system properties *)

Lemma reachable_consistent_witness :
  wf_storage empty_storage /\ reachable taylor_sin taylor_pi empty_storage w_ab /\
  exists d L, draw (ms w_ab) = Some d /\ drawData (app w_ab) = Some L /\
    saved_drawings (st w_ab) = Ok L /\ getAll d ≈ L.
Proof.
  split; [exact wf_empty|]. split; [exact reach_ab|].
  destruct (reachable_consistent taylor_sin taylor_pi empty_storage w_ab wf_empty reach_ab)
    as (d & L & Hd & HL & Hs & _ & Hw & _).
  exists d, L. split; [exact Hd|]. split; [exact HL|]. split; [exact Hs|]. now apply Hw.
Defined.

Lemma create_colors_only_in_widget_witness :
  inv_at taylor_sin taylor_pi w_fill (widget w_fill) [] /\
  ~ In (id poly_a) (ids (getAll (widget w_fill))) /\
  user_step taylor_sin taylor_pi (user_create poly_a) (mk_event DrawCreate [poly_a]) w_fill = Ok w_a /\
  drawData (app w_a) = Some [poly_a] /\
  exists d', draw (ms w_a) = Some d' /\
    find_feature (id poly_a) (getAll d') =
      Some (mk_feature "a1" (square 0) [("lineColor", "#ff0000"); ("fillColor", "#00ff00")]).
Proof.
  assert (Hf : ~ In (id poly_a) (ids (getAll (widget w_fill)))) by not_in.
  assert (E : user_step taylor_sin taylor_pi (user_create poly_a) (mk_event DrawCreate [poly_a]) w_fill
              = Ok w_a) by eval_eq.
  split; [exact inv_at_fill|]. split; [exact Hf|]. split; [exact E|].
  destruct (create_colors_only_in_widget taylor_sin taylor_pi w_fill w_a (widget w_fill) [] poly_a
              inv_at_fill Hf E) as (HL & _ & d' & Hd & Hc).
  split; [exact HL|]. exists d'. split; [exact Hd|]. rewrite Hc. eval_eq.
Defined.

Lemma reload_restores_list_witness :
  inv_at taylor_sin taylor_pi w_a (widget w_a) [poly_a] /\ loaded w_a = true /\
  exists w0 w1, boot (st w_a) = Ok w0 /\ step taylor_sin taylor_pi w0 w1 /\
    drawData (app w1) = Some [poly_a] /\
    exists d1, draw (ms w1) = Some d1 /\ getAll d1 = [poly_a].
Proof.
  split; [exact inv_at_a|]. split; [reflexivity|].
  exact (reload_restores_list taylor_sin taylor_pi w_a (widget w_a) [poly_a] inv_at_a eq_refl).
Defined.

Lemma render_lists_widget_witness :
  wf_storage empty_storage /\ reachable taylor_sin taylor_pi empty_storage w_ab /\
  loaded w_ab = true /\
  exists d v, draw (ms w_ab) = Some d /\ render (app w_ab) = Ok v /\
    view_ids v = ids (getAll d) /\
    exists a', AppComponent.deleteDrawing (mapRef taylor_sin taylor_pi) "a1" (app w_ab) = Ok a'.
Proof.
  split; [exact wf_empty|]. split; [exact reach_ab|]. split; [reflexivity|].
  exact (render_lists_widget taylor_sin taylor_pi empty_storage w_ab "a1" wf_empty reach_ab eq_refl).
Defined.

(** ** Witnesses of the Map component's properties *)

(** The widget right after the user drew [poly_b], before [updateMap]. *)
Definition ms_b : MapState (list feature) :=
  set_draw (Some (user_create poly_b (widget w_a))) (ms w_a).

Definition um_b : MapState (list feature) * storage * list output :=
  run_ok (ms_b, st w_a, []) (updateMap taylor_sin taylor_pi (mk_event DrawCreate [poly_b]) ms_b (st w_a)).

Lemma updateMap_persists_snapshot_witness :
  draw ms_b = Some (user_create poly_b (widget w_a)) /\
  updateMap taylor_sin taylor_pi (mk_event DrawCreate [poly_b]) ms_b (st w_a) =
    Ok (fst (fst um_b), snd (fst um_b), snd um_b) /\
  snd (fst um_b) = storeDrawings (Some (getAll (user_create poly_b (widget w_a)))) (st w_a) /\
  roundedArea (fst (fst um_b)) =
    Some (round2 (area taylor_sin taylor_pi (getAll (user_create poly_b (widget w_a))))).
Proof.
  assert (Hd : draw ms_b = Some (user_create poly_b (widget w_a))) by reflexivity.
  assert (E : updateMap taylor_sin taylor_pi (mk_event DrawCreate [poly_b]) ms_b (st w_a) =
                Ok (fst (fst um_b), snd (fst um_b), snd um_b)) by eval_eq.
  split; [exact Hd|]. split; [exact E|].
  destruct (updateMap_persists_snapshot taylor_sin taylor_pi _ _ _ _ _ _ _ Hd E) as (Hs & _ & Ha).
  split; [exact Hs|exact Ha].
Defined.

Lemma updateMap_create_ok_witness :
  draw ms_b = Some (user_create poly_b (widget w_a)) /\ [poly_b] <> [] /\
  Forall (fun f => In (id f) (ids (getAll (user_create poly_b (widget w_a))))) [poly_b] /\
  exists ms' st' outs,
    updateMap taylor_sin taylor_pi (mk_event DrawCreate [poly_b]) ms_b (st w_a) = Ok (ms', st', outs) /\
    forall m, ~ In (Alert m) outs.
Proof.
  assert (Hd : draw ms_b = Some (user_create poly_b (widget w_a))) by reflexivity.
  assert (Hne : [poly_b] <> []) by discriminate.
  assert (Hin : Forall (fun f => In (id f) (ids (getAll (user_create poly_b (widget w_a))))) [poly_b])
    by (constructor; [apply existsb_eqb_In; eval_eq|constructor]).
  split; [exact Hd|]. split; [exact Hne|]. split; [exact Hin|].
  exact (updateMap_create_ok taylor_sin taylor_pi ms_b (st w_a) _ [poly_b] Hd Hne Hin).
Defined.

Lemma updateMap_missing_throws_witness :
  draw (ms w_a) = Some (widget w_a) /\ ~ In (id poly_b) (ids (getAll (widget w_a))) /\
  updateMap taylor_sin taylor_pi (mk_event DrawCreate [poly_b]) (ms w_a) (st w_a) =
    Err missing_feature_error.
Proof.
  assert (Hd : draw (ms w_a) = Some (widget w_a)) by eval_eq.
  assert (Hf : ~ In (id poly_b) (ids (getAll (widget w_a)))) by not_in.
  split; [exact Hd|]. split; [exact Hf|].
  exact (updateMap_missing_throws taylor_sin taylor_pi (ms w_a) (st w_a) _ poly_b [] Hd Hf).
Defined.

Lemma clearAll_no_emit_no_store_witness :
  draw (ms w_ab) = Some (widget w_ab) /\
  let '(ms', st', outs) := clearAll (ms w_ab) (st w_ab) in
  st' = st w_ab /\ outs = [] /\ roundedArea ms' = Some 0%Q /\
  exists d', draw ms' = Some d' /\ getAll d' = [].
Proof.
  assert (Hd : draw (ms w_ab) = Some (widget w_ab)) by eval_eq.
  split; [exact Hd|]. exact (clearAll_no_emit_no_store (ms w_ab) (st w_ab) _ Hd).
Defined.

Lemma deleteDrawing_absent_witness :
  draw (ms w_ab) = Some (widget w_ab) /\ ~ In "zz" (ids (getAll (widget w_ab))) /\
  let '(ms', st', outs) := MapComponent.deleteDrawing taylor_sin taylor_pi "zz" (ms w_ab) (st w_ab) in
  (exists d', draw ms' = Some d' /\ getAll d' = getAll (widget w_ab)) /\
  outs = [Emit (Some (getAll (widget w_ab)))] /\
  st' = storeDrawings (Some (getAll (widget w_ab))) (st w_ab).
Proof.
  assert (Hd : draw (ms w_ab) = Some (widget w_ab)) by eval_eq.
  assert (Hi : ~ In "zz" (ids (getAll (widget w_ab)))) by not_in.
  split; [exact Hd|]. split; [exact Hi|].
  exact (deleteDrawing_absent taylor_sin taylor_pi (ms w_ab) (st w_ab) _ "zz" Hd Hi).
Defined.

(** A localStorage whose entry is not JSON, and one holding [[]]. *)
Definition corrupted_storage : storage := setItem user_drawings_key "[oops" empty_storage.
Definition empty_array_storage : storage := setItem user_drawings_key (stringify []) empty_storage.
Definition parse_error : js_error := SyntaxError "Unexpected token in JSON".

Lemma onLoad_parse_error_witness :
  getItem user_drawings_key corrupted_storage = Some "[oops" /\ "[oops" <> EmptyString /\
  parse "[oops" = Err parse_error /\
  onLoad taylor_sin taylor_pi (ms w_boot) corrupted_storage = Err parse_error.
Proof.
  assert (Hg : getItem user_drawings_key corrupted_storage = Some "[oops") by eval_eq.
  assert (Hs : "[oops" <> EmptyString) by discriminate.
  assert (Hp : parse "[oops" = Err parse_error) by eval_eq.
  split; [exact Hg|]. split; [exact Hs|]. split; [exact Hp|].
  exact (onLoad_parse_error taylor_sin taylor_pi (ms w_boot) _ _ _ Hg Hs Hp).
Defined.

Lemma onLoad_empty_array_no_alert_witness :
  getItem user_drawings_key empty_array_storage = Some (stringify []) /\
  (exists ms', onLoad taylor_sin taylor_pi (ms w_boot) empty_array_storage =
                 Ok (ms', empty_array_storage, [])) /\
  onLoad taylor_sin taylor_pi (ms w_boot) (removeItem user_drawings_key empty_array_storage) =
    Ok (ms w_boot, removeItem user_drawings_key empty_array_storage, [Alert alert_no_saved]).
Proof.
  assert (Hg : getItem user_drawings_key empty_array_storage = Some (stringify [])) by eval_eq.
  split; [exact Hg|].
  exact (onLoad_empty_array_no_alert taylor_sin taylor_pi (ms w_boot) _ Hg).
Defined.

Lemma commands_without_widget_witness :
  draw (@initialState (list feature)) = None /\
  clearAll initialState empty_storage = (initialState, empty_storage, []) /\
  MapComponent.deleteDrawing taylor_sin taylor_pi "a1" initialState empty_storage =
    (initialState, empty_storage, []).
Proof.
  split; [reflexivity|].
  exact (commands_without_widget taylor_sin taylor_pi initialState empty_storage "a1" eq_refl).
Defined.

(** ** Witnesses of App's properties *)

(** The list App shows in a world. *)
Definition list_of (w : PageWorld) : list feature :=
  match drawData (app w) with Some l => l | None => [] end.

Lemma deleteDrawing_result_witness :
  drawData (app w_ab) = Some (list_of w_ab) /\
  exists w', AppComponent.deleteDrawing (mapRef taylor_sin taylor_pi) "a1" (app w_ab) = Ok w' /\
    drawData w' = Some (remove_id "a1" (list_of w_ab)) /\
    getItem user_drawings_key (localStorage w') = Some (stringify (remove_id "a1" (list_of w_ab))).
Proof.
  assert (Hd : drawData (app w_ab) = Some (list_of w_ab)) by eval_eq.
  split; [exact Hd|]. exact (deleteDrawing_result _ "a1" (app w_ab) _ Hd).
Defined.

Lemma initApp_parse_error_witness :
  getItem user_drawings_key corrupted_storage = Some "[oops" /\ "[oops" <> EmptyString /\
  parse "[oops" = Err parse_error /\
  initApp (ms w_boot) corrupted_storage = Err parse_error.
Proof.
  assert (Hg : getItem user_drawings_key corrupted_storage = Some "[oops") by eval_eq.
  assert (Hs : "[oops" <> EmptyString) by discriminate.
  assert (Hp : parse "[oops" = Err parse_error) by eval_eq.
  split; [exact Hg|]. split; [exact Hs|]. split; [exact Hp|].
  exact (initApp_parse_error (ms w_boot) _ _ _ Hg Hs Hp).
Defined.

Lemma cards_from_nth_witness :
  nth_error (list_of w_ab) 1 = Some poly_b /\
  nth_error (cards_from 0 (list_of w_ab)) 1 = Some (mk_card 2 "Polygon" "b2").
Proof.
  assert (Hn : nth_error (list_of w_ab) 1 = Some poly_b) by eval_eq.
  split; [exact Hn|]. exact (cards_from_nth 0 (list_of w_ab) 1 poly_b Hn).
Defined.

(** ** Witnesses of the area's properties *)

Lemma round2_pos_witness :
  ((1 # 200) <= taylor_area [poly_a])%Q /\ (0 < round2 (taylor_area [poly_a]))%Q.
Proof.
  assert (H : ((1 # 200) <= taylor_area [poly_a])%Q) by (apply Qle_bool_imp_le; eval_eq).
  split; [exact H|]. exact (round2_pos _ H).
Defined.

Lemma inv_at_ab : inv_at taylor_sin taylor_pi w_ab (widget w_ab) (list_of w_ab).
Proof. inv_at_tac. Qed.

Definition a_zz : AppWorld (MapState (list feature)) :=
  run_ok (app w_ab) (AppComponent.deleteDrawing (mapRef taylor_sin taylor_pi) "zz" (app w_ab)).

Lemma delete_absent_noop_witness :
  inv_at taylor_sin taylor_pi w_ab (widget w_ab) (list_of w_ab) /\ loaded w_ab = true /\
  ~ In "zz" (ids (list_of w_ab)) /\
  AppComponent.deleteDrawing (mapRef taylor_sin taylor_pi) "zz" (app w_ab) = Ok a_zz /\
  drawData a_zz = Some (list_of w_ab) /\ saved_drawings (localStorage a_zz) = Ok (list_of w_ab).
Proof.
  assert (Hi : ~ In "zz" (ids (list_of w_ab))) by not_in.
  assert (E : AppComponent.deleteDrawing (mapRef taylor_sin taylor_pi) "zz" (app w_ab) = Ok a_zz)
    by eval_eq.
  split; [exact inv_at_ab|]. split; [reflexivity|]. split; [exact Hi|]. split; [exact E|].
  destruct (delete_absent_noop taylor_sin taylor_pi w_ab a_zz "zz" _ _ inv_at_ab eq_refl Hi E)
    as (HL & Hs & _). split; [exact HL|exact Hs].
Defined.

(** ** What the map paints *)

(** mapbox-gl-draw's mode after a drawing is finished. *)
Definition after_draw : string := "simple_select".

Lemma draw_colors_painted_witness :
  after_draw <> "static" /\
  painted after_draw fill_layer "fill-color" (hd poly_a (widget w_a)) = Some "#00ff00" /\
  painted after_draw (nth 2 getCustomDrawStyles fill_layer) "line-color" (hd poly_a (widget w_a)) =
    Some "#ff0000".
Proof.
  assert (Hm : after_draw <> "static") by discriminate.
  split; [exact Hm|].
  pose proof (draw_colors_painted after_draw (hd poly_a (widget w_a)) Hm) as H.
  vm_compute in H. vm_compute. exact H.
Defined.

(** A polygon drawn before any colour is picked. *)
Definition w_nocolour : PageWorld :=
  page_step (user_create poly_a) (mk_event DrawCreate [poly_a]) w_load.

(** ** Witnesses of the refinement *)

Lemma reachable_refines_witness :
  wf_storage empty_storage /\ saved_drawings empty_storage = Ok [] /\
  reachable taylor_sin taylor_pi empty_storage w_ab /\ spec_reach [] (abs w_ab).
Proof.
  assert (Hs : saved_drawings empty_storage = Ok []) by eval_eq.
  split; [exact wf_empty|]. split; [exact Hs|]. split; [exact reach_ab|].
  exact (reachable_refines taylor_sin taylor_pi empty_storage w_ab [] wf_empty Hs reach_ab).
Defined.

Lemma spec_ops_available_witness :
  inv_at taylor_sin taylor_pi w_a (widget w_a) [poly_a] /\ loaded w_a = true /\
  avail (ODelete "a1") (getAll (widget w_a)) /\
  exists w', perform taylor_sin taylor_pi (ODelete "a1") w_a = Ok w' /\
    step taylor_sin taylor_pi w_a w' /\ loaded w' = true /\
    collection w' ≈ Spec.apply (ODelete "a1") (getAll (widget w_a)) /\
    stored w' ≈ Spec.apply (ODelete "a1") (getAll (widget w_a)).
Proof.
  assert (Ho : avail (ODelete "a1") (getAll (widget w_a))) by (vm_compute; left; reflexivity).
  split; [exact inv_at_a|]. split; [reflexivity|]. split; [exact Ho|].
  exact (spec_ops_available taylor_sin taylor_pi w_a (widget w_a) [poly_a] _ inv_at_a eq_refl Ho).
Defined.

(** ** Witnesses of the fuel, liveness, equivalence, view and storage properties *)

Lemma load_enabled_witness :
  wf_storage empty_storage /\ reachable taylor_sin taylor_pi empty_storage w_boot /\
  loaded w_boot = false /\
  exists w', step taylor_sin taylor_pi w_boot w' /\ loaded w' = true /\ collection w' = stored w_boot.
Proof.
  assert (R : reachable taylor_sin taylor_pi empty_storage w_boot) by (apply reach_boot; eval_eq).
  split; [exact wf_empty|]. split; [exact R|]. split; [reflexivity|].
  exact (load_enabled taylor_sin taylor_pi empty_storage w_boot wf_empty R eq_refl).
Defined.

(** The user trashing [poly_a] in the widget instead of clicking Delete. *)
Definition w_trash : PageWorld :=
  page_step (user_trash ["a1"]) (mk_event DrawDelete (selected ["a1"] (getAll (widget w_ab)))) w_ab.

Lemma delete_equiv_trash_witness :
  inv_at taylor_sin taylor_pi w_ab (widget w_ab) (list_of w_ab) /\ loaded w_ab = true /\
  AppComponent.deleteDrawing (mapRef taylor_sin taylor_pi) "a1" (app w_ab) = Ok (app w_del) /\
  user_step taylor_sin taylor_pi (user_trash ["a1"])
    (mk_event DrawDelete (selected ["a1"] (getAll (widget w_ab)))) w_ab = Ok w_trash /\
  roundedArea (mapState (app w_del)) = roundedArea (ms w_trash).
Proof.
  assert (E1 : AppComponent.deleteDrawing (mapRef taylor_sin taylor_pi) "a1" (app w_ab) = Ok (app w_del))
    by eval_eq.
  assert (E2 : user_step taylor_sin taylor_pi (user_trash ["a1"])
                 (mk_event DrawDelete (selected ["a1"] (getAll (widget w_ab)))) w_ab = Ok w_trash)
    by eval_eq.
  split; [exact inv_at_ab|]. split; [reflexivity|]. split; [exact E1|]. split; [exact E2|].
  exact (proj1 (proj2 (proj2 (delete_equiv_trash taylor_sin taylor_pi w_ab _ _ "a1" _ _
                                 inv_at_ab eq_refl E1 E2)))).
Defined.

Lemma page_view_consistent_witness :
  wf_storage empty_storage /\ reachable taylor_sin taylor_pi empty_storage w_ab /\
  loaded w_ab = true /\
  render_heading (app w_ab) = Ok (length (collection w_ab)) /\
  line_input (render_map (ms w_ab)) = lineColorRef (ms w_ab).
Proof.
  split; [exact wf_empty|]. split; [exact reach_ab|]. split; [reflexivity|].
  destruct (page_view_consistent taylor_sin taylor_pi empty_storage w_ab wf_empty reach_ab eq_refl)
    as (Hh & _ & Hl & _).
  split; [exact Hh|exact Hl].
Defined.

(** ** A stored polygon with a hole larger than its outer ring *)

Definition ring (x0 x1 : Z) : list position := [(x0, 0); (x0, x1); (x1, x1); (x1, 0); (x0, 0)]%Z.

(** Not drawable in the widget, but valid GeoJSON a localStorage entry
    written by hand or by another page can hold. *)
Definition poly_h : feature := mk_feature "h1" (Polygon [ring 0 1000; ring 0 2000]) [].
Definition st_h : storage := setItem user_drawings_key (stringify [poly_h]) empty_storage.
Definition w_hboot : PageWorld := run_ok no_world (boot st_h).
Definition r_h := run_ok (initialState, empty_storage, [])
                         (onLoad taylor_sin taylor_pi (ms w_hboot) (st w_hboot)).
Definition w_hole : PageWorld := mk_sys (run_child r_h (app w_hboot)) true.

Lemma onLoad_negative_area_witness :
  draw (ms w_hboot) = Some [] /\ getAll (S := list feature) [] = [] /\
  saved_drawings st_h = Ok [poly_h] /\ List.NoDup (ids [poly_h]) /\
  (taylor_area [poly_h] < -(1 # 200))%Q /\
  onLoad taylor_sin taylor_pi (ms w_hboot) st_h = Ok r_h /\
  roundedArea (fst (fst r_h)) = Some (round2 (taylor_area [poly_h])) /\
  (round2 (taylor_area [poly_h]) < 0)%Q.
Proof.
  assert (Hd : draw (ms w_hboot) = Some []) by eval_eq.
  assert (He : getAll (S := list feature) [] = []) by reflexivity.
  assert (Hs : saved_drawings st_h = Ok [poly_h]) by eval_eq.
  assert (Hnd : List.NoDup (ids [poly_h])) by nodup_ids.
  assert (Ha : (taylor_area [poly_h] < -(1 # 200))%Q) by (apply Qlt_alt; eval_eq).
  assert (E : onLoad taylor_sin taylor_pi (ms w_hboot) st_h = Ok r_h) by eval_eq.
  do 6 (split; [assumption|]).
  exact (onLoad_negative_area taylor_sin taylor_pi _ _ _ _ _ Hd He Hs Hnd Ha E).
Defined.

(** ** The two ways of emptying the list, and what the map paints *)

Definition a_del_a : AppWorld (MapState (list feature)) :=
  run_ok (app w_a) (AppComponent.deleteDrawing (mapRef taylor_sin taylor_pi) (id poly_a) (app w_a)).

Lemma emptied_list_reload_witness :
  inv_at taylor_sin taylor_pi w_a (widget w_a) [poly_a] /\
  AppComponent.deleteDrawing (mapRef taylor_sin taylor_pi) (id poly_a) (app w_a) = Ok a_del_a /\
  exists w0 r, boot (localStorage a_del_a) = Ok w0 /\
    onLoad taylor_sin taylor_pi (ms w0) (st w0) = Ok r /\
    drawData (run_child r (app w0)) = Some [] /\ alerts (run_child r (app w0)) = [].
Proof.
  assert (E : AppComponent.deleteDrawing (mapRef taylor_sin taylor_pi) (id poly_a) (app w_a) = Ok a_del_a)
    by eval_eq.
  split; [exact inv_at_a|]. split; [exact E|].
  exact (proj1 (emptied_list_reload taylor_sin taylor_pi w_a _ poly_a a_del_a inv_at_a E)).
Defined.

Definition rings_a : list (list position) :=
  match geometry poly_a with Polygon r => r | LineString _ => [] end.

Lemma create_then_reload_paint_witness :
  inv_at taylor_sin taylor_pi w_fill (widget w_fill) [] /\ ~ In (id poly_a) (ids (getAll (widget w_fill))) /\
  properties poly_a = [] /\ geometry poly_a = Polygon rings_a /\ after_draw <> "static" /\
  user_step taylor_sin taylor_pi (user_create poly_a) (mk_event DrawCreate [poly_a]) w_fill = Ok w_a /\
  exists w0 w1 d1, boot (st w_a) = Ok w0 /\ step taylor_sin taylor_pi w0 w1 /\ draw (ms w1) = Some d1 /\
    find_feature (id poly_a) (getAll d1) = Some poly_a /\
    painted after_draw fill_layer "fill-color" poly_a = Some color_default /\
    painted after_draw (nth 2 getCustomDrawStyles fill_layer) "line-color" poly_a = Some color_default.
Proof.
  assert (Hf : ~ In (id poly_a) (ids (getAll (widget w_fill)))) by not_in.
  assert (Hg : geometry poly_a = Polygon rings_a) by reflexivity.
  assert (Hm : after_draw <> "static") by discriminate.
  assert (E : user_step taylor_sin taylor_pi (user_create poly_a) (mk_event DrawCreate [poly_a]) w_fill = Ok w_a)
    by eval_eq.
  split; [exact inv_at_fill|]. split; [exact Hf|]. split; [reflexivity|]. split; [exact Hg|].
  split; [exact Hm|]. split; [exact E|].
  exact (proj2 (create_then_reload_paint taylor_sin taylor_pi w_fill w_a _ _ poly_a rings_a after_draw
                  inv_at_fill Hf eq_refl Hg Hm E)).
Defined.

(** ** React keys of the cards *)

Definition dd_collide : list feature := [mk_feature "1" (square 0) []; mk_feature "" (square 2000) []].

(** A stored drawing with an empty id at position 1, after one whose id
    is "1": both cards get the key "1". *)
Lemma card_keys_collide_witness :
  nth_error dd_collide 1 = Some (mk_feature "" (square 2000) []) /\
  id (mk_feature "" (square 2000) []) = EmptyString /\
  nth_error dd_collide 0 = Some (mk_feature "1" (square 0) []) /\
  id (mk_feature "1" (square 0) []) = NilEmpty.string_of_uint (Nat.to_uint 1) /\
  ~ List.NoDup (card_keys 0 dd_collide).
Proof.
  assert (H1 : nth_error dd_collide 1 = Some (mk_feature "" (square 2000) [])) by reflexivity.
  assert (H2 : nth_error dd_collide 0 = Some (mk_feature "1" (square 0) [])) by reflexivity.
  assert (E1 : id (mk_feature "" (square 2000) []) = EmptyString) by reflexivity.
  assert (E2 : id (mk_feature "1" (square 0) []) = NilEmpty.string_of_uint (Nat.to_uint 1)) by reflexivity.
  split; [exact H1|]. split; [exact E1|]. split; [exact H2|]. split; [exact E2|].
  exact (card_keys_collide dd_collide 1 0 _ _ H1 E1 H2 E2).
Defined.
